(** * trainval_net.py: the group / epoch / iteration training loop

    A shallow embedding of the script [trainval_net.py], which trains a
    Faster R-CNN detector over successive groups of object classes.

    The script is orchestration code over a deep-learning framework.  The
    framework (tensors, models, optimizers, data loading) and the helpers
    imported from [model.utils.net_utils], [roi_data_layer] and [datasets]
    are an interface, the class [Torch]: their operations are functions of
    their arguments, and everything below is proved for every
    implementation of it.  What the script itself does is modelled
    concretely: its variables, its control flow, the exceptions its own
    expressions raise, and what it prints, logs and saves.

    The embedding starts after [parse_args], [cfg_from_file] and [cfg_fix]:
    the parsed arguments [Args] and the final configuration [Cfg] are its
    inputs.  The prints of the arguments and of the configuration, the
    seeding of numpy and the progress bars of [trange] are left out; what
    [tqdm.write], [print], tensorboard and [save_checkpoint] receive in
    and after the group loop is kept, in order, as the events of a run. *)

From Stdlib Require Import ZArith List String Ascii Lia Bool DecimalString QArith.
From Stdlib Require PrimFloat Uint63.
Import ListNotations.
Open Scope string_scope.
Open Scope Z_scope.

Set Implicit Arguments.

(** ** Python built-ins used by the script *)

Module Py.

(** Exceptions raised by the script's own expressions. *)
Inductive Exc : Type :=
| KeyError (msg : string)
| IndexError
| ZeroDivisionError
| ValueError
| TypeError
| StopIteration
| AttributeError.

(** [str(n)] and ['{}'.format(n)] for an int. *)
Definition str (z : Z) : string := NilZero.string_of_int (Z.to_int z).

(** [range(a, b)]. *)
Definition range (a b : Z) : list Z :=
  map (fun i => a + Z.of_nat i) (seq 0 (Z.to_nat (b - a))).

(** [l[i]]: a negative index counts from the end, an index out of range
    raises IndexError. *)
Definition index {A : Type} (l : list A) (i : Z) : Exc + A :=
  let n := Z.of_nat (List.length l) in
  let j := if i <? 0 then i + n else i in
  if (j <? 0) || (n <=? j) then inl IndexError
  else match nth_error l (Z.to_nat j) with
       | Some a => inr a
       | None => inl IndexError
       end.

(** [l[:k]]: a negative bound counts from the end, and bounds are clipped. *)
Definition slice_to {A : Type} (l : list A) (k : Z) : list A :=
  let n := Z.of_nat (List.length l) in
  let j := if k <? 0 then Z.max 0 (k + n) else k in
  firstn (Z.to_nat j) l.

(** [a // b] and [a % b] on ints: floor division, as [Z.div] and
    [Z.modulo]; a zero divisor raises. *)
Definition floordiv (a b : Z) : Exc + Z :=
  if b =? 0 then inl ZeroDivisionError else inr (a / b).

Definition mod_ (a b : Z) : Exc + Z :=
  if b =? 0 then inl ZeroDivisionError else inr (a mod b).

(** [s.startswith(p)], [p in s] and [s[k:]] on strings. *)
Definition startswith (s p : string) : bool := prefix p s.

Definition contains (p s : string) : bool :=
  match String.index 0 p s with Some _ => true | None => false end.

Definition slice_from (s : string) (k : nat) : string :=
  substring k (String.length s - k) s.

Fixpoint endswith_sep (s : string) : bool :=
  match s with
  | EmptyString => false
  | String c s' =>
      match s' with
      | EmptyString => Ascii.eqb c "/"
      | String _ _ => endswith_sep s'
      end
  end.

(** No character of [s] is the separator. *)
Fixpoint no_sep (s : string) : bool :=
  match s with
  | EmptyString => true
  | String c s' => negb (Ascii.eqb c "/") && no_sep s'
  end.

(** [os.path.join(a, *p)] of posixpath. *)
Definition join2 (path b : string) : string :=
  if startswith b "/" then b
  else if (String.length path =? 0)%nat || endswith_sep path then path ++ b
  else path ++ "/" ++ b.

Definition path_join (a : string) (p : list string) : string :=
  fold_left join2 p a.

End Py.

(** ** Command-line arguments and configuration *)

(** [--save_dir] is declared with [nargs=argparse.REMAINDER]: absent, it is
    the default string; given, argparse stores the list of the remaining
    arguments. *)
Inductive SaveDir : Type :=
| SaveDirStr (s : string)
| SaveDirList (l : list string).

Record Args : Type := {
  session : Z;
  group : Z;
  dataset : string;
  net : string;
  large_scale : bool;
  class_agnostic : bool;
  use_tfboard : bool;
  save_dir : SaveDir;
  save_without_repr : bool;
  config_file : option string
}.

(** Values returned by the detector's forward pass, in the order the script
    unpacks them, and a batch [data] of the loader. *)
Record Outputs (Tensor : Type) : Type := {
  rois : Tensor; cls_prob : Tensor; bbox_pred : Tensor;
  rpn_label : Tensor; rpn_feature : Tensor; rpn_cls_score : Tensor;
  rois_label : Tensor; pooled_feat : Tensor; cls_score : Tensor;
  rpn_loss_cls : Tensor; rpn_loss_bbox : Tensor;
  RCNN_loss_cls : Tensor; RCNN_loss_bbox : Tensor
}.

Record Batch (Tensor : Type) : Type := {
  data0 : Tensor; data1 : Tensor; data2 : Tensor; data3 : Tensor;
  data4 : list string
}.

(** One entry of [params]: [{'params': [value], 'lr': ..., 'weight_decay': ...}]. *)
Record ParamGroup (num Param : Type) : Type := {
  pg_params : list Param;
  pg_lr : num;
  pg_weight_decay : num
}.

(** ** The framework interface *)

Class Torch : Type := {
  (* Python floats *)
  num : Type;
  nmul : num -> num -> num;
  nadd : num -> num -> num;
  ndiv : num -> num -> num;
  of_int : Z -> num;
  f_0_1 : num;                       (* the literal 0.1 *)
  truthy : num -> bool;
  (* tensors *)
  Tensor : Type;
  FloatTensor : Z -> Tensor;
  LongTensor : Z -> Tensor;
  tensor_holder : Tensor -> bool -> bool -> Tensor;
  zeros : Z -> Z -> Tensor;
  resize_copy : Tensor -> Tensor -> Tensor;   (* h.data.resize_(d.size()).copy_(d) *)
  mean : Tensor -> Tensor;
  tadd : Tensor -> Tensor -> Tensor;
  cross_entropy : Tensor -> Tensor -> Tensor;
  slice_last : Tensor -> Z -> Tensor;         (* t[..., :k] *)
  item : Tensor -> num;                       (* t.data[0] *)
  sum_ne0 : Tensor -> Z;                      (* torch.sum(t.data.ne(0)) *)
  numel : Tensor -> Z;
  (* the detector *)
  Model : Type;
  Param : Type;
  StateDict : Type;
  vgg16 : list string -> bool -> bool -> Model;
  resnet : list string -> Z -> bool -> bool -> Model;
  create_architecture : Model -> Model;
  DataParallel : Model -> Model;
  cuda : Model -> Model;
  named_parameters : Model -> list (string * Param);
  requires_grad : Param -> bool;
  train : Model -> Model;
  zero_grad : Model -> Model;
  forward : Model -> Tensor -> Tensor -> Tensor -> Tensor -> Outputs Tensor * Model;
  backward : Tensor -> Model -> Model;
  clip_gradient : Model -> num -> Model;
  module : Model -> Model;
  state_dict : Model -> StateDict;
  (* optimizers; an optimizer holds references to the model's parameters,
     so its operations take and return the model *)
  Optimizer : Type;
  OptStateDict : Type;
  Adam : list (ParamGroup num Param) -> Optimizer;
  SGD : list (ParamGroup num Param) -> num -> Optimizer;
  set_learning_rate : Optimizer -> num -> Optimizer;
  adjust_learning_rate : Optimizer -> num -> Optimizer;
  opt_zero_grad : Optimizer -> Model -> Model;
  opt_step : Optimizer -> Model -> Optimizer * Model;
  opt_state_dict : Optimizer -> OptStateDict;
  (* data *)
  Imdb : Type; Roidb : Type; RatioList : Type; RatioIndex : Type;
  Sampler : Type; Dataset : Type; Loader : Type; DataIter : Type;
  combined_roidb : string -> string -> list string -> string ->
                   Imdb * Roidb * RatioList * RatioIndex;
  len_roidb : Roidb -> Z;
  RcnnSampler : Z -> Z -> Sampler;
  roibatchLoader : Roidb -> RatioList -> RatioIndex -> Z -> Z -> bool -> Dataset;
  DataLoader : Dataset -> Z -> Sampler -> Z -> Loader;
  cpu_count : Z;
  py_iter : Loader -> DataIter;
  py_next : DataIter -> option (Batch Tensor * DataIter);   (* None: StopIteration *)
  (* class groups *)
  GroupArr : Type;
  ciod_old_and_new : Z -> Z -> Z -> list Z * GroupArr * GroupArr;
  (* int(s) on a string; None: ValueError *)
  py_int : string -> option Z
}.

Section Script.

Context {T : Torch}.

Record Cfg : Type := {
  RNG_SEED : Z;
  CUDA : bool;
  MGPU : bool;
  NUM_CLASSES : Z;
  CLASSES : list string;
  POOLING_MODE : string;
  EXT : string;
  CIOD_TOTAL_CLS : Z;
  CIOD_GROUPS : Z;
  CIOD_DISTILL_GROUP : Z;
  CIOD_TOTAL_PROTO : Z;
  TRAIN_LEARNING_RATE : num;
  TRAIN_DOUBLE_BIAS : bool;
  TRAIN_BIAS_DECAY : bool;
  TRAIN_WEIGHT_DECAY : num;
  TRAIN_OPTIMIZER : string;
  TRAIN_MOMENTUM : num;
  TRAIN_BATCH_SIZE : Z;
  TRAIN_MAX_EPOCH : Z;
  TRAIN_LEARNING_RATE_DECAY_STEP : Z;
  TRAIN_LEARNING_RATE_DECAY_GAMMA : num;
  TRAIN_DISPLAY : Z
}.

(** The dict given to [save_checkpoint]. *)
Record Checkpoint : Type := {
  ck_session : Z;
  ck_epoch : Z;
  ck_model : StateDict;
  ck_optimizer : OptStateDict;
  ck_pooling_mode : string;
  ck_class_agnostic : bool;
  ck_cls_means : Tensor;
  ck_cls_proto : list (list Tensor)
}.

(** The line written every [cfg.TRAIN.DISPLAY] steps; its floats are
    formatted by the framework's float type, so the fields are kept. *)
Record DisplayLine : Type := {
  d_session : Z; d_group : Z; d_lr : num; d_loss : num;
  d_fg : Z; d_bg : Z;
  d_rpn_cls : num; d_rpn_box : num; d_rcnn_cls : num; d_rcnn_box : num
}.

(** What the script does to the outside world, in order. *)
Inductive Event : Type :=
| SummaryWriter (logdir : string)
| Makedirs (path : string)
| TqdmWrite (text : string)
| TqdmDisplay (line : DisplayLine)
| Print (text end_ : string)
| AddScalar (tag : string) (value : num) (step : Z)
| SaveCheckpoint (state : Checkpoint) (filename : string).

(** ** A monad for the script: state, output and exceptions

    A computation takes the variables [S] and gives the events it emitted
    and either the exception that ended it or a value with the new
    variables.  The events emitted before an exception are kept. *)

Definition M (S A : Type) : Type := S -> list Event * (Py.Exc + A * S).

Definition ret {S A : Type} (a : A) : M S A := fun s => ([], inr (a, s)).

Definition bind {S A B : Type} (m : M S A) (k : A -> M S B) : M S B :=
  fun s =>
    match m s with
    | (ev, inl e) => (ev, inl e)
    | (ev, inr (a, s')) => let (ev', r) := k a s' in ((ev ++ ev')%list, r)
    end.

Definition raise {S A : Type} (e : Py.Exc) : M S A := fun _ => ([], inl e).

Definition emit {S : Type} (ev : Event) : M S unit := fun s => ([ev], inr (tt, s)).

Definition get {S : Type} : M S S := fun s => ([], inr (s, s)).

Definition modify {S : Type} (f : S -> S) : M S unit := fun s => ([], inr (tt, f s)).

Definition lift {S A : Type} (r : Py.Exc + A) : M S A :=
  match r with inl e => raise e | inr a => ret a end.

Definition when {S : Type} (b : bool) (m : M S unit) : M S unit :=
  if b then m else ret tt.

(** [for a in l: x = body(a, x)], with the loop-carried variables [x]. *)
Fixpoint for_fold {S A X : Type} (l : list A) (x : X) (body : A -> X -> M S X) : M S X :=
  match l with
  | [] => ret x
  | a :: l' => bind (body a x) (fun x' => for_fold l' x' body)
  end.

Definition for_each {S A : Type} (l : list A) (body : A -> M S unit) : M S unit :=
  for_fold l tt (fun a _ => body a).

End Script.

Declare Scope py_scope.
Delimit Scope py_scope with py.
Notation "x <- m ;; k" := (bind m (fun x => k))
  (at level 100, m at next level, right associativity) : py_scope.
Notation "' p <- m ;; k" := (bind m (fun p => k))
  (at level 100, p pattern, m at next level, right associativity) : py_scope.
Notation "m ;; k" := (bind m (fun _ => k))
  (at level 100, right associativity) : py_scope.

(** ** The script *)

Section Trainval.

Context {T : Torch}.
Variable args : Args.
Variable cfg : Cfg.

Open Scope py_scope.

(** Variables bound before the group loop (lines 92-100): the four tensor
    holders and the two stores of the representation classifier. *)
Record Globals : Type := {
  im_data : Tensor;
  im_info : Tensor;
  num_boxes : Tensor;
  gt_boxes : Tensor;
  class_means : Tensor;
  class_proto : list (list Tensor)
}.

(** Variables bound inside the group loop and updated by the epoch and
    iteration loops. *)
Record Locals : Type := {
  fasterRCNN : Model;
  optimizer : Optimizer;
  lr : num;
  tot_step : Z
}.

(** Values a group computes once, before its epoch loop. *)
Record Setup : Type := {
  now_cls_low : Z;
  now_cls_high : Z;
  max_proto : Z;
  params : list (ParamGroup num Param);
  special_params_index : list Z;
  train_size : Z;
  dataloader : Loader;
  iters_per_epoch : Z
}.

(** Variables during a group's training, and between two groups: [prev]
    holds what the last group left in its variables, nothing before the
    first group. *)
Record Train : Type := { glob : Globals; vars : Locals }.

Record Script : Type := { globals : Globals; prev : option Locals }.

(** Lines 92-100. *)
Definition init_globals : Globals :=
  {| im_data := tensor_holder (FloatTensor 1) (CUDA cfg) true;
     im_info := tensor_holder (FloatTensor 1) (CUDA cfg) true;
     num_boxes := tensor_holder (LongTensor 1) (CUDA cfg) true;
     gt_boxes := tensor_holder (FloatTensor 1) (CUDA cfg) true;
     class_means := zeros 2048 (NUM_CLASSES cfg + 1);
     class_proto := map (fun _ => []) (Py.range 0 (CIOD_TOTAL_CLS cfg + 1)) |}.

(** Line 88; [os.path.join] refuses a list. *)
Definition output_dir : Py.Exc + string :=
  match save_dir args with
  | SaveDirStr s => inr (Py.path_join s [Py.str (session args); net args; dataset args])
  | SaveDirList _ => inl Py.TypeError
  end.

(** Line 106. *)
Definition group_bounds : Z * Z :=
  if group args =? -1 then (0, CIOD_GROUPS cfg) else (group args, group args + 1).

(** Lines 114-120. *)
Definition get_net {S : Type} : M S Model :=
  if (net args =? "vgg16")%string then
    ret (vgg16 (CLASSES cfg) true (class_agnostic args))
  else if Py.startswith (net args) "res" then
    depth <- lift (match py_int (Py.slice_from (net args) 3) with
                   | Some d => inr d
                   | None => inl Py.ValueError
                   end) ;;
    ret (resnet (CLASSES cfg) depth true (class_agnostic args))
  else raise (Py.KeyError "Unknown Network").

(** Lines 124-127. *)
Definition to_gpu (m : Model) : Model :=
  if CUDA cfg then cuda (if MGPU cfg then DataParallel m else m) else m.

(** Lines 130-143: one parameter group per trainable parameter, in the
    order of [named_parameters]. *)
Definition enumerate {A : Type} (l : list A) : list (Z * A) :=
  combine (Py.range 0 (Z.of_nat (List.length l))) l.

Definition param_entry (lr0 : num) (key : string) (value : Param) : ParamGroup num Param :=
  if Py.contains "bias" key then
    {| pg_params := [value];
       pg_lr := nmul lr0 (of_int (Z.b2z (TRAIN_DOUBLE_BIAS cfg) + 1));
       pg_weight_decay :=
         if TRAIN_BIAS_DECAY cfg && truthy (TRAIN_WEIGHT_DECAY cfg)
         then TRAIN_WEIGHT_DECAY cfg else of_int 0 |}
  else
    {| pg_params := [value]; pg_lr := lr0; pg_weight_decay := TRAIN_WEIGHT_DECAY cfg |}.

Definition collect_params (lr0 : num) (named : list (string * Param))
  : list (ParamGroup num Param) * list Z :=
  fold_left
    (fun acc '(ith, (key, value)) =>
       let '(ps, special) := acc in
       if requires_grad value then
         (ps ++ [param_entry lr0 key value],
          if Py.contains "RCNN_rpn.RPN_cls_score" key then special ++ [ith] else special)%list
       else (ps, special))
    (enumerate named) ([], []).

(** Lines 145-151; the rate computed in the adam branch is overwritten at
    line 153. *)
Definition get_optimizer {S : Type} (lr0 : num) (ps : list (ParamGroup num Param))
  : M S (num * Optimizer) :=
  if (TRAIN_OPTIMIZER cfg =? "adam")%string then ret (nmul lr0 f_0_1, Adam ps)
  else if (TRAIN_OPTIMIZER cfg =? "sgd")%string then ret (lr0, SGD ps (TRAIN_MOMENTUM cfg))
  else raise (Py.KeyError "Unknown Optimizer").

(** Lines 153-155. *)
Definition initial_lr : num :=
  let lr0 := TRAIN_LEARNING_RATE cfg in
  if (TRAIN_OPTIMIZER cfg =? "adam")%string then nmul lr0 f_0_1 else lr0.

(** Lines 110-173: everything a group does before its epoch loop. *)
Definition group_setup (group_cls : list Z) (group : Z) : M Globals (Setup * Locals) :=
  low <- lift (Py.index group_cls group) ;;
  high <- lift (Py.index group_cls (group + 1)) ;;
  q <- lift (Py.floordiv (CIOD_TOTAL_PROTO cfg) (high - 1)) ;;
  m <- get_net ;;
  let m := to_gpu (create_architecture m) in
  let lr0 := TRAIN_LEARNING_RATE cfg in
  let '(ps, special) := collect_params lr0 (named_parameters m) in
  '(_, opt) <- get_optimizer lr0 ps ;;
  let lr0 := initial_lr in
  let opt := set_learning_rate opt lr0 in
  let m := train m in
  let '(_, roidb, ratio_list, ratio_index) :=
    combined_roidb (dataset args) ("trainvalStep" ++ Py.str group ++ "a")
                   (Py.slice_to (CLASSES cfg) high) (EXT cfg) in
  let size := len_roidb roidb in
  let sampler_batch := RcnnSampler size (TRAIN_BATCH_SIZE cfg) in
  let ds := roibatchLoader roidb ratio_list ratio_index (TRAIN_BATCH_SIZE cfg) high true in
  let loader := DataLoader ds (TRAIN_BATCH_SIZE cfg) sampler_batch
                           (Z.min (TRAIN_BATCH_SIZE cfg * 2) cpu_count) in
  emit (TqdmWrite (Py.str size ++ " roidb entries")) ;;
  iters <- lift (Py.floordiv size (TRAIN_BATCH_SIZE cfg)) ;;
  ret ({| now_cls_low := low; now_cls_high := high; max_proto := Z.max 1 q;
          params := ps; special_params_index := special;
          train_size := size; dataloader := loader; iters_per_epoch := iters |},
       {| fasterRCNN := m; optimizer := opt; lr := lr0; tot_step := 0 |}).

(** Lines 229-239: the scalars sent to tensorboard, in the order of [info]. *)
Definition tfboard_scalars (grp step : Z) (line : DisplayLine) : list Event :=
  map (fun '(tag, value) => AddScalar ("Group" ++ Py.str grp ++ "/" ++ tag) value step)
      [("loss", d_loss line); ("loss_rpn_cls", d_rpn_cls line);
       ("loss_rpn_box", d_rpn_box line); ("loss_rcnn_cls", d_rcnn_cls line);
       ("loss_rcnn_box", d_rcnn_box line); ("learning_rate", d_lr line)].

(** Lines 185-241: one training iteration.  [loss_temp] and [data_iter]
    are the variables carried by the iteration loop of one epoch. *)
Definition train_iter (grp high : Z) (loss_temp : num) (data_iter : DataIter)
  : M Train (num * DataIter) :=
  t <- get ;;
  let step := tot_step (vars t) + 1 in
  '(data, data_iter) <- lift (match py_next data_iter with
                              | Some x => inr x
                              | None => inl Py.StopIteration
                              end) ;;
  let im_data' := resize_copy (im_data (glob t)) (data0 data) in
  let im_info' := resize_copy (im_info (glob t)) (data1 data) in
  let gt_boxes' := resize_copy (gt_boxes (glob t)) (data2 data) in
  let num_boxes' := resize_copy (num_boxes (glob t)) (data3 data) in
  let m := zero_grad (fasterRCNN (vars t)) in
  let '(out, m) := forward m im_data' im_info' gt_boxes' num_boxes' in
  let RCNN_loss_cls' := cross_entropy (slice_last (cls_score out) high) (rois_label out) in
  let loss := tadd (tadd (tadd (mean (rpn_loss_cls out)) (mean (rpn_loss_bbox out)))
                         (mean RCNN_loss_cls'))
                   (mean (RCNN_loss_bbox out)) in
  let loss_temp := nadd loss_temp (item loss) in
  let m := opt_zero_grad (optimizer (vars t)) m in
  let m := backward loss m in
  let m := if (net args =? "vgg16")%string then clip_gradient m (of_int 10) else m in
  let '(opt, m) := opt_step (optimizer (vars t)) m in
  modify (fun _ =>
    {| glob := {| im_data := im_data'; im_info := im_info';
                  num_boxes := num_boxes'; gt_boxes := gt_boxes';
                  class_means := class_means (glob t);
                  class_proto := class_proto (glob t) |};
       vars := {| fasterRCNN := m; optimizer := opt;
                  lr := lr (vars t); tot_step := step |} |}) ;;
  r <- lift (Py.mod_ step (TRAIN_DISPLAY cfg)) ;;
  if r =? 0 then
    let loss_temp := if step >? 0 then ndiv loss_temp (of_int (TRAIN_DISPLAY cfg))
                     else loss_temp in
    let fg_cnt := sum_ne0 (rois_label out) in
    let line := {| d_session := session args; d_group := grp;
                   d_lr := lr (vars t); d_loss := loss_temp;
                   d_fg := fg_cnt; d_bg := numel (rois_label out) - fg_cnt;
                   d_rpn_cls := item (mean (rpn_loss_cls out));
                   d_rpn_box := item (mean (rpn_loss_bbox out));
                   d_rcnn_cls := item (mean RCNN_loss_cls');
                   d_rcnn_box := item (mean (RCNN_loss_bbox out)) |} in
    emit (TqdmDisplay line) ;;
    when (use_tfboard args)
         (for_each (tfboard_scalars grp step line) emit) ;;
    ret (of_int 0, data_iter)
  else ret (loss_temp, data_iter).

(** Lines 179-181: the decay at the head of an epoch. *)
Definition decay (t : Train) : Train :=
  {| glob := glob t;
     vars := {| fasterRCNN := fasterRCNN (vars t);
                optimizer := adjust_learning_rate (optimizer (vars t))
                                                  (TRAIN_LEARNING_RATE_DECAY_GAMMA cfg);
                lr := nmul (lr (vars t)) (TRAIN_LEARNING_RATE_DECAY_GAMMA cfg);
                tot_step := tot_step (vars t) |} |}.

(** Lines 177-241: one epoch. *)
Definition train_epoch (su : Setup) (grp epoch : Z) : M Train unit :=
  r <- lift (Py.mod_ epoch (TRAIN_LEARNING_RATE_DECAY_STEP cfg)) ;;
  when ((r =? 0) && (epoch >? 0)) (modify decay) ;;
  _ <- for_fold (Py.range 0 (iters_per_epoch su)) (of_int 0, py_iter (dataloader su))
         (fun _ '(loss_temp, data_iter) => train_iter grp (now_cls_high su) loss_temp data_iter) ;;
  ret tt.

(** Lines 244-246. *)
Definition save_name (dir : string) (grp : Z) : string :=
  Py.path_join dir ["faster_rcnn_" ++ Py.str (session args) ++ "_" ++ net args ++ "_"
                    ++ dataset args ++ "_" ++ Py.str grp ++ ".pth"].

(** Line 250: [fasterRCNN.module if cfg.MGPU else fasterRCNN].  Only a
    detector wrapped by [nn.DataParallel] has the attribute [module], and
    lines 124-127 wrap it only under [cfg.CUDA]; on the detector itself the
    attribute access raises AttributeError. *)
Definition saved_model (m : Model) : Py.Exc + Model :=
  if MGPU cfg then
    if CUDA cfg then inr (module m) else inl Py.AttributeError
  else inr m.

(** Lines 247-256: the dict given to [save_checkpoint]; its entries are
    evaluated before the call. *)
Definition checkpoint (t : Train) : Py.Exc + Checkpoint :=
  match saved_model (fasterRCNN (vars t)) with
  | inl e => inl e
  | inr m =>
      inr {| ck_session := session args;
             ck_epoch := TRAIN_MAX_EPOCH cfg;
             ck_model := state_dict m;
             ck_optimizer := opt_state_dict (optimizer (vars t));
             ck_pooling_mode := POOLING_MODE cfg;
             ck_class_agnostic := class_agnostic args;
             ck_cls_means := class_means (glob t);
             ck_cls_proto := class_proto (glob t) |}
  end.

Definition newlines5 : string :=
  String "010" (String "010" (String "010" (String "010" (String "010" EmptyString)))).

(** Lines 243-258. *)
Definition save_group (dir : string) (grp : Z) : M Train unit :=
  t <- get ;;
  ck <- lift (checkpoint t) ;;
  emit (SaveCheckpoint ck (save_name dir grp)) ;;
  emit (TqdmWrite ("save model: " ++ save_name dir grp)) ;;
  emit (Print ("========== Group " ++ Py.str grp ++ " Done ==========") newlines5).

(** Lines 176-258: the epoch loop of a group and its checkpoint. *)
Definition epoch_loop (su : Setup) (grp : Z) (n : Z) : M Train unit :=
  for_each (Py.range 0 n) (train_epoch su grp).

(** Lines 109-258: one turn of the group loop.  The group starts from the
    globals and leaves its variables in [prev]. *)
Definition train_group (dir : string) (group_cls : list Z) (grp : Z) : M Script unit :=
  fun sc =>
    match group_setup group_cls grp (globals sc) with
    | (ev, inl e) => (ev, inl e)
    | (ev, inr ((su, loc), G)) =>
        match (epoch_loop su grp (TRAIN_MAX_EPOCH cfg) ;; save_group dir grp)
                {| glob := G; vars := loc |} with
        | (ev', inl e) => ((ev ++ ev')%list, inl e)
        | (ev', inr (_, t)) =>
            ((ev ++ ev')%list, inr (tt, {| globals := glob t; prev := Some (vars t) |}))
        end
    end.

(** Lines 71-260. *)
Definition groups_to_train : list Z :=
  let '(start_group, end_group) := group_bounds in Py.range start_group end_group.

Definition script : M Script unit :=
  when (use_tfboard args)
       (emit (SummaryWriter
                (Py.path_join "logs" [Py.str (session args) ++ "_" ++ dataset args]))) ;;
  dir <- lift output_dir ;;
  emit (Makedirs dir) ;;
  let '(group_cls, _, _) :=
    ciod_old_and_new (NUM_CLASSES cfg) (CIOD_GROUPS cfg) (CIOD_DISTILL_GROUP cfg) in
  for_each groups_to_train (train_group dir group_cls) ;;
  emit (Print "========== All Done ==========" newlines5).

Definition main : list Event * (Py.Exc + unit * Script) :=
  script {| globals := init_globals; prev := None |}.

End Trainval.

(** ** Notions used to state properties of the script *)

Section Observations.

Context {T : Torch}.
Variable args : Args.
Variable cfg : Cfg.

(** [hoare P m Q E X]: from variables satisfying [P], the computation [m]
    emits only events satisfying [E], and it ends either with a value and
    variables satisfying [Q] or with an exception satisfying [X]. *)
Definition hoare {S A : Type} (P : S -> Prop) (m : M S A) (Q : A -> S -> Prop)
           (E : Event -> Prop) (X : Py.Exc -> Prop) : Prop :=
  forall s, P s ->
    Forall E (fst (m s)) /\
    match snd (m s) with
    | inr (a, s') => Q a s'
    | inl e => X e
    end.

(** The checkpoints written, in order. *)
Definition saves (evs : list Event) : list (Checkpoint * string) :=
  flat_map (fun e => match e with SaveCheckpoint c f => [(c, f)] | _ => [] end) evs.

(** Events of the iteration loop: display lines and tensorboard scalars. *)
Definition is_log (e : Event) : Prop :=
  match e with
  | TqdmDisplay _ | AddScalar _ _ _ => True
  | _ => False
  end.

(** Events that write no checkpoint. *)
Definition no_save (e : Event) : Prop :=
  match e with SaveCheckpoint _ _ => False | _ => True end.

(** The model the optimizer steps on in one iteration: gradients zeroed,
    [loss] backpropagated, gradients clipped for vgg16. *)
Definition backprop (opt : Optimizer) (loss : Tensor) (m : Model) : Model :=
  let m := backward loss (opt_zero_grad opt m) in
  if (net args =? "vgg16")%string then clip_gradient m (of_int 10) else m.

(** The tensors the detector is run on in an iteration reading [data]. *)
Definition run_forward (t : Train) (data : Batch Tensor) : Outputs Tensor * Model :=
  forward (zero_grad (fasterRCNN (vars t)))
          (resize_copy (im_data (glob t)) (data0 data))
          (resize_copy (im_info (glob t)) (data1 data))
          (resize_copy (gt_boxes (glob t)) (data2 data))
          (resize_copy (num_boxes (glob t)) (data3 data)).

(** Epochs at whose head the rate is decayed, and their number below [n]. *)
Definition decay_epoch (e : Z) : bool :=
  (e mod TRAIN_LEARNING_RATE_DECAY_STEP cfg =? 0) && (e >? 0).

Definition decay_count (n : Z) : nat :=
  List.length (filter decay_epoch (Py.range 0 n)).

(** [x] multiplied [k] times by [g]. *)
Definition decayed (x g : num) (k : nat) : num :=
  Nat.iter k (fun y => nmul y g) x.

(** The iterator can be advanced [n] times. *)
Fixpoint has_batches (n : nat) (it : DataIter) : bool :=
  match n with
  | O => true
  | S n' =>
      match py_next it with
      | Some (_, it') => has_batches n' it'
      | None => false
      end
  end.

(** The detector a group starts from, given the network just built. *)
Definition fresh_detector (m : Model) : Model :=
  train (to_gpu cfg (create_architecture m)).

(** The two exceptions the training loops can raise. *)
Definition loop_exc (e : Py.Exc) : Prop :=
  e = Py.StopIteration \/ e = Py.ZeroDivisionError.

(** The class stores hold the given values. *)
Definition stores (cm : Tensor) (cp : list (list Tensor)) (t : Train) : Prop :=
  class_means (glob t) = cm /\ class_proto (glob t) = cp.

(** The iteration loop of an epoch, as [train_epoch] runs it. *)
Definition iter_loop (grp high : Z) (l : list Z) (v : num * DataIter)
  : M Train (num * DataIter) :=
  for_fold l v (fun _ '(loss_temp, data_iter) =>
                  train_iter args cfg grp high loss_temp data_iter).

(** The network of [args.net] over [classes], when the script accepts it. *)
Definition chosen_net (classes : list string) (m : Model) : Prop :=
  ((net args =? "vgg16")%string = true /\
   m = vgg16 classes true (class_agnostic args))
  \/
  ((net args =? "vgg16")%string = false /\ Py.startswith (net args) "res" = true /\
   exists depth, py_int (Py.slice_from (net args) 3) = Some depth /\
                 m = resnet classes depth true (class_agnostic args)).

(** The optimizer of [cfg.TRAIN.OPTIMIZER] over [ps], when the script
    accepts it. *)
Definition chosen_optimizer (ps : list (ParamGroup num Param)) (o : Optimizer) : Prop :=
  ((TRAIN_OPTIMIZER cfg =? "adam")%string = true /\ o = Adam ps)
  \/
  ((TRAIN_OPTIMIZER cfg =? "adam")%string = false /\
   (TRAIN_OPTIMIZER cfg =? "sgd")%string = true /\ o = SGD ps (TRAIN_MOMENTUM cfg)).

(** Line 250 can read the detector to save: [cfg.MGPU] is unset, or the
    detector was wrapped under [cfg.CUDA]. *)
Definition can_save : bool := negb (MGPU cfg) || CUDA cfg.

(** The three events that end a group that saved the checkpoint [ck]. *)
Definition closing (dir : string) (grp : Z) (ck : Checkpoint) : list Event :=
  [SaveCheckpoint ck (save_name args dir grp);
   TqdmWrite ("save model: " ++ save_name args dir grp);
   Print ("========== Group " ++ Py.str grp ++ " Done ==========") newlines5].

(** Both class stores as lines 98 and 100 make them. *)
Definition zero_stores (cm : Tensor) (cp : list (list Tensor)) : Prop :=
  cm = zeros 2048 (NUM_CLASSES cfg + 1) /\
  cp = repeat [] (Z.to_nat (CIOD_TOTAL_CLS cfg + 1)).

Definition saves_zero (e : Event) : Prop :=
  match e with
  | SaveCheckpoint ck _ => zero_stores (ck_cls_means ck) (ck_cls_proto ck)
  | _ => True
  end.

(** The directory of line 88, empty when that line raises. *)
Definition out_dir : string :=
  match output_dir args with inr d => d | inl _ => "" end.

(** A path component that [os.path.join] joins with one separator:
    not empty, with no separator at either end. *)
Definition component (s : string) : bool :=
  negb (String.length s =? 0)%nat && negb (Py.startswith s "/") && negb (Py.endswith_sep s).

(** The checkpoint path written out with separators. *)
Definition literal_path (dir : string) (grp : Z) : string :=
  dir ++ "/" ++ Py.str (session args) ++ "/" ++ net args ++ "/" ++ dataset args
      ++ "/" ++ "faster_rcnn_" ++ Py.str (session args) ++ "_" ++ net args ++ "_"
      ++ dataset args ++ "_" ++ Py.str grp ++ ".pth".

(** [args.net] and [cfg.TRAIN.OPTIMIZER] as the two tests of the script
    read them. *)
Definition net_known : bool :=
  (net args =? "vgg16")%string || Py.startswith (net args) "res".

Definition optimizer_known : bool :=
  (TRAIN_OPTIMIZER cfg =? "adam")%string || (TRAIN_OPTIMIZER cfg =? "sgd")%string.

(** The network is accepted and can be built: vgg16, or [res] followed by
    what [int] reads. *)
Definition net_built : bool :=
  (net args =? "vgg16")%string
  || (Py.startswith (net args) "res"
      && match py_int (Py.slice_from (net args) 3) with Some _ => true | None => false end).

(** The loss as the specification words it: the sum of the means of the
    two RPN losses, of the cross-entropy of the first [high] columns of
    [cls_score] against [rois_label], and of the box loss. *)
Definition iteration_loss (high : Z) (out : Outputs Tensor) : Tensor :=
  let RCNN_loss_cls' := cross_entropy (slice_last (cls_score out) high) (rois_label out) in
  tadd (tadd (tadd (mean (rpn_loss_cls out)) (mean (rpn_loss_bbox out)))
             (mean RCNN_loss_cls'))
       (mean (RCNN_loss_bbox out)).

(** The class bounds of line 102. *)
Definition bounds : list Z :=
  fst (fst (ciod_old_and_new (NUM_CLASSES cfg) (CIOD_GROUPS cfg) (CIOD_DISTILL_GROUP cfg))).

(** The class stores of a checkpoint hold the given values. *)
Definition saves_stores (cm : Tensor) (cp : list (list Tensor)) (e : Event) : Prop :=
  match e with
  | SaveCheckpoint ck _ => ck_cls_means ck = cm /\ ck_cls_proto ck = cp
  | _ => True
  end.

Definition script_stores (cm : Tensor) (cp : list (list Tensor)) (sc : Script) : Prop :=
  class_means (globals sc) = cm /\ class_proto (globals sc) = cp.

(** [out] with another classification loss in the place of the one the
    detector returned. *)
Definition with_RCNN_loss_cls (out : Outputs Tensor) (x : Tensor) : Outputs Tensor :=
  {| rois := rois out; cls_prob := cls_prob out; bbox_pred := bbox_pred out;
     rpn_label := rpn_label out; rpn_feature := rpn_feature out;
     rpn_cls_score := rpn_cls_score out; rois_label := rois_label out;
     pooled_feat := pooled_feat out; cls_score := cls_score out;
     rpn_loss_cls := rpn_loss_cls out; rpn_loss_bbox := rpn_loss_bbox out;
     RCNN_loss_cls := x; RCNN_loss_bbox := RCNN_loss_bbox out |}.

(** The first sentence of the specification, read on the variables: the
    detector a group starts training from is the one the group before it
    left. *)
Definition model_carries_over : Prop :=
  forall dir group_cls grp sc evs sc1 loc1 ev su loc2 G,
    train_group args cfg dir group_cls grp sc = (evs, inr (tt, sc1)) ->
    prev sc1 = Some loc1 ->
    group_setup args cfg group_cls (grp + 1) (globals sc1) = (ev, inr ((su, loc2), G)) ->
    fasterRCNN loc2 = fasterRCNN loc1.

(** The detector of a group is built over the classes of the group:
    [cfg.CLASSES[:now_cls_high]]. *)
Definition head_uses_group_classes : Prop :=
  forall group_cls grp G ev su loc G',
    group_setup args cfg group_cls grp G = (ev, inr ((su, loc), G')) ->
    exists m0,
      chosen_net (Py.slice_to (CLASSES cfg) (now_cls_high su)) m0 /\
      fasterRCNN loc = fresh_detector m0.

(** A group raises KeyError exactly when the network or the optimizer is
    not one the script knows. *)
Definition keyerror_iff_unsupported : Prop :=
  forall group_cls grp G low high,
    Py.index group_cls grp = inr low ->
    Py.index group_cls (grp + 1) = inr high ->
    high <> 1 ->
    ((exists msg, snd (group_setup args cfg group_cls grp G) = inl (Py.KeyError msg)) <->
     (net_known = false \/ optimizer_known = false)).

(** *** The training of a group as the specification describes it

    The variables after the iterations and epochs of a group, written as
    functions of the variables before them; the loops of the script are
    compared with these. *)

(** The holders after the four tensors of a batch were copied into them. *)
Definition copy_batch (G : Globals) (data : Batch Tensor) : Globals :=
  {| im_data := resize_copy (im_data G) (data0 data);
     im_info := resize_copy (im_info G) (data1 data);
     num_boxes := resize_copy (num_boxes G) (data3 data);
     gt_boxes := resize_copy (gt_boxes G) (data2 data);
     class_means := class_means G;
     class_proto := class_proto G |}.

(** One training iteration on the batch [data]: the batch is copied into
    the holders, the detector is run on them, the four-term loss with the
    classification loss over the first [high] columns is backpropagated,
    the optimizer takes one step and the step counter advances; the rate
    is left alone. *)
Definition step_state (high : Z) (data : Batch Tensor) (t : Train) : Train :=
  let (out, m) := run_forward t data in
  let s := opt_step (optimizer (vars t))
                    (backprop (optimizer (vars t)) (iteration_loss high out) m) in
  {| glob := copy_batch (glob t) data;
     vars := {| fasterRCNN := snd s; optimizer := fst s;
                lr := lr (vars t); tot_step := tot_step (vars t) + 1 |} |}.

(** [n] training iterations, each on the next batch of the iterator;
    nothing when the iterator yields fewer than [n] batches. *)
Fixpoint steps (high : Z) (n : nat) (it : DataIter) (t : Train) : option Train :=
  match n with
  | O => Some t
  | S n' =>
      match py_next it with
      | Some (data, it') => steps high n' it' (step_state high data t)
      | None => None
      end
  end.

(** Epoch [e] of a group: the decay at its head when it is due, then
    [floor(train_size / BATCH_SIZE)] iterations over a new iterator of the
    group's loader, with the group's [now_cls_high]. *)
Definition epoch_state (su : Setup) (e : Z) (t : Train) : option Train :=
  steps (now_cls_high su) (Z.to_nat (train_size su / TRAIN_BATCH_SIZE cfg))
        (py_iter (dataloader su))
        (if decay_epoch e then decay cfg t else t).

(** The epochs [l] of a group, in order. *)
Fixpoint epochs_state (su : Setup) (l : list Z) (t : Train) : option Train :=
  match l with
  | [] => Some t
  | e :: l' =>
      match epoch_state su e t with
      | Some t1 => epochs_state su l' t1
      | None => None
      end
  end.

(** [trained dir group_cls l sc evs r]: from the variables [sc] the groups
    [l] are trained one after the other, in this order, each from the
    variables the one before it left, and the events are theirs in this
    order; [r] is the variables after the last group, or the exception of
    the first group that raises, after which no group is trained. *)
Inductive trained (dir : string) (group_cls : list Z)
  : list Z -> Script -> list Event -> Py.Exc + Script -> Prop :=
| trained_none sc : trained dir group_cls [] sc [] (inr sc)
| trained_next g l sc ev sc1 evs r :
    train_group args cfg dir group_cls g sc = (ev, inr (tt, sc1)) ->
    trained dir group_cls l sc1 evs r ->
    trained dir group_cls (g :: l) sc (ev ++ evs) r
| trained_raise g l sc ev e :
    train_group args cfg dir group_cls g sc = (ev, inl e) ->
    trained dir group_cls (g :: l) sc ev (inl e).

(** The closing equation of the schedule as the specification words it:
    after the epochs the rate equals the initial rate times gamma raised
    to the number of decays, for the power [pow] of the floats. *)
Definition rate_is_gamma_power (pow : num -> nat -> num) : Prop :=
  forall su grp n t evs t',
    epoch_loop args cfg su grp n t = (evs, inr (tt, t')) ->
    lr (vars t') =
    nmul (lr (vars t)) (pow (TRAIN_LEARNING_RATE_DECAY_GAMMA cfg) (decay_count n)).

(** The power by repeated multiplication from 1. *)
Definition power (g : num) (k : nat) : num :=
  Nat.iter k (fun y => nmul y g) (of_int 1).

(** One checkpoint per trained group as the specification words it: a
    group whose epoch loop completes saves exactly one checkpoint. *)
Definition one_checkpoint_per_trained_group : Prop :=
  forall dir group_cls grp sc ev su loc ev' t,
    group_setup args cfg group_cls grp (globals sc) = (ev, inr ((su, loc), globals sc)) ->
    epoch_loop args cfg su grp (TRAIN_MAX_EPOCH cfg) {| glob := globals sc; vars := loc |}
      = (ev', inr (tt, t)) ->
    exists ck,
      saves (fst (train_group args cfg dir group_cls grp sc)) = [(ck, save_name args dir grp)].

End Observations.

(** ** A small implementation of the interface

    Floats are rationals, tensors are integers, a model records the classes
    and depth it was built with and the losses backpropagated into it, and
    an optimizer records its kind and its rate.  It serves to run the
    script on concrete inputs. *)

Module Sample.

Record model : Type := {
  m_classes : list string;
  m_depth : Z;
  m_steps : Z;
  m_losses : list Z
}.

Record optim : Type := { o_adam : bool; o_rate : Q }.

Definition outputs : Outputs Z :=
  {| rois := 0; cls_prob := 0; bbox_pred := 0;
     rpn_label := 0; rpn_feature := 0; rpn_cls_score := 0;
     rois_label := 1; pooled_feat := 0; cls_score := 10;
     rpn_loss_cls := 1; rpn_loss_bbox := 2;
     RCNN_loss_cls := 1000; RCNN_loss_bbox := 4 |}.

Definition batch : Batch Z :=
  {| data0 := 1; data1 := 2; data2 := 3; data3 := 4; data4 := ["img"] |}.

Definition build (classes : list string) (depth : Z) : model :=
  {| m_classes := classes; m_depth := depth; m_steps := 0; m_losses := [] |}.

Definition torch : Torch :=
  {| num := Q;
     nmul := Qmult; nadd := Qplus; ndiv := Qdiv;
     of_int := inject_Z;
     f_0_1 := 1 # 10;
     truthy := fun q => negb (Qeq_bool q 0);
     Tensor := Z;
     FloatTensor := fun _ => 0;
     LongTensor := fun _ => 0;
     tensor_holder := fun t _ _ => t;
     zeros := fun _ _ => 0;
     resize_copy := fun _ d => d;
     mean := fun t => t;
     tadd := Z.add;
     cross_entropy := fun a b => a + b;
     slice_last := fun t k => t * k;
     item := inject_Z;
     sum_ne0 := fun t => t;
     numel := fun t => t + 1;
     Model := model;
     Param := bool;
     StateDict := model;
     vgg16 := fun classes _ _ => build classes 16;
     resnet := fun classes depth _ _ => build classes depth;
     create_architecture := fun m => m;
     DataParallel := fun m => m;
     cuda := fun m => m;
     named_parameters := fun _ =>
       [("RCNN_base.weight", false); ("RCNN_rpn.RPN_cls_score.weight", true);
        ("RCNN_rpn.RPN_cls_score.bias", true); ("RCNN_cls_score.weight", true)];
     requires_grad := fun p => p;
     train := fun m => m;
     zero_grad := fun m => m;
     forward := fun m _ _ _ _ => (outputs, m);
     backward := fun loss m =>
       {| m_classes := m_classes m; m_depth := m_depth m; m_steps := m_steps m;
          m_losses := (m_losses m ++ [loss])%list |};
     clip_gradient := fun m _ => m;
     module := fun m => m;
     state_dict := fun m => m;
     Optimizer := optim;
     OptStateDict := optim;
     Adam := fun _ => {| o_adam := true; o_rate := 1 # 1000 |};
     SGD := fun _ _ => {| o_adam := false; o_rate := 1 # 1000 |};
     set_learning_rate := fun o r => {| o_adam := o_adam o; o_rate := r |};
     adjust_learning_rate := fun o g => {| o_adam := o_adam o; o_rate := Qmult (o_rate o) g |};
     opt_zero_grad := fun _ m => m;
     opt_step := fun o m =>
       (o, {| m_classes := m_classes m; m_depth := m_depth m;
              m_steps := m_steps m + 1; m_losses := m_losses m |});
     opt_state_dict := fun o => o;
     Imdb := unit; Roidb := Z; RatioList := unit; RatioIndex := unit;
     Sampler := unit; Dataset := Z; Loader := nat; DataIter := nat;
     combined_roidb := fun _ _ classes _ => (tt, 2 * Z.of_nat (List.length classes), tt, tt);
     len_roidb := fun r => r;
     RcnnSampler := fun _ _ => tt;
     roibatchLoader := fun r _ _ _ _ _ => r;
     DataLoader := fun ds bs _ _ => Z.to_nat ((ds + bs - 1) / bs);
     cpu_count := 4;
     py_iter := fun l => l;
     py_next := fun it => match it with O => None | S it' => Some (batch, it') end;
     GroupArr := unit;
     ciod_old_and_new := fun n g _ =>
       (map (fun i => 1 + i * ((n - 1) / g)) (Py.range 0 (g + 1)), tt, tt);
     py_int := fun s => option_map Z.of_int (NilZero.int_of_string s) |}.

#[local] Existing Instance torch.

Definition args : Args :=
  {| session := 1; group := -1; dataset := "2007"; net := "res101";
     large_scale := false; class_agnostic := false; use_tfboard := false;
     save_dir := SaveDirStr "results"; save_without_repr := false;
     config_file := None |}.

Definition cfg : Cfg :=
  {| RNG_SEED := 3; CUDA := false; MGPU := false;
     NUM_CLASSES := 5;
     CLASSES := ["__background__"; "bird"; "boat"; "cat"; "dog"];
     POOLING_MODE := "align"; EXT := "";
     CIOD_TOTAL_CLS := 4; CIOD_GROUPS := 2; CIOD_DISTILL_GROUP := 1;
     CIOD_TOTAL_PROTO := 100;
     TRAIN_LEARNING_RATE := (1 # 1000)%Q;
     TRAIN_DOUBLE_BIAS := true; TRAIN_BIAS_DECAY := false;
     TRAIN_WEIGHT_DECAY := (5 # 10000)%Q;
     TRAIN_OPTIMIZER := "sgd";
     TRAIN_MOMENTUM := (9 # 10)%Q;
     TRAIN_BATCH_SIZE := 2; TRAIN_MAX_EPOCH := 3;
     TRAIN_LEARNING_RATE_DECAY_STEP := 2;
     TRAIN_LEARNING_RATE_DECAY_GAMMA := (1 # 10)%Q;
     TRAIN_DISPLAY := 4 |}.

(** The same inputs with [--net resnet] and with an optimizer the script
    does not know. *)
Definition args_resnet : Args :=
  {| session := 1; group := -1; dataset := "2007"; net := "resnet";
     large_scale := false; class_agnostic := false; use_tfboard := false;
     save_dir := SaveDirStr "results"; save_without_repr := false;
     config_file := None |}.

Definition cfg_rmsprop : Cfg :=
  {| RNG_SEED := 3; CUDA := false; MGPU := false;
     NUM_CLASSES := 5;
     CLASSES := ["__background__"; "bird"; "boat"; "cat"; "dog"];
     POOLING_MODE := "align"; EXT := "";
     CIOD_TOTAL_CLS := 4; CIOD_GROUPS := 2; CIOD_DISTILL_GROUP := 1;
     CIOD_TOTAL_PROTO := 100;
     TRAIN_LEARNING_RATE := (1 # 1000)%Q;
     TRAIN_DOUBLE_BIAS := true; TRAIN_BIAS_DECAY := false;
     TRAIN_WEIGHT_DECAY := (5 # 10000)%Q;
     TRAIN_OPTIMIZER := "rmsprop";
     TRAIN_MOMENTUM := (9 # 10)%Q;
     TRAIN_BATCH_SIZE := 2; TRAIN_MAX_EPOCH := 3;
     TRAIN_LEARNING_RATE_DECAY_STEP := 2;
     TRAIN_LEARNING_RATE_DECAY_GAMMA := (1 # 10)%Q;
     TRAIN_DISPLAY := 4 |}.

(** The sample configuration with [cfg.MGPU] set and [cfg.CUDA] unset. *)
Definition cfg_mgpu : Cfg :=
  {| RNG_SEED := 3; CUDA := false; MGPU := true;
     NUM_CLASSES := 5;
     CLASSES := ["__background__"; "bird"; "boat"; "cat"; "dog"];
     POOLING_MODE := "align"; EXT := "";
     CIOD_TOTAL_CLS := 4; CIOD_GROUPS := 2; CIOD_DISTILL_GROUP := 1;
     CIOD_TOTAL_PROTO := 100;
     TRAIN_LEARNING_RATE := (1 # 1000)%Q;
     TRAIN_DOUBLE_BIAS := true; TRAIN_BIAS_DECAY := false;
     TRAIN_WEIGHT_DECAY := (5 # 10000)%Q;
     TRAIN_OPTIMIZER := "sgd";
     TRAIN_MOMENTUM := (9 # 10)%Q;
     TRAIN_BATCH_SIZE := 2; TRAIN_MAX_EPOCH := 3;
     TRAIN_LEARNING_RATE_DECAY_STEP := 2;
     TRAIN_LEARNING_RATE_DECAY_GAMMA := (1 # 10)%Q;
     TRAIN_DISPLAY := 4 |}.

(** The sample configuration with another number of epochs, decay step,
    display period or number of groups. *)
Definition cfg_of (max_epoch step display groups : Z) : Cfg :=
  {| RNG_SEED := 3; CUDA := false; MGPU := false;
     NUM_CLASSES := 5;
     CLASSES := ["__background__"; "bird"; "boat"; "cat"; "dog"];
     POOLING_MODE := "align"; EXT := "";
     CIOD_TOTAL_CLS := 4; CIOD_GROUPS := groups; CIOD_DISTILL_GROUP := 1;
     CIOD_TOTAL_PROTO := 100;
     TRAIN_LEARNING_RATE := (1 # 1000)%Q;
     TRAIN_DOUBLE_BIAS := true; TRAIN_BIAS_DECAY := false;
     TRAIN_WEIGHT_DECAY := (5 # 10000)%Q;
     TRAIN_OPTIMIZER := "sgd";
     TRAIN_MOMENTUM := (9 # 10)%Q;
     TRAIN_BATCH_SIZE := 2; TRAIN_MAX_EPOCH := max_epoch;
     TRAIN_LEARNING_RATE_DECAY_STEP := step;
     TRAIN_LEARNING_RATE_DECAY_GAMMA := (1 # 10)%Q;
     TRAIN_DISPLAY := display |}.

Definition cfg_step0 : Cfg := cfg_of 3 0 4 2.
Definition cfg_noepoch : Cfg := cfg_of 0 2 4 2.
Definition cfg_display0 : Cfg := cfg_of 3 2 0 2.

(** The class bounds of the sample configuration: [1; 3; 5]. *)
Definition group_cls : list Z :=
  fst (fst (ciod_old_and_new (NUM_CLASSES cfg) (CIOD_GROUPS cfg)
                             (CIOD_DISTILL_GROUP cfg))).

(** The sample run up to the epoch loop of group 0, and after it. *)
Definition start : Script := {| globals := init_globals cfg; prev := None |}.

Definition no_setup : Setup :=
  {| now_cls_low := 0; now_cls_high := 0; max_proto := 0; params := [];
     special_params_index := []; train_size := 0; dataloader := O;
     iters_per_epoch := 0 |}.

Definition no_locals : Locals :=
  {| fasterRCNN := build [] 0; optimizer := {| o_adam := false; o_rate := 0 |};
     lr := 0%Q; tot_step := 0 |}.

Definition ev0 : list Event :=
  Eval vm_compute in fst (group_setup args cfg group_cls 0 (init_globals cfg)).

Definition su0 : Setup :=
  Eval vm_compute in
    match snd (group_setup args cfg group_cls 0 (init_globals cfg)) with
    | inr ((su, _), _) => su
    | inl _ => no_setup
    end.

Definition loc0 : Locals :=
  Eval vm_compute in
    match snd (group_setup args cfg group_cls 0 (init_globals cfg)) with
    | inr ((_, loc), _) => loc
    | inl _ => no_locals
    end.

Definition t0 : Train := {| glob := init_globals cfg; vars := loc0 |}.

(** The state after the first iteration of group 0, and after its epochs. *)
Definition t1 : Train :=
  Eval vm_compute in
    match snd (train_iter args cfg 0 (now_cls_high su0) (of_int 0) (py_iter (dataloader su0)) t0) with
    | inr (_, t) => t
    | inl _ => t0
    end.

Definition t3 : Train :=
  Eval vm_compute in
    match snd (epoch_loop args cfg su0 0 3 t0) with
    | inr (_, t) => t
    | inl _ => t0
    end.

Definition evs3 : list Event :=
  Eval vm_compute in fst (epoch_loop args cfg su0 0 3 t0).

(** Group 0 completed, and the setup of group 1 after it. *)
Definition after0 : Script := {| globals := glob t3; prev := Some (vars t3) |}.

Definition events0 : list Event :=
  Eval vm_compute in fst (train_group args cfg "out" group_cls 0 start).

Definition ev1 : list Event :=
  Eval vm_compute in fst (group_setup args cfg group_cls 1 (globals after0)).

Definition su1 : Setup :=
  Eval vm_compute in
    match snd (group_setup args cfg group_cls 1 (globals after0)) with
    | inr ((su, _), _) => su
    | inl _ => no_setup
    end.

Definition loc1 : Locals :=
  Eval vm_compute in
    match snd (group_setup args cfg group_cls 1 (globals after0)) with
    | inr ((_, loc), _) => loc
    | inl _ => no_locals
    end.

(** The whole sample run. *)
Definition run_events : list Event := Eval vm_compute in fst (main args cfg).

Definition run_end : Script :=
  Eval vm_compute in
    match snd (main args cfg) with
    | inr (_, sc) => sc
    | inl _ => start
    end.

End Sample.

(** ** The interface over binary64 floats

    Floats are the IEEE 754 binary64 numbers of the machine, as Python's
    are; there are no tensors, no parameters and no images.  It serves to
    run the rate schedule on the floats the script computes with. *)

Module Binary64.

(** [float(z)] for an int below 2^63 in absolute value. *)
Definition float_of_int (z : Z) : PrimFloat.float :=
  if z <? 0 then PrimFloat.opp (PrimFloat.of_uint63 (Uint63.of_Z (- z)))
  else PrimFloat.of_uint63 (Uint63.of_Z z).

(** The float nearest to the quotient of two ints, which is what a
    decimal literal such as [0.001] denotes. *)
Definition ratio (a b : Z) : PrimFloat.float :=
  PrimFloat.div (float_of_int a) (float_of_int b).

Definition outputs : Outputs unit :=
  {| rois := tt; cls_prob := tt; bbox_pred := tt;
     rpn_label := tt; rpn_feature := tt; rpn_cls_score := tt;
     rois_label := tt; pooled_feat := tt; cls_score := tt;
     rpn_loss_cls := tt; rpn_loss_bbox := tt;
     RCNN_loss_cls := tt; RCNN_loss_bbox := tt |}.

Definition torch : Torch :=
  {| num := PrimFloat.float;
     nmul := PrimFloat.mul; nadd := PrimFloat.add; ndiv := PrimFloat.div;
     of_int := float_of_int;
     f_0_1 := ratio 1 10;
     truthy := fun x => negb (PrimFloat.eqb x (float_of_int 0));
     Tensor := unit;
     FloatTensor := fun _ => tt;
     LongTensor := fun _ => tt;
     tensor_holder := fun t _ _ => t;
     zeros := fun _ _ => tt;
     resize_copy := fun _ d => d;
     mean := fun t => t;
     tadd := fun _ _ => tt;
     cross_entropy := fun _ _ => tt;
     slice_last := fun t _ => t;
     item := fun _ => float_of_int 0;
     sum_ne0 := fun _ => 0;
     numel := fun _ => 0;
     Model := unit;
     Param := unit;
     StateDict := unit;
     vgg16 := fun _ _ _ => tt;
     resnet := fun _ _ _ _ => tt;
     create_architecture := fun m => m;
     DataParallel := fun m => m;
     cuda := fun m => m;
     named_parameters := fun _ => [];
     requires_grad := fun _ => true;
     train := fun m => m;
     zero_grad := fun m => m;
     forward := fun m _ _ _ _ => (outputs, m);
     backward := fun _ m => m;
     clip_gradient := fun m _ => m;
     module := fun m => m;
     state_dict := fun m => m;
     Optimizer := PrimFloat.float;
     OptStateDict := PrimFloat.float;
     Adam := fun _ => float_of_int 0;
     SGD := fun _ _ => float_of_int 0;
     set_learning_rate := fun _ r => r;
     adjust_learning_rate := fun o g => PrimFloat.mul o g;
     opt_zero_grad := fun _ m => m;
     opt_step := fun o m => (o, m);
     opt_state_dict := fun o => o;
     Imdb := unit; Roidb := unit; RatioList := unit; RatioIndex := unit;
     Sampler := unit; Dataset := unit; Loader := unit; DataIter := unit;
     combined_roidb := fun _ _ _ _ => (tt, tt, tt, tt);
     len_roidb := fun _ => 0;
     RcnnSampler := fun _ _ => tt;
     roibatchLoader := fun _ _ _ _ _ _ => tt;
     DataLoader := fun _ _ _ _ => tt;
     cpu_count := 1;
     py_iter := fun l => l;
     py_next := fun _ => None;
     GroupArr := unit;
     ciod_old_and_new := fun n _ _ => ([1; n], tt, tt);
     py_int := fun _ => None |}.

#[local] Existing Instance torch.

Definition args : Args :=
  {| session := 1; group := -1; dataset := "2007"; net := "vgg16";
     large_scale := false; class_agnostic := false; use_tfboard := false;
     save_dir := SaveDirStr "results"; save_without_repr := false;
     config_file := None |}.

(** A rate of 0.001 decayed by 0.1 at the head of every epoch after the
    first. *)
Definition cfg : Cfg :=
  {| RNG_SEED := 3; CUDA := false; MGPU := false;
     NUM_CLASSES := 5;
     CLASSES := ["__background__"; "bird"; "boat"; "cat"; "dog"];
     POOLING_MODE := "align"; EXT := "";
     CIOD_TOTAL_CLS := 4; CIOD_GROUPS := 1; CIOD_DISTILL_GROUP := 1;
     CIOD_TOTAL_PROTO := 100;
     TRAIN_LEARNING_RATE := ratio 1 1000;
     TRAIN_DOUBLE_BIAS := true; TRAIN_BIAS_DECAY := false;
     TRAIN_WEIGHT_DECAY := ratio 5 10000;
     TRAIN_OPTIMIZER := "sgd";
     TRAIN_MOMENTUM := ratio 9 10;
     TRAIN_BATCH_SIZE := 2; TRAIN_MAX_EPOCH := 3;
     TRAIN_LEARNING_RATE_DECAY_STEP := 1;
     TRAIN_LEARNING_RATE_DECAY_GAMMA := ratio 1 10;
     TRAIN_DISPLAY := 4 |}.

Definition no_setup : Setup :=
  {| now_cls_low := 0; now_cls_high := 0; max_proto := 0; params := [];
     special_params_index := []; train_size := 0; dataloader := tt;
     iters_per_epoch := 0 |}.

Definition no_locals : Locals :=
  {| fasterRCNN := tt; optimizer := float_of_int 0; lr := float_of_int 0; tot_step := 0 |}.

(** The only group of this configuration at the head of its epoch loop,
    and after its three epochs. *)
Definition su0 : Setup :=
  Eval vm_compute in
    match snd (group_setup args cfg (bounds cfg) 0 (init_globals cfg)) with
    | inr ((su, _), _) => su
    | inl _ => no_setup
    end.

Definition loc0 : Locals :=
  Eval vm_compute in
    match snd (group_setup args cfg (bounds cfg) 0 (init_globals cfg)) with
    | inr ((_, loc), _) => loc
    | inl _ => no_locals
    end.

Definition t0 : Train := {| glob := init_globals cfg; vars := loc0 |}.

Definition t3 : Train :=
  Eval vm_compute in
    match snd (epoch_loop args cfg su0 0 3 t0) with
    | inr (_, t) => t
    | inl _ => t0
    end.

End Binary64.

(** ** Notions for the traces and the failures of a run *)

Section Traces.

Context {T : Torch}.
Variable args : Args.
Variable cfg : Cfg.

(** What a displaying iteration writes: its line, then the six scalars
    when tensorboard is on. *)
Definition display_block (grp : Z) (entry : DisplayLine * Z) : list Event :=
  let (line, step) := entry in
  TqdmDisplay line :: (if use_tfboard args then tfboard_scalars grp step line else []).

(** The steps after [a] and up to [b] at which a line is displayed. *)
Definition display_steps (a b : Z) : list Z :=
  filter (fun s => s mod TRAIN_DISPLAY cfg =? 0) (Py.range (a + 1) (b + 1)).

(** The number of display lines among events. *)
Definition count_displays (evs : list Event) : nat :=
  List.length (filter (fun e => match e with TqdmDisplay _ => true | _ => false end) evs).

(** A display line written by group [grp] of this session. *)
Definition line_of (grp : Z) (entry : DisplayLine * Z) : Prop :=
  d_group (fst entry) = grp /\ d_session (fst entry) = session args.

(** Events that are not for tensorboard. *)
Definition no_tfboard (e : Event) : Prop :=
  match e with
  | SummaryWriter _ | AddScalar _ _ _ => False
  | _ => True
  end.


(** [i] is an index of a sequence of length [n], from either end. *)
Definition in_range (n i : Z) : Prop := - n <= i < n.


(** The parameters the optimizer is given, and the positions among all
    named parameters of the trainable ones of the RPN class score. *)
Definition trainable (named : list (string * Param)) : list (string * Param) :=
  filter (fun kv => requires_grad (snd kv)) named.

Definition rpn_cls_score_positions (named : list (string * Param)) : list Z :=
  map fst (filter (fun e => requires_grad (snd (snd e))
                            && Py.contains "RCNN_rpn.RPN_cls_score" (fst (snd e)))
                  (enumerate named)).

(** The events before the group loop when line 88 does not raise. *)
Definition opening (dir : string) : list Event :=
  ((if use_tfboard args
    then [SummaryWriter
            (Py.path_join "logs" [(Py.str (session args) ++ "_" ++ dataset args)%string])]
    else []) ++ [Makedirs dir])%list.

(** A trace of display blocks between two steps. *)
Definition blocks_between (grp : Z) (evs : list Event) (a b : Z) : Prop :=
  exists ls,
    evs = flat_map (display_block grp) ls /\
    map snd ls = display_steps a b /\
    Forall (line_of grp) ls.

End Traces.

(** ** Reasoning about computations *)

Section Logic.

Context {T : Torch}.

Open Scope py_scope.

Lemma bind_inv {S A B : Type} (m : M S A) (k : A -> M S B) s evs b s'' :
  bind m k s = (evs, inr (b, s'')) ->
  exists ev1 a s' ev2,
    m s = (ev1, inr (a, s')) /\ k a s' = (ev2, inr (b, s'')) /\ evs = (ev1 ++ ev2)%list.
Proof.
  unfold bind. destruct (m s) as [ev1 [e | [a s']]]; [discriminate |].
  destruct (k a s') as [ev2 r] eqn:Hk. intros H. inversion H; subst.
  exists ev1, a, s', ev2. auto.
Qed.

Lemma bind_ok {S A B : Type} (m : M S A) (k : A -> M S B) s ev1 a s' ev2 r :
  m s = (ev1, inr (a, s')) -> k a s' = (ev2, r) ->
  bind m k s = ((ev1 ++ ev2)%list, r).
Proof. unfold bind. intros -> ->. reflexivity. Qed.

Lemma bind_exc {S A B : Type} (m : M S A) (k : A -> M S B) s ev e :
  m s = (ev, inl e) -> bind m k s = (ev, inl e).
Proof. unfold bind. intros ->. reflexivity. Qed.

Lemma hoare_ret {S A : Type} (P : S -> Prop) (a : A) (Q : A -> S -> Prop) E X :
  (forall s, P s -> Q a s) -> hoare P (ret a) Q E X.
Proof. intros H s Hs. simpl. split; [constructor | auto]. Qed.

Lemma hoare_raise {S A : Type} (P : S -> Prop) e (Q : A -> S -> Prop) E (X : Py.Exc -> Prop) :
  X e -> hoare P (raise e) Q E X.
Proof. intros H s Hs. simpl. split; [constructor | auto]. Qed.

Lemma hoare_bind {S A B : Type} (P : S -> Prop) (m : M S A) (R : A -> S -> Prop)
      (k : A -> M S B) (Q : B -> S -> Prop) E X :
  hoare P m R E X -> (forall a, hoare (R a) (k a) Q E X) -> hoare P (bind m k) Q E X.
Proof.
  intros Hm Hk s Hs. destruct (Hm s Hs) as [He Hr]. unfold bind.
  destruct (m s) as [ev1 [e | [a s']]]; simpl in *; [auto |].
  destruct (Hk a s' Hr) as [He' Hr'].
  destruct (k a s') as [ev2 r]; simpl in *.
  split; [apply Forall_app; auto | exact Hr'].
Qed.

Lemma hoare_emit {S : Type} (P : S -> Prop) ev (Q : unit -> S -> Prop)
      (E : Event -> Prop) X :
  E ev -> (forall s, P s -> Q tt s) -> hoare P (emit ev) Q E X.
Proof. intros H HQ s Hs. simpl. split; [repeat constructor; exact H | auto]. Qed.

Lemma hoare_get {S : Type} (P : S -> Prop) (Q : S -> S -> Prop) E X :
  (forall s, P s -> Q s s) -> hoare P get Q E X.
Proof. intros H s Hs. simpl. split; [constructor | auto]. Qed.

Lemma hoare_modify {S : Type} (P : S -> Prop) (f : S -> S) (Q : unit -> S -> Prop) E X :
  (forall s, P s -> Q tt (f s)) -> hoare P (modify f) Q E X.
Proof. intros H s Hs. simpl. split; [constructor | auto]. Qed.

Lemma hoare_lift {S A : Type} (P : S -> Prop) (r : Py.Exc + A) (Q : A -> S -> Prop)
      E (X : Py.Exc -> Prop) :
  (forall e, r = inl e -> X e) -> (forall a s, r = inr a -> P s -> Q a s) ->
  hoare P (lift r) Q E X.
Proof.
  intros HX HQ. destruct r as [e | a]; simpl.
  - apply hoare_raise. auto.
  - apply hoare_ret. auto.
Qed.

Lemma hoare_when {S : Type} (P : S -> Prop) (b : bool) (m : M S unit)
      (Q : unit -> S -> Prop) E X :
  (b = true -> hoare P m Q E X) -> (b = false -> forall s, P s -> Q tt s) ->
  hoare P (when b m) Q E X.
Proof.
  intros Ht Hf. destruct b; simpl; [auto | apply hoare_ret; auto].
Qed.

Lemma hoare_conseq {S A : Type} (P P' : S -> Prop) (m : M S A) (Q Q' : A -> S -> Prop)
      (E E' : Event -> Prop) (X X' : Py.Exc -> Prop) :
  hoare P' m Q' E' X' ->
  (forall s, P s -> P' s) -> (forall a s, Q' a s -> Q a s) ->
  (forall ev, E' ev -> E ev) -> (forall e, X' e -> X e) ->
  hoare P m Q E X.
Proof.
  intros H HP HQ HE HX s Hs. destruct (H s (HP s Hs)) as [He Hr]. split.
  - eapply Forall_impl; [exact HE | exact He].
  - destruct (snd (m s)) as [e | [a s']]; auto.
Qed.

(** A loop keeps what each of its turns keeps. *)
Lemma hoare_for_fold {S A V : Type} (I : V -> S -> Prop) (l : list A)
      (body : A -> V -> M S V) E X :
  (forall a v, In a l -> hoare (I v) (body a v) I E X) ->
  forall v, hoare (I v) (for_fold l v body) I E X.
Proof.
  induction l as [| a l IH]; intros Hb v; simpl.
  - apply hoare_ret. auto.
  - eapply hoare_bind.
    + apply Hb. left. reflexivity.
    + intros v'. apply IH. intros a' v'' Hin. apply Hb. right. exact Hin.
Qed.

Lemma hoare_for_each {S A : Type} (I : S -> Prop) (l : list A) (body : A -> M S unit) E X :
  (forall a, In a l -> hoare I (body a) (fun _ => I) E X) ->
  hoare I (for_each l body) (fun _ => I) E X.
Proof.
  intros Hb. unfold for_each.
  apply hoare_for_fold with (I := fun _ : unit => I).
  intros a v Hin. apply Hb. exact Hin.
Qed.

Lemma bind_assoc {S A B C : Type} (m : M S A) (k : A -> M S B) (h : B -> M S C) s :
  bind (bind m k) h s = bind m (fun a => bind (k a) h) s.
Proof.
  unfold bind. destruct (m s) as [ev [e | [a s']]]; [reflexivity |].
  destruct (k a s') as [ev' [e | [b s'']]]; [reflexivity |].
  destruct (h b s'') as [ev'' r]. rewrite app_assoc. reflexivity.
Qed.

Lemma bind_ext {S A B : Type} (m : M S A) (k k' : A -> M S B) s :
  (forall a s', k a s' = k' a s') -> bind m k s = bind m k' s.
Proof.
  intros H. unfold bind. destruct (m s) as [ev [e | [a s']]]; [reflexivity |].
  rewrite H. reflexivity.
Qed.

Lemma bind_ret_l {S A B : Type} (a : A) (k : A -> M S B) s :
  bind (ret a) k s = k a s.
Proof. unfold bind, ret. destruct (k a s). reflexivity. Qed.

(** Loops over a list split in two. *)
Lemma for_fold_app {S A V : Type} (l1 l2 : list A) (v : V) (body : A -> V -> M S V) s :
  for_fold (l1 ++ l2) v body s =
  bind (for_fold l1 v body) (fun v' => for_fold l2 v' body) s.
Proof.
  revert v s. induction l1 as [| a l1 IH]; intros v s; simpl.
  - rewrite bind_ret_l. reflexivity.
  - rewrite bind_assoc. apply bind_ext. intros v' s'. apply IH.
Qed.

Lemma range_nil a b : b <= a -> Py.range a b = [].
Proof. intros H. unfold Py.range. replace (Z.to_nat (b - a)) with 0%nat by lia. reflexivity. Qed.

Lemma range_snoc n : 0 <= n -> Py.range 0 (n + 1) = (Py.range 0 n ++ [n])%list.
Proof.
  intros H. unfold Py.range.
  replace (Z.to_nat (n + 1 - 0)) with (Z.to_nat (n - 0) + 1)%nat by lia.
  rewrite seq_app, map_app. simpl. f_equal. f_equal. lia.
Qed.

Lemma range_single a : Py.range a (a + 1) = [a].
Proof.
  unfold Py.range. replace (Z.to_nat (a + 1 - a)) with 1%nat by lia.
  simpl. f_equal. lia.
Qed.


End Logic.

(** ** One iteration *)

Ltac run :=
  cbv beta iota zeta delta
      [bind get lift ret raise modify emit when Py.mod_ Py.floordiv].

Section Iteration.

Context {T : Torch}.
Variable args : Args.
Variable cfg : Cfg.

Open Scope py_scope.

Lemma for_each_emit_events {S : Type} (l : list Event) (s : S) :
  for_each l (fun ev (s' : S) => ([ev], inr (tt, s'))) s = (l, inr (tt, s)).
Proof.
  unfold for_each. revert s. induction l as [| e l IH]; intros s; simpl.
  - reflexivity.
  - unfold bind. simpl. rewrite IH. reflexivity.
Qed.

Lemma tfboard_scalars_log grp step line : Forall is_log (tfboard_scalars grp step line).
Proof. unfold tfboard_scalars. simpl. repeat constructor. Qed.

(** What an iteration does, case by case: the loader is exhausted, or the
    display period is zero, or the iteration completes. *)
Lemma train_iter_cases grp high loss_temp data_iter t :
  (py_next data_iter = None /\
   train_iter args cfg grp high loss_temp data_iter t = ([], inl Py.StopIteration))
  \/
  (exists data it',
     py_next data_iter = Some (data, it') /\ TRAIN_DISPLAY cfg = 0 /\
     train_iter args cfg grp high loss_temp data_iter t = ([], inl Py.ZeroDivisionError))
  \/
  (exists data it' evs loss_temp' t',
     py_next data_iter = Some (data, it') /\ TRAIN_DISPLAY cfg <> 0 /\
     train_iter args cfg grp high loss_temp data_iter t = (evs, inr ((loss_temp', it'), t')) /\
     Forall is_log evs /\
     (let (out, m) := run_forward t data in
      let step := opt_step (optimizer (vars t))
                           (backprop args (optimizer (vars t)) (iteration_loss high out) m) in
      fasterRCNN (vars t') = snd step /\ optimizer (vars t') = fst step) /\
     lr (vars t') = lr (vars t) /\
     tot_step (vars t') = tot_step (vars t) + 1 /\
     class_means (glob t') = class_means (glob t) /\
     class_proto (glob t') = class_proto (glob t)).
Proof.
  unfold train_iter, run_forward, backprop, iteration_loss.
  destruct (py_next data_iter) as [[data it'] |] eqn:Hnext; run.
  - right.
    destruct (forward _ _ _ _ _) as [out m] eqn:Hfw.
    destruct (opt_step _ _) as [opt m'] eqn:Hstep. run.
    destruct (TRAIN_DISPLAY cfg =? 0) eqn:Hd; run.
    + left. exists data, it'. apply Z.eqb_eq in Hd. auto.
    + right. apply Z.eqb_neq in Hd.
      destruct ((tot_step (vars t) + 1) mod TRAIN_DISPLAY cfg =? 0); run.
      * destruct (use_tfboard args); run.
        -- rewrite for_each_emit_events.
           do 5 eexists. repeat split; try reflexivity; auto;
           try (rewrite Hfw; cbv beta iota zeta; rewrite Hstep; split; reflexivity).
           constructor; [exact I | apply tfboard_scalars_log].
        -- do 5 eexists. repeat split; try reflexivity; auto;
           try (rewrite Hfw; cbv beta iota zeta; rewrite Hstep; split; reflexivity).
           repeat constructor.
      * do 5 eexists. repeat split; try reflexivity; auto;
           try (rewrite Hfw; cbv beta iota zeta; rewrite Hstep; split; reflexivity).
  - left. split; reflexivity.
Qed.

End Iteration.

(** ** Epochs *)

Section Epochs.

Context {T : Torch}.
Variable args : Args.
Variable cfg : Cfg.

Open Scope py_scope.

Lemma train_iter_hoare cm cp grp high loss_temp data_iter :
  hoare (stores cm cp) (train_iter args cfg grp high loss_temp data_iter)
        (fun _ => stores cm cp) is_log loop_exc.
Proof.
  intros t [Hcm Hcp].
  destruct (train_iter_cases args cfg grp high loss_temp data_iter t)
    as [[_ H] | [(data & it' & _ & _ & H)
                | (data & it' & evs & lt' & t' & _ & _ & H & Hev & _ & _ & _ & Hcm' & Hcp')]];
    rewrite H; simpl.
  - split; [constructor | left; reflexivity].
  - split; [constructor | right; reflexivity].
  - split; [exact Hev | split; congruence].
Qed.

Lemma iter_loop_hoare cm cp grp high l v :
  hoare (stores cm cp) (iter_loop args cfg grp high l v) (fun _ => stores cm cp) is_log loop_exc.
Proof.
  unfold iter_loop.
  apply hoare_for_fold with (I := fun _ : num * DataIter => stores cm cp).
  intros a [lt di] _. apply train_iter_hoare.
Qed.

(** A completed iteration loop took one step per element and changed
    neither the rate variable nor anything of the optimizer that
    [opt_step] leaves alone. *)
Lemma iter_loop_inv grp high l : forall v t evs v' t',
  iter_loop args cfg grp high l v t = (evs, inr (v', t')) ->
  lr (vars t') = lr (vars t) /\
  tot_step (vars t') = tot_step (vars t) + Z.of_nat (List.length l) /\
  (l = [] -> vars t' = vars t) /\
  forall (V : Type) (obs : Optimizer -> V),
    (forall o m, obs (fst (opt_step o m)) = obs o) ->
    obs (optimizer (vars t')) = obs (optimizer (vars t)).
Proof.
  unfold iter_loop. induction l as [| a l IH]; intros [lt di] t evs v' t' H.
  - simpl in H. inversion H; subst. repeat split; auto. simpl. lia.
  - simpl in H. apply bind_inv in H.
    destruct H as (ev1 & [lt1 di1] & t1 & ev2 & H1 & H2 & _).
    apply IH in H2. destruct H2 as (Hlr & Hstep & _ & Hobs).
    destruct (train_iter_cases args cfg grp high lt di t)
      as [[_ H] | [(data & it' & _ & _ & H)
                  | (data & it' & evs0 & lt' & t0 & Hn & _ & H & _ & Hm & Hlr0 & Hs0 & _)]];
      rewrite H in H1; try discriminate.
    inversion H1; subst. repeat split.
    + congruence.
    + rewrite Hstep, Hs0. simpl List.length. lia.
    + discriminate.
    + intros V obs Hlaw. rewrite (Hobs V obs Hlaw).
      destruct (run_forward t data) as [out m]. destruct Hm as [_ Hm].
      rewrite Hm. apply Hlaw.
Qed.

(** With a display period and enough batches the iteration loop completes. *)
Lemma iter_loop_total grp high l :
  TRAIN_DISPLAY cfg <> 0 ->
  forall loss_temp data_iter t,
    has_batches (List.length l) data_iter = true ->
    exists evs v' t', iter_loop args cfg grp high l (loss_temp, data_iter) t = (evs, inr (v', t')).
Proof.
  intros Hd. unfold iter_loop. induction l as [| a l IH]; intros lt di t Hb.
  - simpl. do 3 eexists. reflexivity.
  - simpl in Hb. destruct (py_next di) as [[data it'] |] eqn:Hn; [| discriminate]. simpl.
    destruct (train_iter_cases args cfg grp high lt di t)
      as [[Hn' _] | [(data' & it'' & _ & Hd' & _)
                    | (data' & it'' & evs0 & lt' & t0 & Hn' & _ & H & _)]];
      [congruence | contradiction |].
    rewrite Hn in Hn'. inversion Hn'; subst.
    destruct (IH lt' it'' t0 Hb) as (evs & v' & t' & H').
    do 3 eexists. eapply bind_ok; [exact H | exact H'].
Qed.

(** One epoch: the decay at its head, then the iteration loop. *)
Lemma train_epoch_unfold su grp epoch t :
  TRAIN_LEARNING_RATE_DECAY_STEP cfg <> 0 ->
  train_epoch args cfg su grp epoch t =
  bind (iter_loop args cfg grp (now_cls_high su) (Py.range 0 (iters_per_epoch su))
                  (of_int 0, py_iter (dataloader su)))
       (fun _ => ret tt)
       (if decay_epoch cfg epoch then decay cfg t else t).
Proof.
  intros Hs. unfold train_epoch, Py.mod_, decay_epoch, iter_loop.
  apply Z.eqb_neq in Hs. rewrite Hs. simpl lift. rewrite bind_ret_l.
  destruct ((epoch mod _ =? 0) && (epoch >? 0)); simpl when.
  - unfold bind at 1. unfold modify.
    destruct (bind _ _ (decay cfg t)) as [ev r]. reflexivity.
  - rewrite bind_ret_l. reflexivity.
Qed.

Lemma train_epoch_zero_step su grp epoch t :
  TRAIN_LEARNING_RATE_DECAY_STEP cfg = 0 ->
  train_epoch args cfg su grp epoch t = ([], inl Py.ZeroDivisionError).
Proof.
  intros Hs. unfold train_epoch, Py.mod_. rewrite Hs. reflexivity.
Qed.

Lemma decay_stores cm cp t : stores cm cp t -> stores cm cp (decay cfg t).
Proof. intros H. exact H. Qed.

Lemma train_epoch_hoare cm cp su grp epoch :
  hoare (stores cm cp) (train_epoch args cfg su grp epoch)
        (fun _ => stores cm cp) is_log loop_exc.
Proof.
  unfold train_epoch.
  eapply hoare_bind with (R := fun _ => stores cm cp).
  { apply hoare_lift.
    - unfold Py.mod_. intros e. destruct (_ =? 0); intros H; inversion H.
      right. reflexivity.
    - auto. }
  intros r. eapply hoare_bind with (R := fun _ => stores cm cp).
  { apply hoare_when; [| auto]. intros _. apply hoare_modify. intros s Hs. exact Hs. }
  intros _. eapply hoare_bind with (R := fun _ => stores cm cp).
  { apply iter_loop_hoare. }
  intros _. apply hoare_ret. auto.
Qed.

Lemma epoch_loop_hoare cm cp su grp n :
  hoare (stores cm cp) (epoch_loop args cfg su grp n)
        (fun _ => stores cm cp) is_log loop_exc.
Proof.
  unfold epoch_loop. apply hoare_for_each. intros e _. apply train_epoch_hoare.
Qed.

(** A completed epoch. *)
Lemma train_epoch_inv su grp epoch t evs t' :
  train_epoch args cfg su grp epoch t = (evs, inr (tt, t')) ->
  TRAIN_LEARNING_RATE_DECAY_STEP cfg <> 0 /\
  lr (vars t') = (if decay_epoch cfg epoch
                  then nmul (lr (vars t)) (TRAIN_LEARNING_RATE_DECAY_GAMMA cfg)
                  else lr (vars t)) /\
  tot_step (vars t') =
    tot_step (vars t) + Z.of_nat (List.length (Py.range 0 (iters_per_epoch su))) /\
  (Py.range 0 (iters_per_epoch su) = [] ->
   fasterRCNN (vars t') = fasterRCNN (vars t)) /\
  forall (V : Type) (obs : Optimizer -> V),
    (forall o m, obs (fst (opt_step o m)) = obs o) ->
    obs (optimizer (vars t')) =
    (if decay_epoch cfg epoch
     then obs (adjust_learning_rate (optimizer (vars t)) (TRAIN_LEARNING_RATE_DECAY_GAMMA cfg))
     else obs (optimizer (vars t))).
Proof.
  intros H.
  destruct (Z.eq_dec (TRAIN_LEARNING_RATE_DECAY_STEP cfg) 0) as [Hz | Hnz].
  { rewrite train_epoch_zero_step in H by exact Hz. discriminate. }
  split; [exact Hnz |].
  rewrite train_epoch_unfold in H by exact Hnz.
  apply bind_inv in H. destruct H as (ev1 & v & t1 & ev2 & H1 & H2 & _).
  inversion H2; subst. apply iter_loop_inv in H1.
  destruct H1 as (Hlr & Hstep & Hnil0 & Hobs).
  destruct (decay_epoch cfg epoch); simpl in *.
  - repeat split; auto. intros Hnil. rewrite (Hnil0 Hnil). reflexivity.
  - repeat split; auto. intros Hnil. rewrite (Hnil0 Hnil). reflexivity.
Qed.

Lemma train_epoch_total su grp epoch t :
  TRAIN_LEARNING_RATE_DECAY_STEP cfg <> 0 ->
  TRAIN_DISPLAY cfg <> 0 ->
  has_batches (List.length (Py.range 0 (iters_per_epoch su))) (py_iter (dataloader su)) = true ->
  exists evs t', train_epoch args cfg su grp epoch t = (evs, inr (tt, t')).
Proof.
  intros Hs Hd Hb. rewrite train_epoch_unfold by exact Hs.
  destruct (iter_loop_total grp (now_cls_high su) _ Hd (of_int 0) _
              (if decay_epoch cfg epoch then decay cfg t else t) Hb)
    as (evs & v' & t' & H).
  exists (evs ++ [])%list, t'. eapply bind_ok; [exact H | reflexivity].
Qed.

Lemma epoch_loop_snoc su grp n t :
  0 <= n ->
  epoch_loop args cfg su grp (n + 1) t =
  bind (epoch_loop args cfg su grp n) (fun _ => train_epoch args cfg su grp n) t.
Proof.
  intros Hn. unfold epoch_loop, for_each. rewrite range_snoc by exact Hn.
  rewrite for_fold_app. apply bind_ext. intros [] s. simpl.
  unfold bind. destruct (train_epoch _ _ _ _ _ s) as [ev [e | [[] s']]]; simpl;
    [reflexivity | rewrite app_nil_r; reflexivity].
Qed.

Lemma decay_count_snoc n :
  0 <= n ->
  decay_count cfg (n + 1) = (decay_count cfg n + if decay_epoch cfg n then 1 else 0)%nat.
Proof.
  intros Hn. unfold decay_count. rewrite range_snoc by exact Hn.
  rewrite filter_app, length_app. simpl. destruct (decay_epoch cfg n); reflexivity.
Qed.

Lemma decayed_snoc (x g : num) k : decayed x g (k + 1) = nmul (decayed x g k) g.
Proof. unfold decayed. rewrite Nat.add_comm. reflexivity. Qed.

(** The first [n] epochs of a group, completed. *)
Lemma epoch_loop_inv su grp k : forall t evs t',
  epoch_loop args cfg su grp (Z.of_nat k) t = (evs, inr (tt, t')) ->
  lr (vars t') = decayed (lr (vars t)) (TRAIN_LEARNING_RATE_DECAY_GAMMA cfg)
                         (decay_count cfg (Z.of_nat k)) /\
  tot_step (vars t') =
    tot_step (vars t)
    + Z.of_nat k * Z.of_nat (List.length (Py.range 0 (iters_per_epoch su))) /\
  (Py.range 0 (iters_per_epoch su) = [] -> fasterRCNN (vars t') = fasterRCNN (vars t)) /\
  forall (rate : Optimizer -> num),
    (forall o m, rate (fst (opt_step o m)) = rate o) ->
    (forall o g, rate (adjust_learning_rate o g) = nmul (rate o) g) ->
    rate (optimizer (vars t')) =
    decayed (rate (optimizer (vars t))) (TRAIN_LEARNING_RATE_DECAY_GAMMA cfg)
            (decay_count cfg (Z.of_nat k)).
Proof.
  induction k as [| k IH]; intros t evs t' H.
  - unfold epoch_loop in H. simpl in H. inversion H; subst.
    repeat split; auto. simpl. lia.
  - replace (Z.of_nat (S k)) with (Z.of_nat k + 1) in * by lia.
    rewrite epoch_loop_snoc in H by lia.
    apply bind_inv in H. destruct H as (ev1 & [] & t1 & ev2 & H1 & H2 & _).
    apply IH in H1. destruct H1 as (Hlr & Hstep & Hm & Hrate).
    pose proof (train_epoch_inv _ _ _ _ H2) as (_ & Hlr2 & Hstep2 & Hm2 & Hobs).
    rewrite decay_count_snoc by lia. repeat split.
    + rewrite Hlr2, Hlr. destruct (decay_epoch cfg (Z.of_nat k)).
      * rewrite decayed_snoc. reflexivity.
      * rewrite Nat.add_0_r. reflexivity.
    + rewrite Hstep2, Hstep. lia.
    + intros Hnil. rewrite (Hm2 Hnil). exact (Hm Hnil).
    + intros rate Hs Ha. rewrite (Hobs num rate Hs).
      destruct (decay_epoch cfg (Z.of_nat k)).
      * rewrite Ha, (Hrate rate Hs Ha), decayed_snoc. reflexivity.
      * rewrite (Hrate rate Hs Ha), Nat.add_0_r. reflexivity.
Qed.

Lemma epoch_loop_total su grp k :
  TRAIN_LEARNING_RATE_DECAY_STEP cfg <> 0 ->
  TRAIN_DISPLAY cfg <> 0 ->
  has_batches (List.length (Py.range 0 (iters_per_epoch su))) (py_iter (dataloader su)) = true ->
  forall t, exists evs t', epoch_loop args cfg su grp (Z.of_nat k) t = (evs, inr (tt, t')).
Proof.
  intros Hs Hd Hb. induction k as [| k IH]; intros t.
  - exists [], t. reflexivity.
  - replace (Z.of_nat (S k)) with (Z.of_nat k + 1) by lia.
    rewrite epoch_loop_snoc by lia.
    destruct (IH t) as (ev1 & t1 & H1).
    destruct (train_epoch_total su grp (Z.of_nat k) t1 Hs Hd Hb) as (ev2 & t' & H2).
    exists (ev1 ++ ev2)%list, t'. eapply bind_ok; [exact H1 | exact H2].
Qed.

End Epochs.

(** ** The loops and the training they describe *)

Section States.

Context {T : Torch}.
Variable args : Args.
Variable cfg : Cfg.

Open Scope py_scope.

(** A completed iteration read the next batch of the iterator and left
    the variables of [step_state]. *)
Lemma train_iter_state grp high loss_temp data_iter t evs v t' :
  train_iter args cfg grp high loss_temp data_iter t = (evs, inr (v, t')) ->
  exists data,
    py_next data_iter = Some (data, snd v) /\ t' = step_state args high data t.
Proof.
  unfold train_iter.
  destruct (py_next data_iter) as [[data it'] |] eqn:Hnext; run; [| discriminate].
  destruct (forward _ _ _ _ _) as [out m] eqn:Hfw.
  destruct (opt_step _ _) as [opt m'] eqn:Hstep. run.
  assert (Hst : step_state args high data t =
                {| glob := copy_batch (glob t) data;
                   vars := {| fasterRCNN := m'; optimizer := opt;
                              lr := lr (vars t); tot_step := tot_step (vars t) + 1 |} |}).
  { unfold step_state, run_forward, backprop, iteration_loss.
    rewrite Hfw. cbv zeta. rewrite Hstep. reflexivity. }
  destruct (TRAIN_DISPLAY cfg =? 0); run; [discriminate |].
  destruct ((tot_step (vars t) + 1) mod TRAIN_DISPLAY cfg =? 0); run.
  - destruct (use_tfboard args); run; [rewrite for_each_emit_events |];
      intros H; inversion H; subst; exists data; (split; [reflexivity | symmetry; exact Hst]).
  - intros H; inversion H; subst; exists data; (split; [reflexivity | symmetry; exact Hst]).
Qed.

(** With a display period, an iteration whose iterator yields a batch
    completes. *)
Lemma train_iter_run grp high loss_temp data_iter t data it' :
  py_next data_iter = Some (data, it') ->
  TRAIN_DISPLAY cfg <> 0 ->
  exists evs loss_temp',
    train_iter args cfg grp high loss_temp data_iter t
    = (evs, inr ((loss_temp', it'), step_state args high data t)).
Proof.
  intros Hn Hd.
  destruct (train_iter_cases args cfg grp high loss_temp data_iter t)
    as [[Hn' _] | [(data' & it'' & _ & Hd' & _)
                  | (data' & it'' & evs & lt' & t' & Hn' & _ & H & _)]];
    [congruence | contradiction |].
  rewrite Hn in Hn'. inversion Hn'; subst data' it''.
  destruct (train_iter_state _ _ _ _ _ H) as (data' & Hn'' & Ht).
  simpl in Hn''. rewrite Hn in Hn''. inversion Hn''; subst data'.
  exists evs, lt'. rewrite H, Ht. reflexivity.
Qed.

(** A completed iteration loop made one iteration per element, each on
    the next batch. *)
Lemma iter_loop_steps grp high l : forall v t evs v' t',
  iter_loop args cfg grp high l v t = (evs, inr (v', t')) ->
  steps args high (List.length l) (snd v) t = Some t'.
Proof.
  unfold iter_loop. induction l as [| a l IH]; intros [lt di] t evs v' t' H.
  - simpl in H. inversion H; subst. reflexivity.
  - simpl in H. apply bind_inv in H.
    destruct H as (ev1 & [lt1 di1] & t1 & ev2 & H1 & H2 & _).
    apply IH in H2. apply train_iter_state in H1. destruct H1 as (data & Hn & Ht).
    simpl in Hn |- *. rewrite Hn. subst t1. exact H2.
Qed.


Lemma range_length_nat a b : List.length (Py.range a b) = Z.to_nat (b - a).
Proof. unfold Py.range. rewrite length_map, length_seq. reflexivity. Qed.

(** A completed epoch is the epoch of [epoch_state], and with a decay step
    and a display period the epoch of [epoch_state] is run to its end. *)
Lemma train_epoch_state su grp e t evs t' :
  iters_per_epoch su = train_size su / TRAIN_BATCH_SIZE cfg ->
  train_epoch args cfg su grp e t = (evs, inr (tt, t')) ->
  epoch_state args cfg su e t = Some t'.
Proof.
  intros Hi H.
  destruct (Z.eq_dec (TRAIN_LEARNING_RATE_DECAY_STEP cfg) 0) as [Hz | Hnz].
  { rewrite train_epoch_zero_step in H by exact Hz. discriminate. }
  rewrite train_epoch_unfold in H by exact Hnz.
  apply bind_inv in H. destruct H as (ev1 & v & t1 & ev2 & H1 & H2 & _).
  inversion H2; subst. apply iter_loop_steps in H1.
  rewrite range_length_nat, Z.sub_0_r, Hi in H1. exact H1.
Qed.


(** The same for a sequence of epochs. *)
Lemma epochs_state_of su grp l :
  iters_per_epoch su = train_size su / TRAIN_BATCH_SIZE cfg ->
  forall t evs t',
    for_each l (train_epoch args cfg su grp) t = (evs, inr (tt, t')) ->
    epochs_state args cfg su l t = Some t'.
Proof.
  intros Hi. unfold for_each. induction l as [| e l IH]; intros t evs t' H.
  - simpl in H. inversion H; subst. reflexivity.
  - simpl in H. apply bind_inv in H. destruct H as (ev1 & [] & t1 & ev2 & H1 & H2 & _).
    simpl. rewrite (train_epoch_state _ _ _ _ Hi H1). exact (IH _ _ _ H2).
Qed.


(** The iterations of [steps] are as many as the batches read, and each
    advances the step counter by one. *)
Lemma steps_batches high n : forall it t t',
  steps args high n it t = Some t' ->
  has_batches n it = true /\
  tot_step (vars t') = tot_step (vars t) + Z.of_nat n /\
  lr (vars t') = lr (vars t).
Proof.
  induction n as [| n IH]; intros it t t' H.
  - simpl in H. inversion H; subst. simpl. repeat split. lia.
  - simpl in H |- *. destruct (py_next it) as [[data it'] |]; [| discriminate].
    apply IH in H. destruct H as (Hb & Hs & Hl). split; [exact Hb |].
    unfold step_state in Hs, Hl. destruct (run_forward t data) as [out m].
    simpl in Hs, Hl. split; [lia | exact Hl].
Qed.



End States.

(** ** Groups *)

Section Groups.

Context {T : Torch}.
Variable args : Args.
Variable cfg : Cfg.

Open Scope py_scope.

(** A completed setup, in full. *)
Lemma group_setup_inv group_cls grp G ev su loc G' :
  group_setup args cfg group_cls grp G = (ev, inr ((su, loc), G')) ->
  exists m0 base imdb roidb ratio_list ratio_index,
    Py.index group_cls grp = inr (now_cls_low su) /\
    Py.index group_cls (grp + 1) = inr (now_cls_high su) /\
    now_cls_high su - 1 <> 0 /\
    chosen_net args (CLASSES cfg) m0 /\
    chosen_optimizer cfg (params su) base /\
    collect_params cfg (TRAIN_LEARNING_RATE cfg)
                   (named_parameters (to_gpu cfg (create_architecture m0)))
      = (params su, special_params_index su) /\
    combined_roidb (dataset args) ("trainvalStep" ++ Py.str grp ++ "a")
                   (Py.slice_to (CLASSES cfg) (now_cls_high su)) (EXT cfg)
      = (imdb, roidb, ratio_list, ratio_index) /\
    train_size su = len_roidb roidb /\
    dataloader su =
      DataLoader (roibatchLoader roidb ratio_list ratio_index (TRAIN_BATCH_SIZE cfg)
                                 (now_cls_high su) true)
                 (TRAIN_BATCH_SIZE cfg)
                 (RcnnSampler (train_size su) (TRAIN_BATCH_SIZE cfg))
                 (Z.min (TRAIN_BATCH_SIZE cfg * 2) cpu_count) /\
    TRAIN_BATCH_SIZE cfg <> 0 /\
    iters_per_epoch su = train_size su / TRAIN_BATCH_SIZE cfg /\
    max_proto su = Z.max 1 (CIOD_TOTAL_PROTO cfg / (now_cls_high su - 1)) /\
    loc = {| fasterRCNN := fresh_detector cfg m0;
             optimizer := set_learning_rate base (initial_lr cfg);
             lr := initial_lr cfg;
             tot_step := 0 |} /\
    G' = G /\
    ev = [TqdmWrite (Py.str (train_size su) ++ " roidb entries")].
Proof.
  unfold group_setup, get_net, get_optimizer, chosen_net, chosen_optimizer, fresh_detector.
  destruct (Py.index group_cls grp) as [e | low]; run; [discriminate |].
  destruct (Py.index group_cls (grp + 1)) as [e | high]; run; [discriminate |].
  destruct (high - 1 =? 0) eqn:Hh; run; [discriminate |]. apply Z.eqb_neq in Hh.
  destruct (net args =? "vgg16")%string eqn:Hv;
    [| destruct (Py.startswith (net args) "res") eqn:Hr;
       [destruct (py_int (Py.slice_from (net args) 3)) as [depth |] eqn:Hp |]];
    run; try discriminate.
  all: destruct (collect_params _ _ _) as [ps special] eqn:Hcp.
  all: destruct (TRAIN_OPTIMIZER cfg =? "adam")%string eqn:Ha;
    [| destruct (TRAIN_OPTIMIZER cfg =? "sgd")%string eqn:Hs]; run; try discriminate.
  all: destruct (combined_roidb _ _ _ _) as [[[imdb roidb] rl] ri] eqn:Hdb; run.
  all: destruct (TRAIN_BATCH_SIZE cfg =? 0) eqn:Hb; run; try discriminate.
  all: apply Z.eqb_neq in Hb.
  all: intros H; inversion H; subst; clear H; simpl.
  all: eexists _, _, imdb, roidb, rl, ri.
  all: repeat split; try reflexivity; try eassumption; auto.
  all: try (left; split; reflexivity).
  all: try (right; repeat split; try reflexivity; eauto).
Qed.

(** The setup writes one line and leaves the globals alone. *)
Lemma group_setup_events group_cls grp G :
  Forall no_save (fst (group_setup args cfg group_cls grp G)).
Proof.
  unfold group_setup, get_net, get_optimizer.
  destruct (Py.index group_cls grp) as [e | low]; run; [constructor |].
  destruct (Py.index group_cls (grp + 1)) as [e | high]; run; [constructor |].
  destruct (high - 1 =? 0); run; [constructor |].
  destruct (net args =? "vgg16")%string;
    [| destruct (Py.startswith (net args) "res");
       [destruct (py_int (Py.slice_from (net args) 3)) |]];
    run; try constructor.
  all: destruct (collect_params _ _ _) as [ps special].
  all: destruct (TRAIN_OPTIMIZER cfg =? "adam")%string;
    [| destruct (TRAIN_OPTIMIZER cfg =? "sgd")%string]; run; try constructor.
  all: destruct (combined_roidb _ _ _ _) as [[[imdb roidb] rl] ri]; run.
  all: destruct (TRAIN_BATCH_SIZE cfg =? 0); run; repeat constructor.
Qed.

Lemma group_setup_no_save group_cls grp G ev r :
  group_setup args cfg group_cls grp G = (ev, r) -> Forall no_save ev.
Proof.
  intros H. pose proof (group_setup_events group_cls grp G) as He.
  rewrite H in He. exact He.
Qed.

Lemma epoch_loop_log su grp n t ev r :
  epoch_loop args cfg su grp n t = (ev, r) -> Forall is_log ev.
Proof.
  intros H.
  pose proof (@epoch_loop_hoare T args cfg (class_means (glob t)) (class_proto (glob t))
                su grp n t (conj eq_refl eq_refl)) as [He _].
  rewrite H in He. exact He.
Qed.

Lemma saves_app evs1 evs2 : saves (evs1 ++ evs2) = (saves evs1 ++ saves evs2)%list.
Proof. unfold saves. apply flat_map_app. Qed.

Lemma saves_no_save evs : Forall no_save evs -> saves evs = [].
Proof.
  induction 1 as [| e evs He _ IH]; [reflexivity |].
  simpl. rewrite IH. destruct e; simpl in *; try reflexivity. contradiction.
Qed.

Lemma is_log_no_save evs : Forall is_log evs -> Forall no_save evs.
Proof. apply Forall_impl. intros e. destruct e; simpl; auto. Qed.

(** The dict of line 247 is built exactly when line 250 can read the
    detector; otherwise building it raises AttributeError. *)
Lemma checkpoint_cases t :
  (can_save cfg = true /\
   exists ck,
     checkpoint args cfg t = inr ck /\
     ck_session ck = session args /\
     ck_epoch ck = TRAIN_MAX_EPOCH cfg /\
     ck_model ck = state_dict (if MGPU cfg then module (fasterRCNN (vars t))
                               else fasterRCNN (vars t)) /\
     ck_optimizer ck = opt_state_dict (optimizer (vars t)) /\
     ck_cls_means ck = class_means (glob t) /\
     ck_cls_proto ck = class_proto (glob t))
  \/
  (can_save cfg = false /\ MGPU cfg = true /\ CUDA cfg = false /\
   checkpoint args cfg t = inl Py.AttributeError).
Proof.
  unfold checkpoint, saved_model, can_save.
  destruct (MGPU cfg); [destruct (CUDA cfg) |]; simpl.
  - left. split; [reflexivity |]. eexists. repeat split.
  - right. repeat split.
  - left. split; [reflexivity |]. eexists. repeat split.
Qed.

Lemma save_group_run dir grp t :
  save_group args cfg dir grp t =
  match checkpoint args cfg t with
  | inr ck => (closing args dir grp ck, inr (tt, t))
  | inl e => ([], inl e)
  end.
Proof.
  unfold save_group. run. destruct (checkpoint args cfg t) as [e | ck]; reflexivity.
Qed.

(** A turn of the group loop after its setup and its epoch loop: the
    checkpoint is saved, or building it raises. *)
Lemma train_group_after dir group_cls grp sc ev su loc ev' t :
  group_setup args cfg group_cls grp (globals sc) = (ev, inr ((su, loc), globals sc)) ->
  epoch_loop args cfg su grp (TRAIN_MAX_EPOCH cfg) {| glob := globals sc; vars := loc |}
    = (ev', inr (tt, t)) ->
  train_group args cfg dir group_cls grp sc =
  match checkpoint args cfg t with
  | inr ck => ((ev ++ ev' ++ closing args dir grp ck)%list,
               inr (tt, {| globals := glob t; prev := Some (vars t) |}))
  | inl e => ((ev ++ ev')%list, inl e)
  end.
Proof.
  intros Hs Hl. unfold train_group. rewrite Hs. unfold bind. rewrite Hl.
  rewrite save_group_run.
  destruct (checkpoint args cfg t) as [e | ck]; [rewrite app_nil_r |]; reflexivity.
Qed.

(** A turn of the group loop, case by case: the setup raises, or the
    epoch loop raises, or building the checkpoint raises, or the group
    completes and saves. *)
Lemma train_group_cases dir group_cls grp sc :
  (exists ev e,
     group_setup args cfg group_cls grp (globals sc) = (ev, inl e) /\
     train_group args cfg dir group_cls grp sc = (ev, inl e))
  \/
  (exists ev su loc ev' e,
     group_setup args cfg group_cls grp (globals sc) = (ev, inr ((su, loc), globals sc)) /\
     epoch_loop args cfg su grp (TRAIN_MAX_EPOCH cfg) {| glob := globals sc; vars := loc |}
       = (ev', inl e) /\
     train_group args cfg dir group_cls grp sc = ((ev ++ ev')%list, inl e))
  \/
  (exists ev su loc ev' t,
     group_setup args cfg group_cls grp (globals sc) = (ev, inr ((su, loc), globals sc)) /\
     epoch_loop args cfg su grp (TRAIN_MAX_EPOCH cfg) {| glob := globals sc; vars := loc |}
       = (ev', inr (tt, t)) /\
     can_save cfg = false /\
     train_group args cfg dir group_cls grp sc = ((ev ++ ev')%list, inl Py.AttributeError))
  \/
  (exists ev su loc ev' t ck,
     group_setup args cfg group_cls grp (globals sc) = (ev, inr ((su, loc), globals sc)) /\
     epoch_loop args cfg su grp (TRAIN_MAX_EPOCH cfg) {| glob := globals sc; vars := loc |}
       = (ev', inr (tt, t)) /\
     can_save cfg = true /\
     checkpoint args cfg t = inr ck /\
     train_group args cfg dir group_cls grp sc
       = ((ev ++ ev' ++ closing args dir grp ck)%list,
          inr (tt, {| globals := glob t; prev := Some (vars t) |}))).
Proof.
  destruct (group_setup args cfg group_cls grp (globals sc))
    as [ev [e | [[su loc] G]]] eqn:Hsetup.
  - left. exists ev, e. split; [reflexivity |]. unfold train_group. rewrite Hsetup. reflexivity.
  - right.
    assert (G = globals sc) as ->.
    { destruct (group_setup_inv _ _ _ Hsetup)
        as (? & ? & ? & ? & ? & ? & _ & _ & _ & _ & _ & _ & _ & _ & _ & _ & _ & _ & _ & HG & _).
      exact HG. }
    destruct (epoch_loop args cfg su grp (TRAIN_MAX_EPOCH cfg)
                {| glob := globals sc; vars := loc |})
      as [ev' [e | [[] t]]] eqn:Hloop.
    + left. exists ev, su, loc, ev', e. split; [reflexivity |]. split; [exact Hloop |].
      unfold train_group. rewrite Hsetup. unfold bind. rewrite Hloop. reflexivity.
    + right. rewrite (train_group_after dir _ _ _ Hsetup Hloop).
      destruct (checkpoint_cases t) as [(Hc & ck & Hck & _) | (Hc & _ & _ & Hck)];
        rewrite Hck.
      * right. exists ev, su, loc, ev', t, ck. auto.
      * left. exists ev, su, loc, ev', t. auto.
Qed.

End Groups.

(** ** Paths *)

Section Paths.

Lemma append_assoc (a b c : string) : ((a ++ b) ++ c)%string = (a ++ b ++ c)%string.
Proof. induction a as [| x a IH]; simpl; [reflexivity | rewrite IH; reflexivity]. Qed.

Lemma append_nonempty (a b : string) : b <> "" -> (a ++ b)%string <> "".
Proof. destruct a; simpl; [auto | discriminate]. Qed.

Lemma length_zero (s : string) : (String.length s =? 0)%nat = false <-> s <> "".
Proof.
  destruct s; simpl; split; intros H; try discriminate; try reflexivity.
  contradiction.
Qed.

Lemma endswith_sep_app (a b : string) :
  b <> "" -> Py.endswith_sep (a ++ b) = Py.endswith_sep b.
Proof.
  intros Hb. induction a as [| x a IH]; [reflexivity |].
  simpl append. rewrite <- IH.
  pose proof (append_nonempty a Hb) as Hne.
  simpl. destruct (a ++ b)%string; [contradiction | reflexivity].
Qed.

Lemma no_sep_startswith (s : string) : Py.no_sep s = true -> Py.startswith s "/" = false.
Proof.
  unfold Py.startswith. destruct s as [| c s]; [reflexivity |].
  intros H. simpl in H. apply andb_prop in H. destruct H as [H _].
  apply negb_true_iff in H. apply Ascii.eqb_neq in H.
  change (prefix "/" (String c s)) with (if ascii_dec "/" c then prefix "" s else false).
  destruct (ascii_dec "/" c) as [E | _]; [congruence | reflexivity].
Qed.

Lemma no_sep_endswith (s : string) : Py.no_sep s = true -> Py.endswith_sep s = false.
Proof.
  induction s as [| c s IH]; simpl; [reflexivity |].
  intros H. apply andb_prop in H. destruct H as [Hc Hs].
  destruct s; [apply negb_true_iff; exact Hc | apply IH; exact Hs].
Qed.

Lemma no_sep_component (s : string) : s <> "" -> Py.no_sep s = true -> component s = true.
Proof.
  intros Hne Hs. unfold component.
  rewrite (proj2 (length_zero s) Hne), (no_sep_startswith s Hs), (no_sep_endswith s Hs).
  reflexivity.
Qed.

Lemma no_sep_uint (d : Decimal.uint) : Py.no_sep (NilEmpty.string_of_uint d) = true.
Proof. induction d; simpl; auto. Qed.

Lemma no_sep_nilzero (d : Decimal.uint) :
  Py.no_sep (NilZero.string_of_uint d) = true /\ NilZero.string_of_uint d <> "".
Proof.
  destruct d; simpl; (split; [try reflexivity; apply no_sep_uint | discriminate]).
Qed.

(** A decimal numeral is a path component. *)
Lemma str_component (z : Z) : component (Py.str z) = true.
Proof.
  unfold Py.str. destruct (Z.to_int z) as [d | d]; simpl.
  - destruct (no_sep_nilzero d) as [H1 H2]. apply no_sep_component; assumption.
  - destruct (no_sep_nilzero d) as [H1 _]. apply no_sep_component; [discriminate |].
    simpl. exact H1.
Qed.

Lemma component_inv (s : string) :
  component s = true ->
  s <> "" /\ Py.startswith s "/" = false /\ Py.endswith_sep s = false.
Proof.
  unfold component. intros H.
  apply andb_prop in H. destruct H as [H H3].
  apply andb_prop in H. destruct H as [H1 H2].
  apply negb_true_iff in H1, H2, H3.
  split; [apply length_zero; exact H1 | auto].
Qed.

(** Joining onto a path that does not end in a separator. *)
Lemma join2_component (path b : string) :
  path <> "" -> Py.endswith_sep path = false -> Py.startswith b "/" = false ->
  Py.join2 path b = (path ++ "/" ++ b)%string.
Proof.
  intros Hne He Hb. unfold Py.join2.
  rewrite Hb, (proj2 (length_zero path) Hne), He. reflexivity.
Qed.

Lemma join2_step (path b : string) :
  path <> "" -> Py.endswith_sep path = false -> component b = true ->
  Py.join2 path b = (path ++ "/" ++ b)%string /\
  (path ++ "/" ++ b)%string <> "" /\
  Py.endswith_sep (path ++ "/" ++ b) = false.
Proof.
  intros Hne He Hb. apply component_inv in Hb. destruct Hb as (Hb1 & Hb2 & Hb3).
  split; [apply join2_component; assumption |].
  split.
  - apply append_nonempty. discriminate.
  - rewrite endswith_sep_app by discriminate.
    change ("/" ++ b)%string with (String "/" b).
    simpl. destruct b; [contradiction | exact Hb3].
Qed.

End Paths.

(** ** The group loop and the whole script *)

Section Whole.

Context {T : Torch}.
Variable args : Args.
Variable cfg : Cfg.

Open Scope py_scope.

Lemma no_save_stores cm cp evs : Forall no_save evs -> Forall (saves_stores cm cp) evs.
Proof. apply Forall_impl. intros e. destruct e; simpl; auto. contradiction. Qed.

(** What a turn of the group loop saves. *)
Lemma train_group_saves dir group_cls grp sc evs r :
  train_group args cfg dir group_cls grp sc = (evs, r) ->
  match r with
  | inl _ => saves evs = []
  | inr (_, sc') =>
      exists t ck, checkpoint args cfg t = inr ck /\
                   saves evs = [(ck, save_name args dir grp)] /\
                   sc' = {| globals := glob t; prev := Some (vars t) |}
  end.
Proof.
  intros H.
  destruct (train_group_cases args cfg dir group_cls grp sc)
    as [(ev & e & Hs & Hg) | [(ev & su & loc & ev' & e & Hs & Hl & Hg)
                             | [(ev & su & loc & ev' & t & Hs & Hl & _ & Hg)
                               | (ev & su & loc & ev' & t & ck & Hs & Hl & _ & Hck & Hg)]]];
    rewrite Hg in H; inversion H; subst; clear H;
    pose proof (group_setup_no_save _ _ _ _ _ Hs) as He;
    try (pose proof (is_log_no_save (epoch_loop_log _ _ _ _ _ _ Hl)) as He').
  - apply saves_no_save. exact He.
  - rewrite saves_app, (saves_no_save He), (saves_no_save He'). reflexivity.
  - rewrite saves_app, (saves_no_save He), (saves_no_save He'). reflexivity.
  - exists t, ck. split; [exact Hck |]. split; [| reflexivity].
    rewrite !saves_app, (saves_no_save He), (saves_no_save He'). reflexivity.
Qed.

(** A turn of the group loop keeps both class stores and saves them as
    they are. *)
Lemma train_group_hoare cm cp dir group_cls grp :
  hoare (script_stores cm cp) (train_group args cfg dir group_cls grp)
        (fun _ => script_stores cm cp) (saves_stores cm cp) (fun _ => True).
Proof.
  intros sc [Hcm Hcp].
  destruct (train_group_cases args cfg dir group_cls grp sc)
    as [(ev & e & Hs & Hg) | [(ev & su & loc & ev' & e & Hs & Hl & Hg)
                             | [(ev & su & loc & ev' & t & Hs & Hl & _ & Hg)
                               | (ev & su & loc & ev' & t & ck & Hs & Hl & _ & Hck & Hg)]]];
    rewrite Hg; simpl;
    pose proof (group_setup_no_save _ _ _ _ _ Hs) as He;
    try (pose proof (is_log_no_save (epoch_loop_log _ _ _ _ _ _ Hl)) as He').
  - split; [| exact I]. apply no_save_stores. exact He.
  - split; [| exact I]. apply Forall_app. split; apply no_save_stores; assumption.
  - split; [| exact I]. apply Forall_app. split; apply no_save_stores; assumption.
  - pose proof (@epoch_loop_hoare T args cfg cm cp su grp (TRAIN_MAX_EPOCH cfg)
                  {| glob := globals sc; vars := loc |} (conj Hcm Hcp)) as [_ Ht].
    rewrite Hl in Ht. simpl in Ht. split; [| exact Ht].
    apply Forall_app. split; [apply no_save_stores; exact He |].
    apply Forall_app. split; [apply no_save_stores; exact He' |].
    destruct (checkpoint_cases args cfg t)
      as [(_ & ck' & Hck' & _ & _ & _ & _ & Hm & Hp) | (_ & _ & _ & Hck')];
      rewrite Hck in Hck'; inversion Hck'; subst ck'.
    destruct Ht as [Ht1 Ht2].
    unfold closing. repeat constructor; simpl; congruence.
Qed.

(** The group loop saves one checkpoint per completed group, in order. *)
Lemma group_loop_saves dir group_cls l : forall sc evs r,
  for_each l (train_group args cfg dir group_cls) sc = (evs, r) ->
  exists k,
    map snd (saves evs) = map (save_name args dir) (firstn k l) /\
    (forall x, r = inr x -> firstn k l = l).
Proof.
  unfold for_each. induction l as [| g l IH]; intros sc evs r H.
  - simpl in H. inversion H; subst. exists 0%nat. auto.
  - simpl in H. unfold bind in H.
    destruct (train_group args cfg dir group_cls g sc) as [ev1 [e | [[] sc1]]] eqn:Hg.
    + inversion H; subst. apply train_group_saves in Hg. rewrite Hg.
      exists 0%nat. split; [reflexivity | discriminate].
    + destruct (for_fold l tt _ sc1) as [ev2 r2] eqn:Hl. inversion H; subst.
      apply train_group_saves in Hg. destruct Hg as (t & ck & _ & Hsave & _).
      destruct (IH sc1 ev2 r Hl) as (k & Hk & Hall).
      exists (S k). rewrite saves_app, map_app, Hsave, Hk. split; [reflexivity |].
      intros x Hx. simpl. rewrite (Hall x Hx). reflexivity.
Qed.

(** The script around the group loop. *)
Lemma script_cases sc :
  (exists l, output_dir args = inl Py.TypeError /\ Forall no_save l /\
             script args cfg sc = (l, inl Py.TypeError))
  \/
  (exists dir pre evs r,
     output_dir args = inr dir /\ Forall no_save pre /\
     for_each (groups_to_train args cfg) (train_group args cfg dir (bounds cfg)) sc = (evs, r) /\
     ((exists e, r = inl e /\ script args cfg sc = ((pre ++ evs)%list, inl e)) \/
      (exists sc', r = inr (tt, sc') /\
                   script args cfg sc =
                   ((pre ++ evs ++ [Print "========== All Done ==========" newlines5])%list,
                    inr (tt, sc'))))).
Proof.
  unfold script, bounds, output_dir.
  destruct (ciod_old_and_new _ _ _) as [[group_cls a1] a2]. simpl fst.
  destruct (save_dir args) as [s | l].
  - right.
    set (dir := Py.path_join s [Py.str (session args); net args; dataset args]).
    destruct (for_each (groups_to_train args cfg) (train_group args cfg dir group_cls) sc)
      as [evs r] eqn:Hloop.
    exists dir,
      ((if use_tfboard args
        then [SummaryWriter
                (Py.path_join "logs" [(Py.str (session args) ++ "_" ++ dataset args)%string])]
        else []) ++ [Makedirs dir])%list, evs, r.
    split; [reflexivity |]. split; [destruct (use_tfboard args); repeat constructor |].
    split; [exact Hloop |].
    destruct (use_tfboard args); run; rewrite Hloop;
      destruct r as [e | [[] sc']]; [left | right | left | right];
      eexists; split; reflexivity.
  - left. destruct (use_tfboard args); run; eexists; repeat split; repeat constructor.
Qed.

(** The script when line 88 does not raise: the opening events, the
    group loop, and the closing line when the loop completes. *)
Lemma script_frame s :
  save_dir args = SaveDirStr s ->
  let dir := Py.path_join s [Py.str (session args); net args; dataset args] in
  exists evs r,
    for_each (groups_to_train args cfg) (train_group args cfg dir (bounds cfg))
             {| globals := init_globals cfg; prev := None |} = (evs, r) /\
    main args cfg
    = ((opening args dir ++ evs
        ++ match r with
           | inr _ => [Print "========== All Done ==========" newlines5]
           | inl _ => []
           end)%list,
       r).
Proof.
  intros Hs dir. unfold main, script, output_dir, opening. rewrite Hs. fold dir.
  unfold bounds. destruct (ciod_old_and_new _ _ _) as [[group_cls a1] a2]. simpl fst.
  destruct (for_each (groups_to_train args cfg) (train_group args cfg dir group_cls)
              {| globals := init_globals cfg; prev := None |}) as [evs r] eqn:Hloop.
  exists evs, r. split; [reflexivity |].
  destruct (use_tfboard args); run; rewrite Hloop;
    destruct r as [e | [[] sc']]; simpl; rewrite ?app_nil_r; reflexivity.
Qed.

(** The group loop trains its groups one after the other. *)
Lemma group_loop_trained dir group_cls l : forall sc,
  exists evs r,
    trained args cfg dir group_cls l sc evs r /\
    for_each l (train_group args cfg dir group_cls) sc
    = (evs, match r with inl e => inl e | inr sc' => inr (tt, sc') end).
Proof.
  unfold for_each. induction l as [| g l IH]; intros sc.
  - exists [], (inr sc). split; [constructor | reflexivity].
  - destruct (train_group args cfg dir group_cls g sc) as [ev [e | [[] sc1]]] eqn:Hg.
    + exists ev, (inl e). split; [apply trained_raise; exact Hg |].
      simpl. unfold bind. rewrite Hg. reflexivity.
    + destruct (IH sc1) as (evs & r & Ht & Hf).
      exists (ev ++ evs)%list, r. split; [eapply trained_next; eassumption |].
      simpl. unfold bind. rewrite Hg, Hf. reflexivity.
Qed.

(** Groups trained in sequence save one checkpoint each, in their order;
    when one raises, the groups before it have saved theirs. *)
Lemma trained_saves dir group_cls l sc evs r :
  trained args cfg dir group_cls l sc evs r ->
  match r with
  | inr _ => map snd (saves evs) = map (save_name args dir) l
  | inl _ => exists k, (k < List.length l)%nat /\
                       map snd (saves evs) = map (save_name args dir) (firstn k l)
  end.
Proof.
  induction 1 as [sc | g l sc ev sc1 evs r Hg _ IH | g l sc ev e Hg].
  - reflexivity.
  - apply train_group_saves in Hg. destruct Hg as (t & ck & _ & Hsave & _).
    rewrite saves_app, map_app, Hsave. destruct r as [e | sc2].
    + destruct IH as (k & Hk & IH). exists (S k). split; [simpl; lia |].
      simpl. rewrite IH. reflexivity.
    + simpl. rewrite IH. reflexivity.
  - apply train_group_saves in Hg. rewrite Hg. exists 0%nat. split; [simpl; lia | reflexivity].
Qed.

(** When every group of the sequence completes from any variables, they
    are all trained. *)
Lemma trained_all dir group_cls l :
  (forall g sc, In g l ->
     exists ev sc', train_group args cfg dir group_cls g sc = (ev, inr (tt, sc'))) ->
  forall sc evs r,
    trained args cfg dir group_cls l sc evs r -> exists sc', r = inr sc'.
Proof.
  intros Hall sc evs r H.
  induction H as [sc | g l sc ev sc1 evs r Hg _ IH | g l sc ev e Hg].
  - eexists. reflexivity.
  - apply IH. intros g' sc' Hin. apply Hall. right. exact Hin.
  - destruct (Hall g sc (or_introl eq_refl)) as (ev' & sc' & Hg'). congruence.
Qed.

End Whole.

(** ** The claims about the group loop *)

Section GroupClaims.

Context {T : Torch}.
Variable args : Args.
Variable cfg : Cfg.

Open Scope py_scope.

Lemma map_const_repeat {A B : Type} (x : B) (l : list A) :
  map (fun _ => x) l = repeat x (List.length l).
Proof. induction l as [| a l IH]; simpl; [reflexivity | rewrite IH; reflexivity]. Qed.

Lemma init_zero_stores :
  zero_stores cfg (class_means (init_globals cfg)) (class_proto (init_globals cfg)).
Proof.
  split; [reflexivity |]. simpl.
  rewrite map_const_repeat, range_length_nat. f_equal. f_equal. lia.
Qed.

(** The whole script keeps both class stores. *)
Lemma script_hoare cm cp :
  hoare (script_stores cm cp) (script args cfg) (fun _ => script_stores cm cp)
        (saves_stores cm cp) (fun _ => True).
Proof.
  intros sc Hsc.
  destruct (script_cases args cfg sc)
    as [(l & _ & Hl & H) | (dir & pre & evs & r & _ & Hpre & Hloop & H)].
  - rewrite H. simpl. split; [apply no_save_stores; exact Hl | exact I].
  - pose proof (@hoare_for_each T Script Z (script_stores cm cp) (groups_to_train args cfg)
                  (train_group args cfg dir (bounds cfg)) (saves_stores cm cp) (fun _ => True)
                  (fun g _ => @train_group_hoare T args cfg cm cp dir (bounds cfg) g) sc Hsc)
      as [He Hr].
    rewrite Hloop in He, Hr. simpl in He, Hr.
    destruct H as [(e & -> & H) | (sc' & -> & H)]; rewrite H; simpl.
    + split; [| exact I]. apply Forall_app. split; [apply no_save_stores; exact Hpre | exact He].
    + split; [| exact Hr]. apply Forall_app. split; [apply no_save_stores; exact Hpre |].
      apply Forall_app. split; [exact He | repeat constructor].
Qed.

(** C8. With [--group -1] the groups of the loop are 0, 1, ...,
    [cfg.CIOD.GROUPS - 1] in increasing order, and with any other value
    [g] the group [g] alone.  When line 88 does not raise, the script
    trains these groups one after the other in this order, each from the
    variables the one before it left, until the last one or the first that
    raises, and its events are the opening ones, those of the groups and
    the closing line.  When the loop completes, the checkpoints written
    are those of all these groups in this order; when a group raises, they
    are those of the groups before it.  When each of these groups
    completes, from whatever variables, the script completes and every
    one of them was trained. *)
Theorem C8_groups_trained :
  groups_to_train args cfg =
    (if group args =? -1 then Py.range 0 (CIOD_GROUPS cfg) else [group args]) /\
  Py.range 0 (CIOD_GROUPS cfg) = map Z.of_nat (seq 0 (Z.to_nat (CIOD_GROUPS cfg))) /\
  forall s, save_dir args = SaveDirStr s ->
    exists evs r,
      trained args cfg (out_dir args) (bounds cfg) (groups_to_train args cfg)
              {| globals := init_globals cfg; prev := None |} evs r /\
      main args cfg =
        ((opening args (out_dir args) ++ evs
          ++ match r with
             | inr _ => [Print "========== All Done ==========" newlines5]
             | inl _ => []
             end)%list,
         match r with inl e => inl e | inr sc => inr (tt, sc) end) /\
      match r with
      | inr _ =>
          map snd (saves (fst (main args cfg)))
          = map (save_name args (out_dir args)) (groups_to_train args cfg)
      | inl _ =>
          exists k, (k < List.length (groups_to_train args cfg))%nat /\
            map snd (saves (fst (main args cfg)))
            = map (save_name args (out_dir args)) (firstn k (groups_to_train args cfg))
      end /\
      ((forall g sc, In g (groups_to_train args cfg) ->
          exists ev sc',
            train_group args cfg (out_dir args) (bounds cfg) g sc = (ev, inr (tt, sc'))) ->
       exists sc', r = inr sc').
Proof.
  split; [| split].
  - unfold groups_to_train, group_bounds.
    destruct (group args =? -1); [reflexivity | apply range_single].
  - unfold Py.range. rewrite Z.sub_0_r. apply map_ext. intros i. lia.
  - intros s Hs.
    destruct (@script_frame T args cfg s Hs) as (evs & r0 & Hloop & Hmain).
    assert (Hdir : out_dir args = Py.path_join s [Py.str (session args); net args; dataset args]).
    { unfold out_dir, output_dir. rewrite Hs. reflexivity. }
    rewrite <- Hdir in Hloop, Hmain.
    destruct (@group_loop_trained T args cfg (out_dir args) (bounds cfg)
                (groups_to_train args cfg) {| globals := init_globals cfg; prev := None |})
      as (evs' & r & Htr & Hfor).
    rewrite Hfor in Hloop. inversion Hloop; subst evs r0. clear Hloop.
    exists evs', r. split; [exact Htr |].
    assert (Hm : main args cfg =
        ((opening args (out_dir args) ++ evs'
          ++ match r with
             | inr _ => [Print "========== All Done ==========" newlines5]
             | inl _ => []
             end)%list,
         match r with inl e => inl e | inr sc => inr (tt, sc) end)).
    { rewrite Hmain. destruct r; reflexivity. }
    split; [exact Hm |]. split.
    + pose proof (trained_saves Htr) as Hsv. rewrite Hm. simpl fst.
      assert (Hop : saves (opening args (out_dir args)) = []).
      { unfold opening. destruct (use_tfboard args); reflexivity. }
      rewrite !saves_app, Hop. destruct r as [e | sc']; simpl; rewrite app_nil_r; exact Hsv.
    + intros Hall. exact (@trained_all T args cfg _ _ _ Hall _ _ _ Htr).
Qed.

(** C10. [class_means] and [class_proto] are created once, as a
    2048 x (NUM_CLASSES + 1) zero tensor and TOTAL_CLS + 1 empty lists;
    every turn of the group loop leaves them as they are; so every
    checkpoint the script writes, whether or not the script completes,
    stores exactly these values, and so do the variables at the end. *)
Theorem C10_class_stores_untouched :
  zero_stores cfg (class_means (init_globals cfg)) (class_proto (init_globals cfg)) /\
  (forall cm cp dir group_cls grp,
     hoare (script_stores cm cp) (train_group args cfg dir group_cls grp)
           (fun _ => script_stores cm cp) (saves_stores cm cp) (fun _ => True)) /\
  Forall (saves_zero cfg) (fst (main args cfg)) /\
  match snd (main args cfg) with
  | inr (_, sc) => zero_stores cfg (class_means (globals sc)) (class_proto (globals sc))
  | inl _ => True
  end.
Proof.
  pose proof init_zero_stores as [Hcm Hcp].
  split; [split; assumption |]. split; [intros; apply train_group_hoare |].
  destruct (@script_hoare (class_means (init_globals cfg)) (class_proto (init_globals cfg))
              {| globals := init_globals cfg; prev := None |} (conj eq_refl eq_refl))
    as [He Hr].
  unfold main. split.
  - eapply Forall_impl; [| exact He]. intros e. destruct e; simpl; auto.
    intros [H1 H2]. split; [rewrite H1; exact Hcm | rewrite H2; exact Hcp].
  - destruct (snd _) as [e | [[] sc]]; [exact I |].
    destruct Hr as [H1 H2]. split; [rewrite H1; exact Hcm | rewrite H2; exact Hcp].
Qed.

(** With plain components the directory of line 88 and the name of line
    244 are the components written out with separators. *)
Lemma save_name_literal s grp :
  save_dir args = SaveDirStr s ->
  s <> "" -> Py.endswith_sep s = false ->
  component (net args) = true -> component (dataset args) = true ->
  save_name args (out_dir args) grp = literal_path args s grp.
Proof.
  intros Hs Hne He Hnet Hds. unfold out_dir, output_dir, save_name, literal_path.
  rewrite Hs. unfold Py.path_join. simpl fold_left.
  destruct (@join2_step _ _ Hne He (str_component (session args))) as (E1 & N1 & S1).
  rewrite E1.
  destruct (@join2_step _ _ N1 S1 Hnet) as (E2 & N2 & S2). rewrite E2.
  destruct (@join2_step _ _ N2 S2 Hds) as (E3 & N3 & S3). rewrite E3.
  rewrite join2_component; [| exact N3 | exact S3 | reflexivity].
  rewrite !append_assoc. reflexivity.
Qed.

(** C7. In a group whose setup and epoch loop complete, neither of which
    writes a checkpoint: when line 250 can read the detector ([cfg.MGPU]
    unset, or [cfg.CUDA] set) the group completes and writes exactly one
    checkpoint, after the events of its epoch loop; it records
    [cfg.TRAIN.MAX_EPOCH] as its epoch and the model and the optimizer as
    the epoch loop left them, under the name
    [faster_rcnn_{session}_{net}_{dataset}_{group}.pth] joined to the
    directory, which in the script is [save_dir/session/net/dataset] for
    plain components.  With [cfg.MGPU] set and [cfg.CUDA] unset the group
    raises AttributeError after its epoch loop and writes no checkpoint. *)
Theorem C7_one_checkpoint_per_group dir group_cls grp sc ev su loc ev' t :
  group_setup args cfg group_cls grp (globals sc) = (ev, inr ((su, loc), globals sc)) ->
  epoch_loop args cfg su grp (TRAIN_MAX_EPOCH cfg) {| glob := globals sc; vars := loc |}
    = (ev', inr (tt, t)) ->
  let r := train_group args cfg dir group_cls grp sc in
  saves (ev ++ ev') = [] /\
  (can_save cfg = true ->
   exists ck,
     r = ((ev ++ ev' ++ closing args dir grp ck)%list,
          inr (tt, {| globals := glob t; prev := Some (vars t) |})) /\
     saves (fst r) = [(ck, save_name args dir grp)] /\
     checkpoint args cfg t = inr ck /\
     ck_epoch ck = TRAIN_MAX_EPOCH cfg /\
     ck_model ck =
       state_dict (if MGPU cfg then module (fasterRCNN (vars t)) else fasterRCNN (vars t)) /\
     ck_optimizer ck = opt_state_dict (optimizer (vars t))) /\
  (can_save cfg = false ->
   MGPU cfg = true /\ CUDA cfg = false /\
   r = ((ev ++ ev')%list, inl Py.AttributeError) /\
   saves (fst r) = []) /\
  save_name args dir grp =
    Py.join2 dir ("faster_rcnn_" ++ Py.str (session args) ++ "_" ++ net args ++ "_"
                  ++ dataset args ++ "_" ++ Py.str grp ++ ".pth") /\
  (forall s, save_dir args = SaveDirStr s ->
     output_dir args = inr (Py.path_join s [Py.str (session args); net args; dataset args]) /\
     (s <> "" -> Py.endswith_sep s = false ->
      component (net args) = true -> component (dataset args) = true ->
      save_name args (out_dir args) grp = literal_path args s grp)).
Proof.
  intros Hs Hl r. subst r.
  pose proof (group_setup_no_save _ _ _ _ _ Hs) as He.
  pose proof (is_log_no_save (epoch_loop_log _ _ _ _ _ _ Hl)) as He'.
  assert (Hnone : saves (ev ++ ev') = []).
  { rewrite saves_app, (saves_no_save He), (saves_no_save He'). reflexivity. }
  rewrite (train_group_after args cfg dir _ _ _ Hs Hl).
  split; [exact Hnone |].
  destruct (checkpoint_cases args cfg t)
    as [(Hc & ck & Hck & _ & Hep & Hm & Ho & _) | (Hc & Hmg & Hcu & Hck)];
    rewrite Hck, Hc.
  - split; [| split; [discriminate |]].
    + intros _. exists ck. split; [reflexivity |]. split; [| auto].
      simpl fst. rewrite app_assoc, saves_app, Hnone. reflexivity.
    + split; [reflexivity |]. intros s Hsd. split;
        [unfold output_dir; rewrite Hsd; reflexivity | apply save_name_literal; exact Hsd].
  - split; [discriminate |]. split; [intros _; auto |].
    split; [reflexivity |]. intros s Hsd. split;
      [unfold output_dir; rewrite Hsd; reflexivity | apply save_name_literal; exact Hsd].
Qed.

End GroupClaims.

(** ** The claims about the setup of a group *)

Section SetupClaims.

Context {T : Torch}.
Variable args : Args.
Variable cfg : Cfg.

Open Scope py_scope.

Lemma epoch_loop_exc su grp n t ev e :
  epoch_loop args cfg su grp n t = (ev, inl e) -> loop_exc e.
Proof.
  intros H.
  pose proof (@epoch_loop_hoare T args cfg (class_means (glob t)) (class_proto (glob t))
                su grp n t (conj eq_refl eq_refl)) as [_ He].
  rewrite H in He. exact He.
Qed.

(** What the setup of a group does when the class bounds are read and
    differ from 1, case by case on the network and the optimizer. *)
Lemma group_setup_errors group_cls grp G low high :
  Py.index group_cls grp = inr low ->
  Py.index group_cls (grp + 1) = inr high ->
  high <> 1 ->
  let r := group_setup args cfg group_cls grp G in
  (net_known args = false /\ r = ([], inl (Py.KeyError "Unknown Network")))
  \/
  (net_known args = true /\ net_built args = false /\ r = ([], inl Py.ValueError))
  \/
  (net_built args = true /\ optimizer_known cfg = false /\
   r = ([], inl (Py.KeyError "Unknown Optimizer")))
  \/
  (net_built args = true /\ optimizer_known cfg = true /\
   exists ev x, r = (ev, x) /\ forall msg, x <> inl (Py.KeyError msg)).
Proof.
  intros Hlow Hhigh Hne r. subst r.
  unfold group_setup, get_net, get_optimizer, net_known, net_built, optimizer_known.
  rewrite Hlow, Hhigh. run.
  assert (Hh : (high - 1 =? 0) = false) by (apply Z.eqb_neq; lia). rewrite Hh. run.
  destruct (net args =? "vgg16")%string;
    [| destruct (Py.startswith (net args) "res");
       [destruct (py_int (Py.slice_from (net args) 3)) |]];
    run; simpl orb; simpl andb; auto.
  all: destruct (collect_params _ _ _) as [ps special].
  all: destruct (TRAIN_OPTIMIZER cfg =? "adam")%string;
    [| destruct (TRAIN_OPTIMIZER cfg =? "sgd")%string]; run; simpl orb; auto 6.
  all: destruct (combined_roidb _ _ _ _) as [[[imdb roidb] rl] ri]; run.
  all: destruct (TRAIN_BATCH_SIZE cfg =? 0); run.
  all: right; right; right; split; [reflexivity |]; split; [reflexivity |].
  all: eexists _, _; split; [reflexivity | intros msg; discriminate].
Qed.

Ltac c9_case Hr Hkb E :=
  first
    [ exact Hr
    | assumption
    | solve [split; assumption]
    | congruence
    | solve [rewrite Hr in E; discriminate E]
    | solve [rewrite Hr in E; inversion E; subst; exfalso;
             match goal with
             | Hx : forall msg, _ <> inl (Py.KeyError msg) |- _ => eapply Hx; reflexivity
             end]
    | solve [exfalso; eapply Hkb; eassumption]
    | solve [destruct E; congruence]
    | solve [destruct E; exfalso; eapply Hkb; eassumption] ].

Lemma net_built_known : net_built args = true -> net_known args = true.
Proof.
  unfold net_built, net_known.
  destruct (net args =? "vgg16")%string; [reflexivity |].
  destruct (Py.startswith (net args) "res"); [reflexivity | discriminate].
Qed.

(** C9. In a group whose class bounds are read and differ from 1, the
    setup raises KeyError("Unknown Network") exactly when [args.net] is
    neither 'vgg16' nor starts with 'res', and KeyError("Unknown
    Optimizer") exactly when the network was built (vgg16, or 'res'
    followed by what [int] reads) and [cfg.TRAIN.OPTIMIZER] is neither
    'adam' nor 'sgd'; a 'res' prefix with another suffix raises ValueError
    whatever the optimizer.  These are the only KeyErrors of a group, and
    they are raised before the group has written anything or trained. *)
Theorem C9_key_errors group_cls grp G low high :
  Py.index group_cls grp = inr low ->
  Py.index group_cls (grp + 1) = inr high ->
  high <> 1 ->
  let r := group_setup args cfg group_cls grp G in
  (r = ([], inl (Py.KeyError "Unknown Network")) <-> net_known args = false) /\
  (r = ([], inl (Py.KeyError "Unknown Optimizer")) <->
   net_built args = true /\ optimizer_known cfg = false) /\
  (net_known args = true -> net_built args = false -> r = ([], inl Py.ValueError)) /\
  (forall msg, snd r = inl (Py.KeyError msg) ->
     fst r = [] /\ (msg = "Unknown Network" \/ msg = "Unknown Optimizer")) /\
  (forall dir sc evs msg,
     globals sc = G ->
     train_group args cfg dir group_cls grp sc = (evs, inl (Py.KeyError msg)) ->
     evs = [] /\ r = ([], inl (Py.KeyError msg))).
Proof.
  intros Hlow Hhigh Hne r.
  pose proof (@group_setup_errors group_cls grp G low high Hlow Hhigh Hne) as Hcases.
  fold r in Hcases.
  assert (Hkb : net_known args = false -> net_built args = true -> False).
  { intros Hk Hb. apply net_built_known in Hb. congruence. }
  assert (Hmsg : forall msg, snd r = inl (Py.KeyError msg) ->
            fst r = [] /\ (msg = "Unknown Network" \/ msg = "Unknown Optimizer")).
  { intros msg H.
    destruct Hcases
      as [(_ & Hr) | [(_ & _ & Hr) | [(_ & _ & Hr) | (_ & _ & ev & x & Hr & Hx)]]];
      rewrite Hr in H |- *; simpl in H |- *.
    - inversion H. auto.
    - discriminate.
    - inversion H. auto.
    - exfalso. exact (Hx msg H). }
  split; [| split; [| split; [| split; [exact Hmsg |]]]].
  - destruct Hcases
      as [(Hk & Hr) | [(Hk & Hb & Hr) | [(Hb & Ho & Hr) | (Hb & Ho & ev & x & Hr & Hx)]]];
      split; intros E; c9_case Hr Hkb E.
  - destruct Hcases
      as [(Hk & Hr) | [(Hk & Hb & Hr) | [(Hb & Ho & Hr) | (Hb & Ho & ev & x & Hr & Hx)]]];
      split; intros E; c9_case Hr Hkb E.
  - intros Hk Hb.
    destruct Hcases
      as [(Hk' & Hr) | [(_ & _ & Hr) | [(Hb' & _ & Hr) | (Hb' & _)]]];
      try congruence.
  - intros dir sc evs msg HG Ht. subst G.
    destruct (train_group_cases args cfg dir group_cls grp sc)
      as [(ev0 & e & Hs & Hg) | [(ev0 & su & loc & ev' & e & Hs & Hl & Hg)
                                | [(ev0 & su & loc & ev' & t & Hs & Hl & _ & Hg)
                                  | (ev0 & su & loc & ev' & t & ck & Hs & Hl & _ & _ & Hg)]]];
      rewrite Hg in Ht; inversion Ht; subst.
    + fold r in Hs. destruct (Hmsg msg) as [Hev _]; [rewrite Hs; reflexivity |].
      rewrite Hs in Hev. simpl in Hev. subst. split; [reflexivity | exact Hs].
    + apply epoch_loop_exc in Hl. destruct Hl; discriminate.
Qed.

(** C1. Training is incremental in the data only.  Group [g] trains on
    the roidb of [trainvalStep{g}a] over the classes
    [cfg.CLASSES[:group_cls[g+1]]].  Its detector is not the one the
    previous group left: the setup builds it anew, the network of
    [args.net] over [cfg.CLASSES] with pretrained weights,
    [create_architecture], the GPU wrapping and train mode, with the step
    counter at zero, and the epoch loop of the turn starts from it.  What
    a turn of the group loop does depends on the globals alone, whatever
    the previous group left in its variables. *)
Theorem C1_detector_rebuilt_each_group dir group_cls grp sc ev su loc G :
  group_setup args cfg group_cls grp (globals sc) = (ev, inr ((su, loc), G)) ->
  (exists m0, chosen_net args (CLASSES cfg) m0 /\
              fasterRCNN loc = train (to_gpu cfg (create_architecture m0))) /\
  tot_step loc = 0 /\
  Py.index group_cls (grp + 1) = inr (now_cls_high su) /\
  (exists imdb roidb ratio_list ratio_index,
     combined_roidb (dataset args) ("trainvalStep" ++ Py.str grp ++ "a")
                    (Py.slice_to (CLASSES cfg) (now_cls_high su)) (EXT cfg)
       = (imdb, roidb, ratio_list, ratio_index) /\
     train_size su = len_roidb roidb /\
     dataloader su =
       DataLoader (roibatchLoader roidb ratio_list ratio_index (TRAIN_BATCH_SIZE cfg)
                                  (now_cls_high su) true)
                  (TRAIN_BATCH_SIZE cfg)
                  (RcnnSampler (train_size su) (TRAIN_BATCH_SIZE cfg))
                  (Z.min (TRAIN_BATCH_SIZE cfg * 2) cpu_count)) /\
  train_group args cfg dir group_cls grp sc =
    (let (ev', r) := bind (epoch_loop args cfg su grp (TRAIN_MAX_EPOCH cfg))
                          (fun _ => save_group args cfg dir grp)
                          {| glob := globals sc; vars := loc |} in
     ((ev ++ ev')%list,
      match r with
      | inl e => inl e
      | inr (_, t) => inr (tt, {| globals := glob t; prev := Some (vars t) |})
      end)) /\
  (forall left_over,
     train_group args cfg dir group_cls grp {| globals := globals sc; prev := left_over |}
     = train_group args cfg dir group_cls grp sc).
Proof.
  intros H.
  destruct (@group_setup_inv T args cfg _ _ _ _ _ _ _ H)
    as (m0 & base & imdb & roidb & rl & ri & _ & Hhigh & _ & Hnet & _ & _ & Hdb & Hsize & Hdl
        & _ & _ & _ & Hloc & HG & _).
  split; [exists m0; split; [exact Hnet | subst loc; reflexivity] |].
  split; [subst loc; reflexivity |]. split; [exact Hhigh |].
  split; [exists imdb, roidb, rl, ri; auto |].
  split; [| reflexivity].
  unfold train_group. rewrite H. subst G.
  destruct (bind _ _ _) as [ev' [e | [[] t]]]; reflexivity.
Qed.

(** C2. For a group [g] whose setup completes in the script, where
    [group_cls] is the first value of [ciod_old_and_new]: [now_cls_low]
    and [now_cls_high] are [group_cls[g]] and [group_cls[g + 1]]; the
    roidb is that of [trainvalStep{g}a] over [cfg.CLASSES[:now_cls_high]]
    and the batch loader is built for [now_cls_high] classes; the detector
    is built over all of [cfg.CLASSES]; and every epoch of the group that
    completes is made of iterations whose classification loss is the
    cross-entropy of the first [now_cls_high] columns of [cls_score]. *)
Theorem C2_group_classes dir grp sc ev su loc G' :
  group_setup args cfg (bounds cfg) grp (globals sc) = (ev, inr ((su, loc), G')) ->
  bounds cfg =
    fst (fst (ciod_old_and_new (NUM_CLASSES cfg) (CIOD_GROUPS cfg) (CIOD_DISTILL_GROUP cfg))) /\
  (forall s, save_dir args = SaveDirStr s ->
     exists evs r,
       for_each (groups_to_train args cfg)
                (train_group args cfg (out_dir args) (bounds cfg))
                {| globals := init_globals cfg; prev := None |} = (evs, r) /\
       snd (main args cfg) = r) /\
  Py.index (bounds cfg) grp = inr (now_cls_low su) /\
  Py.index (bounds cfg) (grp + 1) = inr (now_cls_high su) /\
  (exists imdb roidb ratio_list ratio_index,
     combined_roidb (dataset args) ("trainvalStep" ++ Py.str grp ++ "a")
                    (Py.slice_to (CLASSES cfg) (now_cls_high su)) (EXT cfg)
       = (imdb, roidb, ratio_list, ratio_index) /\
     train_size su = len_roidb roidb /\
     dataloader su =
       DataLoader (roibatchLoader roidb ratio_list ratio_index (TRAIN_BATCH_SIZE cfg)
                                  (now_cls_high su) true)
                  (TRAIN_BATCH_SIZE cfg)
                  (RcnnSampler (train_size su) (TRAIN_BATCH_SIZE cfg))
                  (Z.min (TRAIN_BATCH_SIZE cfg * 2) cpu_count)) /\
  (exists m0, chosen_net args (CLASSES cfg) m0 /\ fasterRCNN loc = fresh_detector cfg m0) /\
  (forall e t evs t',
     train_epoch args cfg su grp e t = (evs, inr (tt, t')) ->
     epoch_state args cfg su e t = Some t') /\
  (forall data t,
     let (out, m) := run_forward t data in
     fasterRCNN (vars (step_state args (now_cls_high su) data t)) =
     snd (opt_step (optimizer (vars t))
            (backprop args (optimizer (vars t))
               (tadd (tadd (tadd (mean (rpn_loss_cls out)) (mean (rpn_loss_bbox out)))
                           (mean (cross_entropy (slice_last (cls_score out) (now_cls_high su))
                                                (rois_label out))))
                     (mean (RCNN_loss_bbox out)))
               m))) /\
  train_group args cfg dir (bounds cfg) grp sc =
    (let (ev', r) := bind (epoch_loop args cfg su grp (TRAIN_MAX_EPOCH cfg))
                          (fun _ => save_group args cfg dir grp)
                          {| glob := globals sc; vars := loc |} in
     ((ev ++ ev')%list,
      match r with
      | inl e => inl e
      | inr (_, t) => inr (tt, {| globals := glob t; prev := Some (vars t) |})
      end)).
Proof.
  intros H.
  destruct (@group_setup_inv T args cfg _ _ _ _ _ _ _ H)
    as (m0 & base & imdb & roidb & rl & ri & Hlow & Hhigh & _ & Hnet & _ & _ & Hdb & Hsize
        & Hdl & _ & Hiters & _ & Hloc & HG & _).
  split; [reflexivity |]. split.
  { intros s Hs. destruct (@script_frame T args cfg s Hs) as (evs & r & Hloop & Hmain).
    assert (Hdir : out_dir args = Py.path_join s [Py.str (session args); net args; dataset args]).
    { unfold out_dir, output_dir. rewrite Hs. reflexivity. }
    rewrite <- Hdir in Hloop. exists evs, r. split; [exact Hloop |].
    rewrite Hmain. reflexivity. }
  split; [exact Hlow |]. split; [exact Hhigh |]. split.
  { exists imdb, roidb, rl, ri. auto. }
  split; [exists m0; split; [exact Hnet | subst loc; reflexivity] |]. split.
  { intros e t evs t' He. exact (@train_epoch_state T args cfg su grp e t evs t' Hiters He). }
  split.
  { intros data t. unfold step_state, iteration_loss.
    destruct (run_forward t data) as [out m]. reflexivity. }
  unfold train_group. rewrite H. subst G'.
  destruct (bind _ _ _) as [ev' [e | [[] t]]]; reflexivity.
Qed.

(** C5. The setup of every group makes a new optimizer over the
    parameters of the new detector, Adam when [cfg.TRAIN.OPTIMIZER] is
    "adam" and SGD with momentum [cfg.TRAIN.MOMENTUM] when it is "sgd",
    and sets its rate and the variable [lr] to [cfg.TRAIN.LEARNING_RATE],
    times 0.1 for adam.  Neither depends on what an earlier group left. *)
Theorem C5_optimizer_reset_each_group dir group_cls grp sc ev su loc G :
  group_setup args cfg group_cls grp (globals sc) = (ev, inr ((su, loc), G)) ->
  (exists base,
     chosen_optimizer cfg (params su) base /\
     optimizer loc = set_learning_rate base (initial_lr cfg)) /\
  lr loc = initial_lr cfg /\
  initial_lr cfg =
    (if (TRAIN_OPTIMIZER cfg =? "adam")%string
     then nmul (TRAIN_LEARNING_RATE cfg) f_0_1 else TRAIN_LEARNING_RATE cfg) /\
  (exists m0,
     chosen_net args (CLASSES cfg) m0 /\
     params su = fst (collect_params cfg (TRAIN_LEARNING_RATE cfg)
                        (named_parameters (to_gpu cfg (create_architecture m0))))) /\
  (forall left_over,
     train_group args cfg dir group_cls grp {| globals := globals sc; prev := left_over |}
     = train_group args cfg dir group_cls grp sc).
Proof.
  intros H.
  destruct (@group_setup_inv T args cfg _ _ _ _ _ _ _ H)
    as (m0 & base & imdb & roidb & rl & ri & _ & _ & _ & Hnet & Hopt & Hps & _ & _ & _ & _ & _
        & _ & Hloc & _).
  subst loc. split; [exists base; split; [exact Hopt | reflexivity] |].
  split; [reflexivity |]. split; [reflexivity |]. split; [| reflexivity].
  exists m0. split; [exact Hnet | rewrite Hps; reflexivity].
Qed.

End SetupClaims.

(** ** The claims about the epoch and iteration loops *)

Section LoopClaims.

Context {T : Torch}.
Variable args : Args.
Variable cfg : Cfg.

Open Scope py_scope.

Lemma decay_epoch_iff e :
  decay_epoch cfg e = true <->
  e > 0 /\ e mod TRAIN_LEARNING_RATE_DECAY_STEP cfg = 0.
Proof.
  unfold decay_epoch. rewrite andb_true_iff, Z.eqb_eq, Z.gtb_lt. lia.
Qed.

(** [epoch_loop_inv] for any bound: a bound below 1 runs no epoch. *)
Lemma epoch_loop_inv_any su grp n t evs t' :
  epoch_loop args cfg su grp n t = (evs, inr (tt, t')) ->
  lr (vars t') = decayed (lr (vars t)) (TRAIN_LEARNING_RATE_DECAY_GAMMA cfg)
                         (decay_count cfg n) /\
  tot_step (vars t') =
    tot_step (vars t)
    + Z.max 0 n * Z.of_nat (List.length (Py.range 0 (iters_per_epoch su))) /\
  (Py.range 0 (iters_per_epoch su) = [] -> fasterRCNN (vars t') = fasterRCNN (vars t)) /\
  forall (rate : Optimizer -> num),
    (forall o m, rate (fst (opt_step o m)) = rate o) ->
    (forall o g, rate (adjust_learning_rate o g) = nmul (rate o) g) ->
    rate (optimizer (vars t')) =
    decayed (rate (optimizer (vars t))) (TRAIN_LEARNING_RATE_DECAY_GAMMA cfg)
            (decay_count cfg n).
Proof.
  intros H. destruct (Z.le_gt_cases n 0) as [Hn | Hn].
  - unfold epoch_loop in H. unfold decay_count. rewrite range_nil in * by lia.
    simpl in H. inversion H; subst. repeat split; auto. simpl. lia.
  - replace n with (Z.of_nat (Z.to_nat n)) in H |- * by lia.
    replace (Z.max 0 (Z.of_nat (Z.to_nat n))) with (Z.of_nat (Z.to_nat n)) by lia.
    exact (@epoch_loop_inv T args cfg su grp (Z.to_nat n) t evs t' H).
Qed.

(** C3. In a group whose setup completes, [now_cls_high] is
    [group_cls[g + 1]], and an iteration of the group reads the next batch
    and, with a display period, completes with the variables of
    [step_state]: the detector is run on the batch, and the loss
    backpropagated into it just before the optimizer step is the sum of
    four means, of the two RPN losses the detector returned, of the
    cross-entropy of the first [now_cls_high] columns of [cls_score]
    against [rois_label], and of the box loss the detector returned.  The
    classification loss the detector returned plays no part in it.  An
    iteration that completes did exactly this, and so did, one batch
    after the other, the iterations of every epoch of the group that
    completes. *)
Theorem C3_backpropagated_loss group_cls grp G ev su loc G' :
  group_setup args cfg group_cls grp G = (ev, inr ((su, loc), G')) ->
  Py.index group_cls (grp + 1) = inr (now_cls_high su) /\
  (forall loss_temp data_iter t data it',
     py_next data_iter = Some (data, it') ->
     TRAIN_DISPLAY cfg <> 0 ->
     exists evs loss_temp',
       train_iter args cfg grp (now_cls_high su) loss_temp data_iter t
       = (evs, inr ((loss_temp', it'), step_state args (now_cls_high su) data t))) /\
  (forall high loss_temp data_iter t evs loss_temp' it' t',
     train_iter args cfg grp high loss_temp data_iter t = (evs, inr ((loss_temp', it'), t')) ->
     exists data,
       py_next data_iter = Some (data, it') /\ t' = step_state args high data t) /\
  (forall e t evs t',
     train_epoch args cfg su grp e t = (evs, inr (tt, t')) ->
     steps args (now_cls_high su) (Z.to_nat (train_size su / TRAIN_BATCH_SIZE cfg))
           (py_iter (dataloader su)) (if decay_epoch cfg e then decay cfg t else t)
     = Some t') /\
  (forall high data t,
     let (out, m) := run_forward t data in
     let loss :=
       tadd (tadd (tadd (mean (rpn_loss_cls out)) (mean (rpn_loss_bbox out)))
                  (mean (cross_entropy (slice_last (cls_score out) high) (rois_label out))))
            (mean (RCNN_loss_bbox out)) in
     loss = iteration_loss high out /\
     (forall x, iteration_loss high (with_RCNN_loss_cls out x) = loss) /\
     fasterRCNN (vars (step_state args high data t)) =
       snd (opt_step (optimizer (vars t)) (backprop args (optimizer (vars t)) loss m)) /\
     optimizer (vars (step_state args high data t)) =
       fst (opt_step (optimizer (vars t)) (backprop args (optimizer (vars t)) loss m))).
Proof.
  intros H.
  destruct (@group_setup_inv T args cfg _ _ _ _ _ _ _ H)
    as (m0 & base & imdb & roidb & rl & ri & _ & Hhigh & _ & _ & _ & _ & _ & _ & _ & _ & Hiters
        & _).
  split; [exact Hhigh |]. split.
  { intros lt di t data it' Hn Hd. exact (train_iter_run args cfg grp _ lt _ t Hn Hd). }
  split.
  { intros high lt di t evs lt' it' t' Hi.
    destruct (train_iter_state _ _ _ _ _ _ _ Hi) as (data & Hn & Ht).
    exists data. split; [exact Hn | exact Ht]. }
  split.
  { intros e t evs t' He.
    exact (@train_epoch_state T args cfg su grp e t evs t' Hiters He). }
  intros high data t. unfold step_state, iteration_loss.
  destruct (run_forward t data) as [out m]. repeat split.
Qed.

(** C4. In the epoch loop of a group the rate is multiplied by
    [cfg.TRAIN.LEARNING_RATE_DECAY_GAMMA] at the head of every epoch [e]
    with [e > 0] and [e mod cfg.TRAIN.LEARNING_RATE_DECAY_STEP = 0], by
    [adjust_learning_rate] on the optimizer and by [lr *= gamma] on the
    variable, and nowhere else: an epoch changes the rate only there and an
    iteration leaves it alone.  So after the first [n] epochs the rate is
    the initial one multiplied by gamma once per such epoch below [n]. *)
Theorem C4_learning_rate_schedule su grp n t evs t' :
  epoch_loop args cfg su grp n t = (evs, inr (tt, t')) ->
  lr (vars t') = decayed (lr (vars t)) (TRAIN_LEARNING_RATE_DECAY_GAMMA cfg)
                         (decay_count cfg n) /\
  (forall rate : Optimizer -> num,
     (forall o m, rate (fst (opt_step o m)) = rate o) ->
     (forall o g, rate (adjust_learning_rate o g) = nmul (rate o) g) ->
     rate (optimizer (vars t')) =
     decayed (rate (optimizer (vars t))) (TRAIN_LEARNING_RATE_DECAY_GAMMA cfg)
             (decay_count cfg n)) /\
  decay_count cfg n =
    List.length (filter (fun e => (e mod TRAIN_LEARNING_RATE_DECAY_STEP cfg =? 0) && (e >? 0))
                        (Py.range 0 n)) /\
  (forall e t1 ev1 t2,
     train_epoch args cfg su grp e t1 = (ev1, inr (tt, t2)) ->
     lr (vars t2) = (if decay_epoch cfg e
                     then nmul (lr (vars t1)) (TRAIN_LEARNING_RATE_DECAY_GAMMA cfg)
                     else lr (vars t1)) /\
     forall (V : Type) (obs : Optimizer -> V),
       (forall o m, obs (fst (opt_step o m)) = obs o) ->
       obs (optimizer (vars t2)) =
       (if decay_epoch cfg e
        then obs (adjust_learning_rate (optimizer (vars t1))
                                       (TRAIN_LEARNING_RATE_DECAY_GAMMA cfg))
        else obs (optimizer (vars t1)))) /\
  (forall g high loss_temp data_iter t1 ev1 v t2,
     train_iter args cfg g high loss_temp data_iter t1 = (ev1, inr (v, t2)) ->
     lr (vars t2) = lr (vars t1) /\
     exists m, optimizer (vars t2) = fst (opt_step (optimizer (vars t1)) m)).
Proof.
  intros H. destruct (epoch_loop_inv_any _ _ _ _ H) as (Hlr & _ & _ & Hrate).
  split; [exact Hlr |]. split; [exact Hrate |]. split; [reflexivity |]. split.
  - intros e t1 ev1 t2 He.
    destruct (@train_epoch_inv T args cfg su grp e t1 ev1 t2 He) as (_ & H1 & _ & _ & H2).
    split; [exact H1 | exact H2].
  - intros g high lt di t1 ev1 [lt' di'] t2 Hi.
    destruct (train_iter_cases args cfg g high lt di t1)
      as [[_ H'] | [(data & it0 & _ & _ & H')
                   | (data & it0 & evs0 & lt0 & t0 & _ & _ & H' & _ & Hm & Hl & _)]];
      rewrite H' in Hi; try discriminate.
    inversion Hi; subst. split; [exact Hl |].
    destruct (run_forward t1 data) as [out m]. destruct Hm as [_ Hm].
    eexists. exact Hm.
Qed.


End LoopClaims.

(** ** The script on the sample inputs *)

#[local] Existing Instance Sample.torch.

(** The setup of group 0 on the sample inputs completes. *)
Lemma sample_setup0 :
  group_setup Sample.args Sample.cfg Sample.group_cls 0 (globals Sample.start)
  = (Sample.ev0, inr ((Sample.su0, Sample.loc0), globals Sample.start)).
Proof. vm_compute. reflexivity. Defined.

Lemma C1_witness :
  group_setup Sample.args Sample.cfg Sample.group_cls 0 (globals Sample.start)
  = (Sample.ev0, inr ((Sample.su0, Sample.loc0), globals Sample.start)) /\
  tot_step Sample.loc0 = 0 /\
  train_group Sample.args Sample.cfg "out" Sample.group_cls 0
              {| globals := globals Sample.start; prev := Some (vars Sample.t3) |}
  = train_group Sample.args Sample.cfg "out" Sample.group_cls 0 Sample.start.
Proof.
  split; [vm_compute; reflexivity |].
  destruct (@C1_detector_rebuilt_each_group Sample.torch Sample.args Sample.cfg "out"
              Sample.group_cls 0 Sample.start Sample.ev0 Sample.su0 Sample.loc0
              (globals Sample.start) sample_setup0) as (_ & Hstep & Hprev).
  split; [exact Hstep | apply Hprev].
Defined.

(** On the sample inputs group 1 starts from a detector that has taken no
    step, while group 0 left one that has taken nine. *)
Lemma C1_counterexample : ~ model_carries_over Sample.args Sample.cfg.
Proof.
  intros H.
  assert (E0 : train_group Sample.args Sample.cfg "out" Sample.group_cls 0 Sample.start
               = (Sample.events0, inr (tt, Sample.after0)))
    by (vm_compute; reflexivity).
  assert (E1 : group_setup Sample.args Sample.cfg Sample.group_cls (0 + 1)
                           (globals Sample.after0)
               = (Sample.ev1, inr ((Sample.su1, Sample.loc1), globals Sample.after0)))
    by (vm_compute; reflexivity).
  specialize (H "out" Sample.group_cls 0 Sample.start Sample.events0 Sample.after0
                (vars Sample.t3) Sample.ev1 Sample.su1 Sample.loc1
                (globals Sample.after0) E0 eq_refl E1).
  vm_compute in H. discriminate H.
Qed.

Lemma C2_witness :
  group_setup Sample.args Sample.cfg (bounds Sample.cfg) 0 (globals Sample.start)
  = (Sample.ev0, inr ((Sample.su0, Sample.loc0), globals Sample.start)) /\
  Py.index (bounds Sample.cfg) 0 = inr (now_cls_low Sample.su0) /\
  Py.index (bounds Sample.cfg) (0 + 1) = inr (now_cls_high Sample.su0) /\
  now_cls_high Sample.su0 = 3.
Proof.
  split; [vm_compute; reflexivity |].
  destruct (@C2_group_classes Sample.torch Sample.args Sample.cfg "out" 0
              Sample.start Sample.ev0 Sample.su0 Sample.loc0
              (globals Sample.start) sample_setup0) as (_ & _ & Hlow & Hhigh & _).
  split; [exact Hlow |]. split; [exact Hhigh | reflexivity].
Defined.

(** On the sample inputs group 0 has three classes and its detector is
    built over all five. *)
Lemma C2_counterexample : ~ head_uses_group_classes Sample.args Sample.cfg.
Proof.
  intros H.
  destruct (H Sample.group_cls 0 (globals Sample.start) Sample.ev0 Sample.su0 Sample.loc0
              (globals Sample.start) sample_setup0) as (m0 & Hnet & Hm).
  destruct Hnet as [[Hv _] | (_ & _ & depth & _ & Hm0)].
  - vm_compute in Hv. discriminate Hv.
  - subst m0. vm_compute in Hm. discriminate Hm.
Qed.

Lemma C3_witness :
  group_setup Sample.args Sample.cfg Sample.group_cls 0 (globals Sample.start)
  = (Sample.ev0, inr ((Sample.su0, Sample.loc0), globals Sample.start)) /\
  py_next (py_iter (dataloader Sample.su0)) = Some (Sample.batch, 2%nat) /\
  TRAIN_DISPLAY Sample.cfg <> 0 /\
  step_state Sample.args (now_cls_high Sample.su0) Sample.batch Sample.t0 = Sample.t1 /\
  exists evs loss_temp',
    train_iter Sample.args Sample.cfg 0 (now_cls_high Sample.su0) (of_int 0)
               (py_iter (dataloader Sample.su0)) Sample.t0
    = (evs, inr ((loss_temp', 2%nat),
                 step_state Sample.args (now_cls_high Sample.su0) Sample.batch Sample.t0)).
Proof.
  assert (Hn : py_next (py_iter (dataloader Sample.su0)) = Some (Sample.batch, 2%nat))
    by reflexivity.
  assert (Hd : TRAIN_DISPLAY Sample.cfg <> 0) by (simpl; lia).
  split; [vm_compute; reflexivity |]. split; [exact Hn |]. split; [exact Hd |].
  split; [vm_compute; reflexivity |].
  destruct (@C3_backpropagated_loss Sample.torch Sample.args Sample.cfg Sample.group_cls 0
              (globals Sample.start) Sample.ev0 Sample.su0 Sample.loc0
              (globals Sample.start) sample_setup0) as (_ & Hrun & _).
  exact (Hrun (of_int 0) (py_iter (dataloader Sample.su0)) Sample.t0 Sample.batch 2%nat Hn Hd).
Defined.

Lemma C4_witness :
  epoch_loop Sample.args Sample.cfg Sample.su0 0 3 Sample.t0
  = (Sample.evs3, inr (tt, Sample.t3)) /\
  lr (vars Sample.t3)
  = decayed (lr (vars Sample.t0)) (TRAIN_LEARNING_RATE_DECAY_GAMMA Sample.cfg)
            (decay_count Sample.cfg 3).
Proof.
  assert (E : epoch_loop Sample.args Sample.cfg Sample.su0 0 3 Sample.t0
              = (Sample.evs3, inr (tt, Sample.t3)))
    by (vm_compute; reflexivity).
  split; [exact E |].
  apply (@C4_learning_rate_schedule Sample.torch Sample.args Sample.cfg Sample.su0 0 3
           Sample.t0 Sample.evs3 Sample.t3 E).
Defined.

(** On binary64 floats, a rate of 0.001 decayed twice by 0.1 is
    [(0.001 * 0.1) * 0.1], which prints as 1e-05, while 0.001 times the
    square of 0.1 is the next float, 1.0000000000000003e-05. *)
Lemma C4_counterexample :
  ~ @rate_is_gamma_power Binary64.torch Binary64.args Binary64.cfg (@power Binary64.torch).
Proof.
  intros H.
  assert (E : @epoch_loop Binary64.torch Binary64.args Binary64.cfg Binary64.su0 0 3
                          Binary64.t0 = ([], inr (tt, Binary64.t3)))
    by (vm_compute; reflexivity).
  apply H in E.
  apply (f_equal (fun x : PrimFloat.float =>
                    PrimFloat.eqb x (@lr Binary64.torch (@vars Binary64.torch Binary64.t3))))
    in E.
  vm_compute in E. discriminate E.
Qed.

Lemma C5_witness :
  group_setup Sample.args Sample.cfg Sample.group_cls 0 (globals Sample.start)
  = (Sample.ev0, inr ((Sample.su0, Sample.loc0), globals Sample.start)) /\
  lr Sample.loc0 = initial_lr Sample.cfg.
Proof.
  split; [vm_compute; reflexivity |].
  apply (@C5_optimizer_reset_each_group Sample.torch Sample.args Sample.cfg "out"
           Sample.group_cls 0 Sample.start Sample.ev0 Sample.su0 Sample.loc0
           (globals Sample.start) sample_setup0).
Defined.


(** The setup and the epoch loop of group 0 with [cfg.MGPU] set and
    [cfg.CUDA] unset. *)
Lemma sample_setup0_mgpu :
  group_setup Sample.args Sample.cfg_mgpu Sample.group_cls 0 (globals Sample.start)
  = (Sample.ev0, inr ((Sample.su0, Sample.loc0), globals Sample.start)).
Proof. vm_compute. reflexivity. Defined.

Lemma sample_epochs0_mgpu :
  epoch_loop Sample.args Sample.cfg_mgpu Sample.su0 0 (TRAIN_MAX_EPOCH Sample.cfg_mgpu)
             {| glob := globals Sample.start; vars := Sample.loc0 |}
  = (Sample.evs3, inr (tt, Sample.t3)).
Proof. vm_compute. reflexivity. Defined.

(** With [cfg.MGPU] set and [cfg.CUDA] unset, group 0 of the sample inputs
    runs its three epochs and then raises AttributeError: it writes no
    checkpoint. *)
Lemma C7_witness :
  (group_setup Sample.args Sample.cfg_mgpu Sample.group_cls 0 (globals Sample.start)
   = (Sample.ev0, inr ((Sample.su0, Sample.loc0), globals Sample.start)) /\
   epoch_loop Sample.args Sample.cfg_mgpu Sample.su0 0 (TRAIN_MAX_EPOCH Sample.cfg_mgpu)
              {| glob := globals Sample.start; vars := Sample.loc0 |}
   = (Sample.evs3, inr (tt, Sample.t3)) /\
   can_save Sample.cfg_mgpu = false) /\
  train_group Sample.args Sample.cfg_mgpu "out" Sample.group_cls 0 Sample.start
  = ((Sample.ev0 ++ Sample.evs3)%list, inl Py.AttributeError) /\
  saves (fst (train_group Sample.args Sample.cfg_mgpu "out" Sample.group_cls 0 Sample.start))
  = [].
Proof.
  split; [repeat split; vm_compute; reflexivity |].
  destruct (@C7_one_checkpoint_per_group Sample.torch Sample.args Sample.cfg_mgpu "out"
              Sample.group_cls 0 Sample.start Sample.ev0 Sample.su0 Sample.loc0
              Sample.evs3 Sample.t3 sample_setup0_mgpu sample_epochs0_mgpu)
    as (_ & _ & Hbad & _).
  destruct (Hbad eq_refl) as (_ & _ & Hr & Hs). split; [exact Hr | exact Hs].
Defined.

Lemma C7_failing_input :
  ~ one_checkpoint_per_trained_group Sample.args Sample.cfg_mgpu.
Proof.
  intros H.
  destruct (H "out" Sample.group_cls 0 Sample.start Sample.ev0 Sample.su0 Sample.loc0
              Sample.evs3 Sample.t3 sample_setup0_mgpu sample_epochs0_mgpu) as (ck & Hck).
  vm_compute in Hck. discriminate Hck.
Qed.

(** On the sample inputs both groups complete from any variables, so the
    script trains group 0 and then group 1 and writes their two
    checkpoints in this order. *)
Lemma sample_groups_complete :
  forall g sc, In g (groups_to_train Sample.args Sample.cfg) ->
    exists ev sc',
      train_group Sample.args Sample.cfg (out_dir Sample.args) (bounds Sample.cfg) g sc
      = (ev, inr (tt, sc')).
Proof.
  intros g sc Hin.
  destruct (train_group Sample.args Sample.cfg (out_dir Sample.args) (bounds Sample.cfg) g sc)
    as [ev [e | [[] sc']]] eqn:E; [| exists ev, sc'; reflexivity].
  exfalso. destruct Hin as [<- | [<- | []]]; vm_compute in E; discriminate E.
Defined.

Lemma C8_witness :
  save_dir Sample.args = SaveDirStr "results" /\
  groups_to_train Sample.args Sample.cfg = [0; 1] /\
  exists evs sc',
    trained Sample.args Sample.cfg (out_dir Sample.args) (bounds Sample.cfg) [0; 1]
            {| globals := init_globals Sample.cfg; prev := None |} evs (inr sc') /\
    snd (main Sample.args Sample.cfg) = inr (tt, sc') /\
    map snd (saves (fst (main Sample.args Sample.cfg)))
    = ["results/1/res101/2007/faster_rcnn_1_res101_2007_0.pth";
       "results/1/res101/2007/faster_rcnn_1_res101_2007_1.pth"].
Proof.
  split; [reflexivity |]. split; [reflexivity |].
  destruct (@C8_groups_trained Sample.torch Sample.args Sample.cfg) as (_ & _ & Hrun).
  destruct (Hrun "results" eq_refl) as (evs & r & Htr & Hmain & Hsaves & Hall).
  destruct (Hall sample_groups_complete) as (sc' & Hr). subst r.
  exists evs, sc'. split; [exact Htr |]. split; [rewrite Hmain; reflexivity |].
  rewrite Hsaves. reflexivity.
Defined.

Lemma C9_witness :
  (Py.index Sample.group_cls 0 = inr 1 /\
   Py.index Sample.group_cls (0 + 1) = inr 3 /\
   3 <> 1) /\
  (group_setup Sample.args Sample.cfg Sample.group_cls 0 (globals Sample.start)
   = ([], inl (Py.KeyError "Unknown Network"))
   <-> net_known Sample.args = false).
Proof.
  assert (H1 : Py.index Sample.group_cls 0 = inr 1) by reflexivity.
  assert (H2 : Py.index Sample.group_cls (0 + 1) = inr 3) by reflexivity.
  assert (H3 : 3 <> 1) by lia.
  split; [auto |].
  apply (@C9_key_errors Sample.torch Sample.args Sample.cfg Sample.group_cls 0
           (globals Sample.start) 1 3 H1 H2 H3).
Defined.

(** With [--net resnet] and an unknown optimizer the setup of group 0
    raises ValueError, from [int("net")], and no KeyError. *)
Lemma C9_counterexample : ~ keyerror_iff_unsupported Sample.args_resnet Sample.cfg_rmsprop.
Proof.
  intros H.
  assert (H3 : 3 <> 1) by lia.
  destruct (H Sample.group_cls 0 (globals Sample.start) 1 3 eq_refl eq_refl H3)
    as [_ Hback].
  destruct Hback as [msg Hmsg]; [right; reflexivity |].
  vm_compute in Hmsg. discriminate Hmsg.
Qed.

(** ** The parameter groups of the optimizer *)

Section Parameters.

Context {T : Torch}.
Variable cfg : Cfg.

Lemma collect_params_fold (lr0 : num) (l : list (Z * (string * Param))) :
  forall ps special,
    fold_left
      (fun acc '(ith, (key, value)) =>
         let '(ps, special) := acc in
         if requires_grad value then
           (ps ++ [param_entry cfg lr0 key value],
            if Py.contains "RCNN_rpn.RPN_cls_score" key then special ++ [ith] else special)%list
         else (ps, special))
      l (ps, special)
    = ((ps ++ map (fun e => param_entry cfg lr0 (fst (snd e)) (snd (snd e)))
                  (filter (fun e => requires_grad (snd (snd e))) l))%list,
       (special ++ map fst (filter (fun e => requires_grad (snd (snd e))
                                             && Py.contains "RCNN_rpn.RPN_cls_score" (fst (snd e)))
                                   l))%list).
Proof.
  induction l as [| [ith [key value]] l IH]; intros ps special; simpl.
  - rewrite !app_nil_r. reflexivity.
  - destruct (requires_grad value); simpl.
    + rewrite IH. destruct (Py.contains "RCNN_rpn.RPN_cls_score" key); simpl;
        rewrite <- !app_assoc; reflexivity.
    + apply IH.
Qed.

Lemma combine_seq_snd {A : Type} (f : nat -> Z) (l : list A) :
  forall s, map snd (combine (map f (seq s (List.length l))) l) = l.
Proof.
  induction l as [| a l IH]; intros s; simpl; [reflexivity | rewrite IH; reflexivity].
Qed.

Lemma combine_seq_fst {A : Type} (f : nat -> Z) (l : list A) :
  forall s, map fst (combine (map f (seq s (List.length l))) l)
            = map f (seq s (List.length l)).
Proof.
  induction l as [| a l IH]; intros s; simpl; [reflexivity | rewrite IH; reflexivity].
Qed.

Lemma combine_seq_nth {A : Type} (f : nat -> Z) (l : list A) :
  forall s i, nth_error (combine (map f (seq s (List.length l))) l) i
              = option_map (fun a => (f (s + i)%nat, a)) (nth_error l i).
Proof.
  induction l as [| a l IH]; intros s i; simpl.
  - destruct i; reflexivity.
  - destruct i as [| i]; simpl.
    + rewrite Nat.add_0_r. reflexivity.
    + rewrite IH. replace (S s + i)%nat with (s + S i)%nat by lia. reflexivity.
Qed.

Lemma enumerate_unfold {A : Type} (l : list A) :
  enumerate l = combine (map (fun i => 0 + Z.of_nat i) (seq 0 (List.length l))) l.
Proof.
  unfold enumerate, Py.range. do 3 f_equal. lia.
Qed.

Lemma enumerate_snd {A : Type} (l : list A) : map snd (enumerate l) = l.
Proof. rewrite enumerate_unfold. apply combine_seq_snd. Qed.

Lemma enumerate_fst {A : Type} (l : list A) :
  map fst (enumerate l) = Py.range 0 (Z.of_nat (List.length l)).
Proof.
  rewrite enumerate_unfold, combine_seq_fst. unfold Py.range. do 2 f_equal. lia.
Qed.

Lemma enumerate_nth {A : Type} (l : list A) i :
  nth_error (enumerate l) i = option_map (fun a => (Z.of_nat i, a)) (nth_error l i).
Proof.
  rewrite enumerate_unfold, combine_seq_nth. simpl.
  destruct (nth_error l i); reflexivity.
Qed.

Lemma filter_map_comm {A B : Type} (f : A -> B) (p : B -> bool) (l : list A) :
  filter p (map f l) = map f (filter (fun a => p (f a)) l).
Proof.
  induction l as [| a l IH]; simpl; [reflexivity |].
  destruct (p (f a)); simpl; rewrite IH; reflexivity.
Qed.

Lemma range_bounds a b i : In i (Py.range a b) -> a <= i < b.
Proof.
  unfold Py.range. rewrite in_map_iff. intros (k & <- & Hk).
  apply in_seq in Hk. lia.
Qed.

(** X1. The parameter groups given to the optimizer are those of the
    parameters that require gradients, one group of one parameter each, in
    the order of [named_parameters]; frozen parameters get none. *)
Theorem X1_param_groups_are_trainable (lr0 : num) (named : list (string * Param)) :
  fst (collect_params cfg lr0 named)
  = map (fun kv => param_entry cfg lr0 (fst kv) (snd kv)) (trainable named) /\
  map (@pg_params num Param) (fst (collect_params cfg lr0 named))
  = map (fun kv => [snd kv]) (trainable named) /\
  (List.length (fst (collect_params cfg lr0 named)) <= List.length named)%nat.
Proof.
  unfold collect_params. rewrite collect_params_fold. simpl fst.
  assert (E : map (fun e : Z * (string * Param) =>
                     param_entry cfg lr0 (fst (snd e)) (snd (snd e)))
                  (filter (fun e => requires_grad (snd (snd e))) (enumerate named))
              = map (fun kv => param_entry cfg lr0 (fst kv) (snd kv)) (trainable named)).
  { unfold trainable. rewrite <- (enumerate_snd named) at 2.
    rewrite filter_map_comm, map_map. reflexivity. }
  rewrite E. split; [reflexivity |]. split.
  - rewrite map_map. apply map_ext. intros [key value]. unfold param_entry. simpl.
    destruct (Py.contains "bias" key); reflexivity.
  - rewrite length_map. unfold trainable. apply filter_length_le.
Qed.

(** X2. [special_params_index] holds the positions, counted among all
    named parameters, frozen ones included, of the trainable parameters
    whose name contains [RCNN_rpn.RPN_cls_score]; each is a valid position
    and they increase. *)
Theorem X2_special_params_index (lr0 : num) (named : list (string * Param)) :
  snd (collect_params cfg lr0 named) = rpn_cls_score_positions named /\
  Forall (fun i => 0 <= i < Z.of_nat (List.length named)) (snd (collect_params cfg lr0 named)) /\
  (forall i key value,
     nth_error named i = Some (key, value) ->
     (In (Z.of_nat i) (snd (collect_params cfg lr0 named)) <->
      requires_grad value = true /\ Py.contains "RCNN_rpn.RPN_cls_score" key = true)).
Proof.
  unfold collect_params. rewrite collect_params_fold. simpl snd.
  fold (rpn_cls_score_positions named).
  split; [reflexivity |]. split.
  - apply Forall_forall. intros i Hi. unfold rpn_cls_score_positions in Hi.
    apply in_map_iff in Hi. destruct Hi as (e & <- & He).
    apply filter_In in He. destruct He as [He _].
    apply (in_map fst) in He. rewrite enumerate_fst in He.
    apply range_bounds in He. exact He.
  - intros i key value Hnth. unfold rpn_cls_score_positions.
    rewrite in_map_iff. split.
    + intros (e & He1 & He2). apply filter_In in He2. destruct He2 as [Hin Hp].
      destruct e as [j [k v]]. simpl in He1, Hp. subst j.
      apply In_nth_error in Hin. destruct Hin as [n Hn].
      rewrite enumerate_nth in Hn.
      destruct (nth_error named n) as [kv |] eqn:Hkv; [| discriminate].
      simpl in Hn. inversion Hn. assert (n = i) by lia. subst n kv.
      rewrite Hnth in Hkv. inversion Hkv; subst. apply andb_prop in Hp. exact Hp.
    + intros [Hg Hc]. exists (Z.of_nat i, (key, value)). split; [reflexivity |].
      apply filter_In. split; [| simpl; rewrite Hg, Hc; reflexivity].
      apply nth_error_In with (n := i). rewrite enumerate_nth, Hnth. reflexivity.
Qed.

End Parameters.

(** ** How a group fails *)

Section Failures.

Context {T : Torch}.
Variable args : Args.
Variable cfg : Cfg.

Open Scope py_scope.

Lemma index_cases {A : Type} (l : list A) (i : Z) :
  (in_range (Z.of_nat (List.length l)) i /\ exists a, Py.index l i = inr a)
  \/
  (~ in_range (Z.of_nat (List.length l)) i /\ Py.index l i = inl Py.IndexError).
Proof.
  unfold Py.index, in_range.
  set (n := Z.of_nat (List.length l)).
  set (j := if i <? 0 then i + n else i).
  assert (Hj : (0 <= j < n) <-> (- n <= i < n)).
  { subst j. destruct (i <? 0) eqn:Hi;
      [apply Z.ltb_lt in Hi | apply Z.ltb_ge in Hi]; lia. }
  destruct ((j <? 0) || (n <=? j)) eqn:Hb.
  - right. split; [| reflexivity]. intros Hr. apply Hj in Hr.
    apply orb_prop in Hb. destruct Hb as [Hb | Hb];
      [apply Z.ltb_lt in Hb | apply Z.leb_le in Hb]; lia.
  - left. apply orb_false_elim in Hb. destruct Hb as [H1 H2].
    apply Z.ltb_ge in H1. apply Z.leb_gt in H2.
    split; [apply Hj; lia |].
    destruct (nth_error l (Z.to_nat j)) as [a |] eqn:Hn; [exists a; reflexivity |].
    apply nth_error_None in Hn. subst n. lia.
Qed.

(** The exceptions of the setup of a group. *)
Lemma group_setup_exc group_cls grp G ev e :
  group_setup args cfg group_cls grp G = (ev, inl e) ->
  (e = Py.IndexError /\ ev = [] /\
   ~ (in_range (Z.of_nat (List.length group_cls)) grp /\
      in_range (Z.of_nat (List.length group_cls)) (grp + 1)))
  \/
  (in_range (Z.of_nat (List.length group_cls)) grp /\
   in_range (Z.of_nat (List.length group_cls)) (grp + 1) /\
   (e = Py.ZeroDivisionError \/ e = Py.ValueError \/
    e = Py.KeyError "Unknown Network" \/ e = Py.KeyError "Unknown Optimizer")).
Proof.
  unfold group_setup, get_net, get_optimizer.
  destruct (index_cases group_cls grp) as [[Hr1 [low H1]] | [Hr1 H1]]; rewrite H1; run.
  2: { intros H. inversion H; subst. left. repeat split; auto. intros [Hr _]. auto. }
  destruct (index_cases group_cls (grp + 1)) as [[Hr2 [high H2]] | [Hr2 H2]]; rewrite H2; run.
  2: { intros H. inversion H; subst. left. repeat split; auto. intros [_ Hr]. auto. }
  intros H. right. split; [exact Hr1 |]. split; [exact Hr2 |]. revert H.
  destruct (high - 1 =? 0); run; [intros H; inversion H; auto |].
  destruct (net args =? "vgg16")%string;
    [| destruct (Py.startswith (net args) "res");
       [destruct (py_int (Py.slice_from (net args) 3)) |]];
    run; try (intros H; inversion H; auto 6; fail).
  all: destruct (collect_params _ _ _) as [ps special].
  all: destruct (TRAIN_OPTIMIZER cfg =? "adam")%string;
    [| destruct (TRAIN_OPTIMIZER cfg =? "sgd")%string]; run;
    try (intros H; inversion H; auto 6; fail).
  all: destruct (combined_roidb _ _ _ _) as [[[imdb roidb] rl] ri]; run.
  all: destruct (TRAIN_BATCH_SIZE cfg =? 0); run; intros H; inversion H; auto.
Qed.

(** X3. The setup of a group raises IndexError exactly when [group] or
    [group + 1] is not an index of the class bounds, counting from either
    end; it has then written nothing and built nothing. *)
Theorem X3_index_error group_cls grp G :
  let n := Z.of_nat (List.length group_cls) in
  (snd (group_setup args cfg group_cls grp G) = inl Py.IndexError <->
   ~ (in_range n grp /\ in_range n (grp + 1))) /\
  (snd (group_setup args cfg group_cls grp G) = inl Py.IndexError ->
   fst (group_setup args cfg group_cls grp G) = []).
Proof.
  intros n. subst n.
  destruct (group_setup args cfg group_cls grp G) as [ev [e | x]] eqn:Hs; simpl.
  - destruct (group_setup_exc _ _ _ Hs) as [(He & Hev & Hr) | (Hr1 & Hr2 & He)].
    + subst. split; [split; auto | auto].
    + split.
      * split; [| intros Hn; exfalso; apply Hn; split; assumption].
        intros Hi. inversion Hi; subst.
        destruct He as [He | [He | [He | He]]]; discriminate.
      * intros Hi. inversion Hi; subst.
        destruct He as [He | [He | [He | He]]]; discriminate.
  - destruct x as [[su loc] G'].
    destruct (@group_setup_inv T args cfg _ _ _ _ _ _ _ Hs)
      as (m0 & base & imdb & roidb & rl & ri & Hlow & Hhigh & _).
    split; [| discriminate]. split; [discriminate |].
    intros Hn. exfalso. apply Hn.
    destruct (index_cases group_cls grp) as [[Hr1 _] | [_ H1]];
      [| rewrite H1 in Hlow; discriminate].
    destruct (index_cases group_cls (grp + 1)) as [[Hr2 _] | [_ H2]];
      [| rewrite H2 in Hhigh; discriminate].
    split; assumption.
Qed.

Lemma range_cons a b : a < b -> Py.range a b = a :: Py.range (a + 1) b.
Proof.
  intros H. unfold Py.range.
  replace (Z.to_nat (b - a)) with (S (Z.to_nat (b - (a + 1)))) by lia.
  simpl. f_equal; [lia |].
  rewrite <- seq_shift, map_map. apply map_ext. intros i. lia.
Qed.



Lemma epoch_loop_first su grp n t :
  1 <= n ->
  epoch_loop args cfg su grp n t =
  bind (train_epoch args cfg su grp 0)
       (fun _ => for_each (Py.range 1 n) (train_epoch args cfg su grp)) t.
Proof.
  intros Hn. unfold epoch_loop, for_each. rewrite range_cons by lia.
  replace (0 + 1) with 1 by lia. simpl for_fold.
  apply bind_ext. intros [] s'. reflexivity.
Qed.

(** X5. With [cfg.TRAIN.LEARNING_RATE_DECAY_STEP] zero and at least one
    epoch to run, a group whose setup completes raises ZeroDivisionError
    at the head of its first epoch, where [epoch % step] is evaluated
    before [epoch > 0]: it has written its roidb line only, taken no step
    and saved no checkpoint. *)
Theorem X5_zero_decay_step dir group_cls grp sc ev su loc :
  group_setup args cfg group_cls grp (globals sc) = (ev, inr ((su, loc), globals sc)) ->
  TRAIN_LEARNING_RATE_DECAY_STEP cfg = 0 ->
  1 <= TRAIN_MAX_EPOCH cfg ->
  train_group args cfg dir group_cls grp sc = (ev, inl Py.ZeroDivisionError) /\
  ev = [TqdmWrite (Py.str (train_size su) ++ " roidb entries")] /\
  saves ev = [].
Proof.
  intros Hs Hz Hn.
  assert (Hl : epoch_loop args cfg su grp (TRAIN_MAX_EPOCH cfg)
                          {| glob := globals sc; vars := loc |}
               = ([], inl Py.ZeroDivisionError)).
  { rewrite epoch_loop_first by exact Hn.
    apply bind_exc. apply train_epoch_zero_step. exact Hz. }
  destruct (@group_setup_inv T args cfg _ _ _ _ _ _ _ Hs)
    as (m0 & base & imdb & roidb & rl & ri & _ & _ & _ & _ & _ & _ & _ & _ & _ & _ & _ & _
        & _ & _ & Hev).
  split; [| split; [exact Hev | subst ev; reflexivity]].
  unfold train_group. rewrite Hs. unfold bind. rewrite Hl. rewrite app_nil_r. reflexivity.
Qed.

(** X6. With [cfg.TRAIN.MAX_EPOCH] zero or negative a group whose setup
    completes runs no epoch and goes straight to its checkpoint: when
    line 250 can read the detector it saves the detector and optimizer
    exactly as the setup built them, with that [MAX_EPOCH] as the epoch,
    after zero steps, and completes; otherwise it raises AttributeError
    having written its roidb line only. *)
Theorem X6_no_epoch_still_saves dir group_cls grp sc ev su loc :
  group_setup args cfg group_cls grp (globals sc) = (ev, inr ((su, loc), globals sc)) ->
  TRAIN_MAX_EPOCH cfg <= 0 ->
  let t := {| glob := globals sc; vars := loc |} in
  tot_step loc = 0 /\
  (can_save cfg = true ->
   exists ck m0,
     train_group args cfg dir group_cls grp sc
     = ((ev ++ closing args dir grp ck)%list,
        inr (tt, {| globals := globals sc; prev := Some loc |})) /\
     ck_epoch ck = TRAIN_MAX_EPOCH cfg /\
     ck_optimizer ck = opt_state_dict (optimizer loc) /\
     chosen_net args (CLASSES cfg) m0 /\
     ck_model ck = state_dict (if MGPU cfg then module (fresh_detector cfg m0)
                               else fresh_detector cfg m0)) /\
  (can_save cfg = false ->
   train_group args cfg dir group_cls grp sc = (ev, inl Py.AttributeError)).
Proof.
  intros Hs Hn t.
  destruct (@group_setup_inv T args cfg _ _ _ _ _ _ _ Hs)
    as (m0 & base & imdb & roidb & rl & ri & _ & _ & _ & Hnet & _ & _ & _ & _ & _ & _ & _ & _
        & Hloc & _).
  assert (Hl : epoch_loop args cfg su grp (TRAIN_MAX_EPOCH cfg) t = ([], inr (tt, t))).
  { unfold epoch_loop. rewrite range_nil by lia. reflexivity. }
  rewrite (train_group_after args cfg dir _ _ _ Hs Hl).
  split; [subst loc; reflexivity |].
  destruct (checkpoint_cases args cfg t)
    as [(Hc & ck & Hck & _ & Hep & Hm & Ho & _) | (Hc & _ & _ & Hck)];
    rewrite Hck, Hc; (split; [| intros Hf; try discriminate Hf]).
  - intros _. exists ck, m0. split; [reflexivity |]. split; [exact Hep |].
    split; [exact Ho |]. split; [exact Hnet |]. rewrite Hm. subst t loc. reflexivity.
  - discriminate.
  - rewrite app_nil_r. reflexivity.
Qed.

(** The first iteration of the first epoch decides, when the display
    period is zero. *)
Lemma iter_loop_zero_display grp high l v t :
  TRAIN_DISPLAY cfg = 0 -> l <> [] ->
  iter_loop args cfg grp high l v t
  = ([], inl (match py_next (snd v) with
              | Some _ => Py.ZeroDivisionError
              | None => Py.StopIteration
              end)).
Proof.
  intros Hd Hl. destruct l as [| a l]; [contradiction |]. destruct v as [lt di].
  unfold iter_loop. simpl for_fold. simpl snd.
  destruct (train_iter_cases args cfg grp high lt di t)
    as [[Hn H] | [(data & it' & Hn & _ & H)
                 | (data & it' & evs & lt' & t' & _ & Hd' & _)]].
  - rewrite Hn. apply bind_exc. exact H.
  - rewrite Hn. apply bind_exc. exact H.
  - contradiction.
Qed.

(** X7. With [cfg.TRAIN.DISPLAY] zero, a decay step other than zero and
    at least one epoch of at least one iteration, a group whose setup
    completes raises in its very first iteration: ZeroDivisionError from
    [tot_step % DISPLAY], after the optimizer step, when the loader has a
    batch, StopIteration when it has none.  Nothing is displayed and no
    checkpoint is saved. *)
Theorem X7_zero_display_period dir group_cls grp sc ev su loc :
  group_setup args cfg group_cls grp (globals sc) = (ev, inr ((su, loc), globals sc)) ->
  TRAIN_LEARNING_RATE_DECAY_STEP cfg <> 0 ->
  TRAIN_DISPLAY cfg = 0 ->
  1 <= TRAIN_MAX_EPOCH cfg ->
  1 <= iters_per_epoch su ->
  train_group args cfg dir group_cls grp sc
  = (ev, inl (match py_next (py_iter (dataloader su)) with
              | Some _ => Py.ZeroDivisionError
              | None => Py.StopIteration
              end)) /\
  saves ev = [] /\ count_displays ev = 0%nat.
Proof.
  intros Hs Hstep Hd Hn Hi.
  destruct (@group_setup_inv T args cfg _ _ _ _ _ _ _ Hs)
    as (m0 & base & imdb & roidb & rl & ri & _ & _ & _ & _ & _ & _ & _ & _ & _ & _ & _ & _
        & _ & _ & Hev).
  split; [| subst ev; split; reflexivity].
  assert (H0 : decay_epoch cfg 0 = false).
  { unfold decay_epoch. rewrite andb_false_r. reflexivity. }
  assert (Hl : epoch_loop args cfg su grp (TRAIN_MAX_EPOCH cfg)
                          {| glob := globals sc; vars := loc |}
               = ([], inl (match py_next (py_iter (dataloader su)) with
                           | Some _ => Py.ZeroDivisionError
                           | None => Py.StopIteration
                           end))).
  { rewrite epoch_loop_first by exact Hn. apply bind_exc.
    rewrite train_epoch_unfold by exact Hstep. rewrite H0. apply bind_exc.
    rewrite iter_loop_zero_display;
      [reflexivity | exact Hd | rewrite range_cons by lia; discriminate]. }
  unfold train_group. rewrite Hs. unfold bind. rewrite Hl. rewrite app_nil_r. reflexivity.
Qed.

(** A loader that runs out ends the iteration loop with StopIteration. *)
Lemma iter_loop_short grp high l :
  TRAIN_DISPLAY cfg <> 0 ->
  forall loss_temp data_iter t,
    has_batches (List.length l) data_iter = false ->
    exists evs, iter_loop args cfg grp high l (loss_temp, data_iter) t
                = (evs, inl Py.StopIteration).
Proof.
  intros Hd. unfold iter_loop. induction l as [| a l IH]; intros lt di t Hb.
  - discriminate.
  - simpl in Hb. simpl for_fold.
    destruct (train_iter_cases args cfg grp high lt di t)
      as [[Hn H] | [(data & it' & _ & Hd' & _)
                   | (data & it' & evs0 & lt' & t0 & Hn & _ & H & _)]].
    + exists []. apply bind_exc. exact H.
    + contradiction.
    + rewrite Hn in Hb. destruct (IH lt' it' t0 Hb) as (evs & H').
      exists (evs0 ++ evs)%list. eapply bind_ok; [exact H | exact H'].
Qed.

(** X8. With a decay step and a display period other than zero, at least
    one epoch to run and a detector that line 250 can read, a group whose
    setup completes itself completes exactly when the iterator of its
    loader yields [iters_per_epoch] batches; when it yields fewer the
    group ends with StopIteration, from [next(data_iter)] in its first
    epoch, and saves no checkpoint. *)
Theorem X8_loader_runs_out dir group_cls grp sc ev su loc :
  group_setup args cfg group_cls grp (globals sc) = (ev, inr ((su, loc), globals sc)) ->
  TRAIN_LEARNING_RATE_DECAY_STEP cfg <> 0 ->
  TRAIN_DISPLAY cfg <> 0 ->
  1 <= TRAIN_MAX_EPOCH cfg ->
  can_save cfg = true ->
  let enough := has_batches (List.length (Py.range 0 (iters_per_epoch su)))
                            (py_iter (dataloader su)) in
  ((exists evs sc', train_group args cfg dir group_cls grp sc = (evs, inr (tt, sc')))
   <-> enough = true) /\
  (enough = false ->
   exists evs, train_group args cfg dir group_cls grp sc = (evs, inl Py.StopIteration) /\
               saves evs = []).
Proof.
  intros Hs Hstep Hd Hn Hcan enough.
  assert (Hshort : enough = false ->
            exists evs, train_group args cfg dir group_cls grp sc
                        = (evs, inl Py.StopIteration) /\ saves evs = []).
  { intros He.
    destruct (iter_loop_short grp (now_cls_high su) (Py.range 0 (iters_per_epoch su)) Hd
                (of_int 0) (py_iter (dataloader su))
                {| glob := globals sc; vars := loc |} He) as (evs & Hi).
    assert (H0 : decay_epoch cfg 0 = false).
    { unfold decay_epoch. rewrite andb_false_r. reflexivity. }
    assert (Hl : epoch_loop args cfg su grp (TRAIN_MAX_EPOCH cfg)
                            {| glob := globals sc; vars := loc |}
                 = (evs, inl Py.StopIteration)).
    { rewrite epoch_loop_first by exact Hn. apply bind_exc.
      rewrite train_epoch_unfold by exact Hstep. rewrite H0. apply bind_exc. exact Hi. }
    exists (ev ++ evs)%list. split.
    - unfold train_group. rewrite Hs. unfold bind. rewrite Hl. reflexivity.
    - rewrite saves_app.
      rewrite (saves_no_save (@group_setup_no_save T args cfg _ _ _ _ _ Hs)).
      rewrite (saves_no_save (is_log_no_save (@epoch_loop_log T args cfg _ _ _ _ _ _ Hl))).
      reflexivity. }
  split; [| exact Hshort]. split.
  - intros (evs & sc' & H). destruct enough eqn:He; [reflexivity |].
    destruct (Hshort eq_refl) as (evs' & H' & _). rewrite H' in H. discriminate.
  - intros He.
    destruct (@epoch_loop_total T args cfg su grp (Z.to_nat (TRAIN_MAX_EPOCH cfg))
                Hstep Hd He {| glob := globals sc; vars := loc |}) as (ev' & t' & Hl).
    replace (Z.of_nat (Z.to_nat (TRAIN_MAX_EPOCH cfg))) with (TRAIN_MAX_EPOCH cfg) in Hl by lia.
    rewrite (train_group_after args cfg dir _ _ _ Hs Hl).
    destruct (checkpoint_cases args cfg t') as [(_ & ck & Hck & _) | (Hc & _)];
      [| congruence].
    rewrite Hck. eexists _, _. reflexivity.
Qed.

End Failures.

(** ** What a group displays *)

Section Display.

Context {T : Torch}.
Variable args : Args.
Variable cfg : Cfg.

Open Scope py_scope.

Lemma map_seq_shift {B : Type} (f : nat -> B) (k n : nat) :
  forall s, map f (seq (s + k) n) = map (fun i => f (i + k)%nat) (seq s n).
Proof.
  induction n as [| n IH]; intros s; simpl; [reflexivity |].
  f_equal. exact (IH (S s)).
Qed.

Lemma range_app a b c : a <= b -> b <= c -> Py.range a c = (Py.range a b ++ Py.range b c)%list.
Proof.
  intros H1 H2. unfold Py.range.
  replace (Z.to_nat (c - a)) with (Z.to_nat (b - a) + Z.to_nat (c - b))%nat by lia.
  rewrite seq_app, map_app. f_equal.
  rewrite map_seq_shift. apply map_ext. intros i. lia.
Qed.

Lemma div_succ a d :
  0 < d -> (a + 1) / d = a / d + (if (a + 1) mod d =? 0 then 1 else 0).
Proof.
  intros H.
  destruct ((a + 1) mod d =? 0) eqn:E; [apply Z.eqb_eq in E | apply Z.eqb_neq in E];
    Z.div_mod_to_equations; nia.
Qed.

Lemma display_steps_same a : display_steps cfg a a = [].
Proof. unfold display_steps. rewrite range_nil by lia. reflexivity. Qed.

Lemma display_steps_app a b c :
  a <= b -> b <= c ->
  display_steps cfg a c = (display_steps cfg a b ++ display_steps cfg b c)%list.
Proof.
  intros H1 H2. unfold display_steps.
  rewrite (range_app (a := a + 1) (b := b + 1) (c := c + 1)) by lia.
  apply filter_app.
Qed.

Lemma display_steps_one a :
  display_steps cfg a (a + 1)
  = (if (a + 1) mod TRAIN_DISPLAY cfg =? 0 then [a + 1] else []).
Proof. unfold display_steps. rewrite range_single. reflexivity. Qed.

(** The display steps between two steps are as many as the multiples of
    a positive period between them. *)
Lemma display_steps_length a k :
  0 < TRAIN_DISPLAY cfg ->
  Z.of_nat (List.length (display_steps cfg a (a + Z.of_nat k)))
  = (a + Z.of_nat k) / TRAIN_DISPLAY cfg - a / TRAIN_DISPLAY cfg.
Proof.
  intros Hd. induction k as [| k IH].
  - rewrite Z.add_0_r, display_steps_same. simpl. lia.
  - replace (a + Z.of_nat (S k)) with (a + Z.of_nat k + 1) by lia.
    rewrite (display_steps_app (a := a) (b := a + Z.of_nat k)) by lia.
    rewrite length_app, Nat2Z.inj_add, IH, display_steps_one, (div_succ _ Hd).
    destruct (_ =? 0); simpl; lia.
Qed.

Lemma count_displays_app evs1 evs2 :
  count_displays (evs1 ++ evs2) = (count_displays evs1 + count_displays evs2)%nat.
Proof. unfold count_displays. rewrite filter_app, length_app. reflexivity. Qed.

Lemma count_displays_block grp entry : count_displays (display_block args grp entry) = 1%nat.
Proof.
  destruct entry as [line step]. unfold display_block, count_displays.
  destruct (use_tfboard args); reflexivity.
Qed.

Lemma count_displays_blocks grp ls :
  count_displays (flat_map (display_block args grp) ls) = List.length ls.
Proof.
  induction ls as [| e ls IH]; [reflexivity |].
  simpl flat_map. rewrite count_displays_app, count_displays_block, IH. reflexivity.
Qed.

(** A completed iteration writes nothing, or one display block at a step
    the period divides. *)
Lemma train_iter_trace grp high loss_temp data_iter t evs v t' :
  train_iter args cfg grp high loss_temp data_iter t = (evs, inr (v, t')) ->
  tot_step (vars t') = tot_step (vars t) + 1 /\
  (((tot_step (vars t) + 1) mod TRAIN_DISPLAY cfg =? 0) = false /\ evs = []
   \/
   ((tot_step (vars t) + 1) mod TRAIN_DISPLAY cfg =? 0) = true /\
   exists line,
     evs = display_block args grp (line, tot_step (vars t) + 1) /\
     line_of args grp (line, tot_step (vars t) + 1) /\
     d_lr line = lr (vars t)).
Proof.
  unfold train_iter, display_block, line_of.
  destruct (py_next data_iter) as [[data it'] |]; run; [| discriminate].
  destruct (forward _ _ _ _ _) as [out m].
  destruct (opt_step _ _) as [opt m']. run.
  destruct (TRAIN_DISPLAY cfg =? 0); run; [discriminate |].
  destruct ((tot_step (vars t) + 1) mod TRAIN_DISPLAY cfg =? 0); run.
  - destruct (use_tfboard args); run.
    + rewrite for_each_emit_events. intros H. inversion H; subst. clear H.
      split; [reflexivity |]. right. split; [reflexivity |].
      match goal with |- context [TqdmDisplay ?l] => exists l end.
      split; [reflexivity |]. simpl. auto.
    + intros H. inversion H; subst. clear H.
      split; [reflexivity |]. right. split; [reflexivity |].
      match goal with |- context [TqdmDisplay ?l] => exists l end.
      split; [reflexivity |]. simpl. auto.
  - intros H. inversion H; subst. split; [reflexivity |]. left. auto.
Qed.

Lemma blocks_between_same grp a : blocks_between args cfg grp [] a a.
Proof.
  exists []. split; [reflexivity |]. split; [| constructor].
  rewrite display_steps_same. reflexivity.
Qed.

Lemma blocks_between_app grp evs1 evs2 a b c :
  a <= b -> b <= c ->
  blocks_between args cfg grp evs1 a b -> blocks_between args cfg grp evs2 b c ->
  blocks_between args cfg grp (evs1 ++ evs2) a c.
Proof.
  intros H1 H2 (ls1 & E1 & S1 & F1) (ls2 & E2 & S2 & F2).
  exists (ls1 ++ ls2)%list. split; [| split].
  - rewrite flat_map_app, E1, E2. reflexivity.
  - rewrite map_app, S1, S2. symmetry. apply display_steps_app; assumption.
  - apply Forall_app. split; assumption.
Qed.

Lemma train_iter_blocks grp high loss_temp data_iter t evs v t' :
  train_iter args cfg grp high loss_temp data_iter t = (evs, inr (v, t')) ->
  tot_step (vars t') = tot_step (vars t) + 1 /\
  blocks_between args cfg grp evs (tot_step (vars t)) (tot_step (vars t) + 1).
Proof.
  intros H. destruct (@train_iter_trace grp high loss_temp data_iter t evs v t' H) as (Hs & [[Hm He] | (Hm & line & He & Hl & _)]).
  - split; [exact Hs |]. subst evs. exists []. split; [reflexivity |].
    split; [| constructor]. rewrite display_steps_one, Hm. reflexivity.
  - split; [exact Hs |]. subst evs. exists [(line, tot_step (vars t) + 1)].
    split; [simpl; rewrite app_nil_r; reflexivity |].
    split; [| constructor; [exact Hl | constructor]].
    rewrite display_steps_one, Hm. reflexivity.
Qed.

Lemma iter_loop_blocks grp high l : forall v t evs v' t',
  iter_loop args cfg grp high l v t = (evs, inr (v', t')) ->
  tot_step (vars t) <= tot_step (vars t') /\
  blocks_between args cfg grp evs (tot_step (vars t)) (tot_step (vars t')).
Proof.
  unfold iter_loop. induction l as [| a l IH]; intros [lt di] t evs v' t' H.
  - simpl in H. inversion H; subst. split; [lia | apply blocks_between_same].
  - simpl in H. apply bind_inv in H.
    destruct H as (ev1 & [lt1 di1] & t1 & ev2 & H1 & H2 & ->).
    apply train_iter_blocks in H1. destruct H1 as [Hs1 Hb1].
    apply IH in H2. destruct H2 as [Hs2 Hb2].
    split; [lia |].
    apply blocks_between_app with (b := tot_step (vars t1)); try lia.
    + rewrite Hs1. exact Hb1.
    + exact Hb2.
Qed.

Lemma train_epoch_blocks su grp epoch t evs t' :
  train_epoch args cfg su grp epoch t = (evs, inr (tt, t')) ->
  tot_step (vars t) <= tot_step (vars t') /\
  blocks_between args cfg grp evs (tot_step (vars t)) (tot_step (vars t')).
Proof.
  intros H.
  destruct (@train_epoch_inv T args cfg su grp epoch t evs t' H) as (Hstep & _).
  rewrite train_epoch_unfold in H by exact Hstep.
  apply bind_inv in H. destruct H as (ev1 & v & t1 & ev2 & H1 & H2 & ->).
  inversion H2; subst. rewrite app_nil_r.
  apply iter_loop_blocks in H1.
  destruct (decay_epoch cfg epoch); exact H1.
Qed.

Lemma epoch_loop_blocks su grp k : forall t evs t',
  epoch_loop args cfg su grp (Z.of_nat k) t = (evs, inr (tt, t')) ->
  tot_step (vars t) <= tot_step (vars t') /\
  blocks_between args cfg grp evs (tot_step (vars t)) (tot_step (vars t')).
Proof.
  induction k as [| k IH]; intros t evs t' H.
  - unfold epoch_loop in H. simpl in H. inversion H; subst.
    split; [lia | apply blocks_between_same].
  - replace (Z.of_nat (S k)) with (Z.of_nat k + 1) in H by lia.
    rewrite epoch_loop_snoc in H by lia.
    apply bind_inv in H. destruct H as (ev1 & [] & t1 & ev2 & H1 & H2 & ->).
    apply IH in H1. destruct H1 as [Hs1 Hb1].
    apply train_epoch_blocks in H2. destruct H2 as [Hs2 Hb2].
    split; [lia |].
    apply blocks_between_app with (b := tot_step (vars t1)); assumption.
Qed.

Lemma epoch_loop_blocks_any su grp n t evs t' :
  epoch_loop args cfg su grp n t = (evs, inr (tt, t')) ->
  tot_step (vars t) <= tot_step (vars t') /\
  blocks_between args cfg grp evs (tot_step (vars t)) (tot_step (vars t')).
Proof.
  intros H. destruct (Z.le_gt_cases n 0) as [Hn | Hn].
  - unfold epoch_loop in H. rewrite range_nil in H by lia. simpl in H.
    inversion H; subst. split; [lia | apply blocks_between_same].
  - replace n with (Z.of_nat (Z.to_nat n)) in H by lia.
    exact (@epoch_loop_blocks su grp (Z.to_nat n) t evs t' H).
Qed.

(** X9. The trace of a group that completes: the line of the roidb
    count; then one display block for every step from 1 to the last that
    [cfg.TRAIN.DISPLAY] divides, in increasing order, each the display
    line of this session and group followed, when tensorboard is on, by
    its six scalars at that step; then the checkpoint, the line naming it
    and the line that the group is done. *)
Theorem X9_trace_of_a_group dir group_cls grp sc evs sc' :
  train_group args cfg dir group_cls grp sc = (evs, inr (tt, sc')) ->
  exists su t ls ck,
    sc' = {| globals := glob t; prev := Some (vars t) |} /\
    checkpoint args cfg t = inr ck /\
    evs = (TqdmWrite (Py.str (train_size su) ++ " roidb entries")
           :: flat_map (display_block args grp) ls ++ closing args dir grp ck)%list /\
    map snd ls = display_steps cfg 0 (tot_step (vars t)) /\
    Forall (line_of args grp) ls /\
    0 <= tot_step (vars t).
Proof.
  intros H.
  destruct (train_group_cases args cfg dir group_cls grp sc)
    as [(ev & e & Hs & Hg) | [(ev & su & loc & ev' & e & Hs & Hl & Hg)
                             | [(ev & su & loc & ev' & t & Hs & Hl & _ & Hg)
                               | (ev & su & loc & ev' & t & ck & Hs & Hl & _ & Hck & Hg)]]];
    rewrite Hg in H; inversion H; subst; clear H.
  destruct (@group_setup_inv T args cfg _ _ _ _ _ _ _ Hs)
    as (m0 & base & imdb & roidb & rl & ri & _ & _ & _ & _ & _ & _ & _ & _ & _ & _ & _ & _
        & Hloc & _ & Hev).
  apply epoch_loop_blocks_any in Hl. destruct Hl as [Hle (ls & E & S & F)].
  assert (H0 : tot_step loc = 0) by (subst loc; reflexivity).
  simpl in Hle, S. rewrite H0 in Hle, S.
  exists su, t, ls, ck. subst ev ev'. repeat split; auto.
Qed.

(** X10. With a positive display period, a group that completes has
    written [tot_step // DISPLAY] display lines, where [tot_step] counts
    the iterations of all its epochs. *)
Theorem X10_number_of_display_lines dir group_cls grp sc evs sc' :
  train_group args cfg dir group_cls grp sc = (evs, inr (tt, sc')) ->
  0 < TRAIN_DISPLAY cfg ->
  exists loc',
    prev sc' = Some loc' /\
    Z.of_nat (count_displays evs) = tot_step loc' / TRAIN_DISPLAY cfg.
Proof.
  intros H Hd.
  destruct (train_group_cases args cfg dir group_cls grp sc)
    as [(ev & e & Hs & Hg) | [(ev & su & loc & ev' & e & Hs & Hl & Hg)
                             | [(ev & su & loc & ev' & t & Hs & Hl & _ & Hg)
                               | (ev & su & loc & ev' & t & ck & Hs & Hl & _ & Hck & Hg)]]];
    rewrite Hg in H; inversion H; subst; clear H.
  destruct (@group_setup_inv T args cfg _ _ _ _ _ _ _ Hs)
    as (m0 & base & imdb & roidb & rl & ri & _ & _ & _ & _ & _ & _ & _ & _ & _ & _ & _ & _
        & Hloc & _ & Hev).
  apply epoch_loop_blocks_any in Hl. destruct Hl as [Hle (ls & E & S & F)].
  assert (H0 : tot_step loc = 0) by (subst loc; reflexivity).
  simpl in Hle, S. rewrite H0 in Hle, S.
  exists (vars t). split; [reflexivity |].
  subst ev ev'. rewrite !count_displays_app, count_displays_blocks.
  change (count_displays [TqdmWrite (Py.str (train_size su) ++ " roidb entries")]) with 0%nat.
  change (count_displays (closing args dir grp ck)) with 0%nat.
  rewrite Nat.add_0_l, Nat.add_0_r, <- (length_map snd ls), S.
  pose proof (display_steps_length 0 (Z.to_nat (tot_step (vars t))) Hd) as Hlen.
  rewrite Z.add_0_l, Z2Nat.id in Hlen by exact Hle.
  rewrite Hlen, Z.div_0_l by lia. lia.
Qed.

End Display.

(** ** The events of the whole script *)

Section Frame.

Context {T : Torch}.
Variable args : Args.
Variable cfg : Cfg.

Open Scope py_scope.

Section Events.

(** A property of events that holds of everything a group can write. *)
Variable E : Event -> Prop.
Hypothesis E_write : forall text, E (TqdmWrite text).
Hypothesis E_display : forall line, E (TqdmDisplay line).
Hypothesis E_scalar : use_tfboard args = true -> forall tag value step, E (AddScalar tag value step).
Hypothesis E_save : forall state filename, E (SaveCheckpoint state filename).
Hypothesis E_done :
  forall grp, E (Print ("========== Group " ++ Py.str grp ++ " Done ==========") newlines5).

Lemma display_block_events grp entry : Forall E (display_block args grp entry).
Proof.
  destruct entry as [line step]. unfold display_block. constructor; [apply E_display |].
  destruct (use_tfboard args) eqn:Htf; [| constructor].
  unfold tfboard_scalars. simpl. repeat constructor; apply E_scalar; reflexivity.
Qed.

Lemma train_iter_events grp high loss_temp data_iter t :
  Forall E (fst (train_iter args cfg grp high loss_temp data_iter t)).
Proof.
  destruct (train_iter args cfg grp high loss_temp data_iter t) as [evs [e | [v t']]] eqn:H.
  - destruct (train_iter_cases args cfg grp high loss_temp data_iter t)
      as [[_ H'] | [(data & it' & _ & _ & H')
                   | (data & it' & evs0 & lt' & t0 & _ & _ & H' & _)]];
      rewrite H' in H; inversion H; subst; constructor.
  - simpl. destruct (@train_iter_trace T args cfg _ _ _ _ _ _ _ _ H) as (_ & [[_ He] | (_ & line & He & _)]);
      subst evs; [constructor | apply display_block_events].
Qed.

Lemma epoch_loop_events su grp n t : Forall E (fst (epoch_loop args cfg su grp n t)).
Proof.
  assert (Hh : hoare (fun _ : Train => True) (epoch_loop args cfg su grp n)
                     (fun _ _ => True) E (fun _ => True)).
  { unfold epoch_loop. apply hoare_for_each with (I := fun _ : Train => True).
    intros e _. unfold train_epoch.
    eapply hoare_bind with (R := fun _ _ => True); [apply hoare_lift; auto |].
    intros r. eapply hoare_bind with (R := fun _ _ => True).
    { apply hoare_when; [| auto]. intros _. apply hoare_modify. auto. }
    intros _. eapply hoare_bind with (R := fun _ _ => True); [| intros; apply hoare_ret; auto].
    apply hoare_for_fold with (I := fun (_ : num * DataIter) (_ : Train) => True).
    intros a [lt di] _ s _. split; [apply train_iter_events |].
    destruct (snd _) as [e0 | [v s']]; exact I. }
  exact (proj1 (Hh t I)).
Qed.

Lemma group_setup_writes group_cls grp G :
  Forall E (fst (group_setup args cfg group_cls grp G)).
Proof.
  destruct (group_setup args cfg group_cls grp G) as [ev [e | [[su loc] G']]] eqn:H; simpl.
  - assert (Hev : ev = [] \/ exists text, ev = [TqdmWrite text]).
    { revert H. unfold group_setup, get_net, get_optimizer.
      destruct (Py.index group_cls grp) as [e1 | low]; run;
        [intros H; inversion H; auto |].
      destruct (Py.index group_cls (grp + 1)) as [e1 | high]; run;
        [intros H; inversion H; auto |].
      destruct (high - 1 =? 0); run; [intros H; inversion H; auto |].
      destruct (net args =? "vgg16")%string;
        [| destruct (Py.startswith (net args) "res");
           [destruct (py_int (Py.slice_from (net args) 3)) |]];
        run; try (intros H; inversion H; auto; fail).
      all: destruct (collect_params _ _ _) as [ps special].
      all: destruct (TRAIN_OPTIMIZER cfg =? "adam")%string;
        [| destruct (TRAIN_OPTIMIZER cfg =? "sgd")%string]; run;
        try (intros H; inversion H; auto; fail).
      all: destruct (combined_roidb _ _ _ _) as [[[imdb roidb] rl] ri]; run.
      all: destruct (TRAIN_BATCH_SIZE cfg =? 0); run; intros H; inversion H.
      all: right; eexists; reflexivity. }
    destruct Hev as [-> | [text ->]]; repeat constructor. apply E_write.
  - destruct (@group_setup_inv T args cfg _ _ _ _ _ _ _ H)
      as (m0 & base & imdb & roidb & rl & ri & _ & _ & _ & _ & _ & _ & _ & _ & _ & _ & _ & _
          & _ & _ & Hev).
    subst ev. repeat constructor. apply E_write.
Qed.

Lemma train_group_events dir group_cls grp sc :
  Forall E (fst (train_group args cfg dir group_cls grp sc)).
Proof.
  destruct (train_group_cases args cfg dir group_cls grp sc)
    as [(ev & e & Hs & Hg) | [(ev & su & loc & ev' & e & Hs & Hl & Hg)
                             | [(ev & su & loc & ev' & t & Hs & Hl & _ & Hg)
                               | (ev & su & loc & ev' & t & ck & Hs & Hl & _ & _ & Hg)]]];
    rewrite Hg; simpl.
  - pose proof (group_setup_writes group_cls grp (globals sc)) as H. rewrite Hs in H. exact H.
  - apply Forall_app. split.
    + pose proof (group_setup_writes group_cls grp (globals sc)) as H. rewrite Hs in H. exact H.
    + pose proof (epoch_loop_events su grp (TRAIN_MAX_EPOCH cfg)
                    {| glob := globals sc; vars := loc |}) as H. rewrite Hl in H. exact H.
  - apply Forall_app. split.
    + pose proof (group_setup_writes group_cls grp (globals sc)) as H. rewrite Hs in H. exact H.
    + pose proof (epoch_loop_events su grp (TRAIN_MAX_EPOCH cfg)
                    {| glob := globals sc; vars := loc |}) as H. rewrite Hl in H. exact H.
  - apply Forall_app. split; [| apply Forall_app; split].
    + pose proof (group_setup_writes group_cls grp (globals sc)) as H. rewrite Hs in H. exact H.
    + pose proof (epoch_loop_events su grp (TRAIN_MAX_EPOCH cfg)
                    {| glob := globals sc; vars := loc |}) as H. rewrite Hl in H. exact H.
    + unfold closing. repeat constructor; auto.
Qed.

Lemma group_loop_events dir group_cls l sc :
  Forall E (fst (for_each l (train_group args cfg dir group_cls) sc)).
Proof.
  assert (Hh : hoare (fun _ : Script => True) (for_each l (train_group args cfg dir group_cls))
                     (fun _ _ => True) E (fun _ => True)).
  { apply hoare_for_each with (I := fun _ : Script => True).
    intros g _ s _. split; [apply train_group_events |].
    destruct (snd _) as [e0 | [v s']]; exact I. }
  exact (proj1 (Hh sc I)).
Qed.

End Events.


(** X11. Without [--use_tfboard] the script opens no tensorboard logger
    and sends it no scalar, whatever else happens in the run. *)
Theorem X11_no_tensorboard_without_flag :
  use_tfboard args = false -> Forall no_tfboard (fst (main args cfg)).
Proof.
  intros Htf. destruct (save_dir args) as [s | l] eqn:Hs.
  - destruct (@script_frame T args cfg s Hs) as (evs & r & Hloop & Hmain). rewrite Hmain. simpl fst.
    apply Forall_app. split.
    + unfold opening. rewrite Htf. repeat constructor.
    + apply Forall_app. split.
      * pose proof (@group_loop_events no_tfboard (fun _ => I) (fun _ => I)
                      (fun H => ltac:(congruence)) (fun _ _ => I) (fun _ => I)
                      (Py.path_join s [Py.str (session args); net args; dataset args])
                      (bounds cfg) (groups_to_train args cfg)
                      {| globals := init_globals cfg; prev := None |}) as H.
        rewrite Hloop in H. exact H.
      * destruct r; repeat constructor.
  - unfold main, script, output_dir. rewrite Hs, Htf. simpl. constructor.
Qed.



Lemma slice_to_nest {A : Type} (l : list A) (h1 h2 : Z) :
  0 <= h1 <= h2 ->
  exists rest, Py.slice_to l h2 = (Py.slice_to l h1 ++ rest)%list.
Proof.
  intros H. unfold Py.slice_to.
  assert (E1 : (h1 <? 0) = false) by (apply Z.ltb_ge; lia).
  assert (E2 : (h2 <? 0) = false) by (apply Z.ltb_ge; lia).
  rewrite E1, E2.
  exists (skipn (Z.to_nat h1) (firstn (Z.to_nat h2) l)).
  rewrite <- (firstn_skipn (Z.to_nat h1) (firstn (Z.to_nat h2) l)) at 1.
  f_equal. rewrite firstn_firstn. f_equal. lia.
Qed.

(** X14. The class lists of the groups nest: when the upper class bound
    of group [g] is at most that of group [g'] and not negative, the
    classes over which the roidb of [g] is built are the first of those
    over which the roidb of [g'] is built. *)
Theorem X14_class_lists_nest group_cls g g' G ev su loc G0 ev' su' loc' G0' :
  group_setup args cfg group_cls g G = (ev, inr ((su, loc), G0)) ->
  group_setup args cfg group_cls g' G = (ev', inr ((su', loc'), G0')) ->
  0 <= now_cls_high su <= now_cls_high su' ->
  exists classes rest imdb roidb rl ri imdb' roidb' rl' ri',
    classes = Py.slice_to (CLASSES cfg) (now_cls_high su) /\
    combined_roidb (dataset args) ("trainvalStep" ++ Py.str g ++ "a") classes (EXT cfg)
    = (imdb, roidb, rl, ri) /\
    train_size su = len_roidb roidb /\
    combined_roidb (dataset args) ("trainvalStep" ++ Py.str g' ++ "a")
                   (classes ++ rest)%list (EXT cfg)
    = (imdb', roidb', rl', ri') /\
    train_size su' = len_roidb roidb'.
Proof.
  intros H H' Hle.
  destruct (@group_setup_inv T args cfg _ _ _ _ _ _ _ H)
    as (m0 & base & imdb & roidb & rl & ri & _ & _ & _ & _ & _ & _ & Hdb & Hsize & _).
  destruct (@group_setup_inv T args cfg _ _ _ _ _ _ _ H')
    as (m0' & base' & imdb' & roidb' & rl' & ri' & _ & _ & _ & _ & _ & _ & Hdb' & Hsize' & _).
  destruct (@slice_to_nest _ (CLASSES cfg) _ _ Hle) as [rest Hrest].
  exists (Py.slice_to (CLASSES cfg) (now_cls_high su)), rest,
    imdb, roidb, rl, ri, imdb', roidb', rl', ri'.
  rewrite <- Hrest. auto.
Qed.

End Frame.

(** ** The failures and the traces on the sample inputs *)

Lemma X5_witness :
  (group_setup Sample.args Sample.cfg_step0 Sample.group_cls 0 (globals Sample.start)
   = (Sample.ev0, inr ((Sample.su0, Sample.loc0), globals Sample.start)) /\
   TRAIN_LEARNING_RATE_DECAY_STEP Sample.cfg_step0 = 0 /\
   1 <= TRAIN_MAX_EPOCH Sample.cfg_step0) /\
  train_group Sample.args Sample.cfg_step0 "out" Sample.group_cls 0 Sample.start
  = (Sample.ev0, inl Py.ZeroDivisionError).
Proof.
  assert (H1 : group_setup Sample.args Sample.cfg_step0 Sample.group_cls 0
                           (globals Sample.start)
               = (Sample.ev0, inr ((Sample.su0, Sample.loc0), globals Sample.start)))
    by (vm_compute; reflexivity).
  assert (H2 : TRAIN_LEARNING_RATE_DECAY_STEP Sample.cfg_step0 = 0) by reflexivity.
  assert (H3 : 1 <= TRAIN_MAX_EPOCH Sample.cfg_step0) by (simpl; lia).
  split; [auto |].
  apply (@X5_zero_decay_step Sample.torch Sample.args Sample.cfg_step0 "out"
           Sample.group_cls 0 Sample.start Sample.ev0 Sample.su0 Sample.loc0 H1 H2 H3).
Defined.

Lemma X6_witness :
  (group_setup Sample.args Sample.cfg_noepoch Sample.group_cls 0 (globals Sample.start)
   = (Sample.ev0, inr ((Sample.su0, Sample.loc0), globals Sample.start)) /\
   TRAIN_MAX_EPOCH Sample.cfg_noepoch <= 0 /\
   can_save Sample.cfg_noepoch = true) /\
  exists ck,
    train_group Sample.args Sample.cfg_noepoch "out" Sample.group_cls 0 Sample.start
    = ((Sample.ev0 ++ closing Sample.args "out" 0 ck)%list,
       inr (tt, {| globals := globals Sample.start; prev := Some Sample.loc0 |})) /\
    ck_epoch ck = 0.
Proof.
  assert (H1 : group_setup Sample.args Sample.cfg_noepoch Sample.group_cls 0
                           (globals Sample.start)
               = (Sample.ev0, inr ((Sample.su0, Sample.loc0), globals Sample.start)))
    by (vm_compute; reflexivity).
  assert (H2 : TRAIN_MAX_EPOCH Sample.cfg_noepoch <= 0) by (simpl; lia).
  split; [repeat split; auto |].
  destruct (@X6_no_epoch_still_saves Sample.torch Sample.args Sample.cfg_noepoch "out"
              Sample.group_cls 0 Sample.start Sample.ev0 Sample.su0 Sample.loc0 H1 H2)
    as (_ & Hsave & _).
  destruct (Hsave eq_refl) as (ck & m0 & Hg & Hep & _).
  exists ck. split; [exact Hg | exact Hep].
Defined.

Lemma X7_witness :
  (group_setup Sample.args Sample.cfg_display0 Sample.group_cls 0 (globals Sample.start)
   = (Sample.ev0, inr ((Sample.su0, Sample.loc0), globals Sample.start)) /\
   TRAIN_LEARNING_RATE_DECAY_STEP Sample.cfg_display0 <> 0 /\
   TRAIN_DISPLAY Sample.cfg_display0 = 0 /\
   1 <= TRAIN_MAX_EPOCH Sample.cfg_display0 /\
   1 <= iters_per_epoch Sample.su0) /\
  train_group Sample.args Sample.cfg_display0 "out" Sample.group_cls 0 Sample.start
  = (Sample.ev0, inl Py.ZeroDivisionError).
Proof.
  assert (H1 : group_setup Sample.args Sample.cfg_display0 Sample.group_cls 0
                           (globals Sample.start)
               = (Sample.ev0, inr ((Sample.su0, Sample.loc0), globals Sample.start)))
    by (vm_compute; reflexivity).
  assert (H2 : TRAIN_LEARNING_RATE_DECAY_STEP Sample.cfg_display0 <> 0) by (simpl; lia).
  assert (H3 : TRAIN_DISPLAY Sample.cfg_display0 = 0) by reflexivity.
  assert (H4 : 1 <= TRAIN_MAX_EPOCH Sample.cfg_display0) by (simpl; lia).
  assert (H5 : 1 <= iters_per_epoch Sample.su0) by (simpl; lia).
  split; [repeat split; auto |].
  apply (@X7_zero_display_period Sample.torch Sample.args Sample.cfg_display0 "out"
           Sample.group_cls 0 Sample.start Sample.ev0 Sample.su0 Sample.loc0
           H1 H2 H3 H4 H5).
Defined.

Lemma X8_witness :
  (group_setup Sample.args Sample.cfg Sample.group_cls 0 (globals Sample.start)
   = (Sample.ev0, inr ((Sample.su0, Sample.loc0), globals Sample.start)) /\
   TRAIN_LEARNING_RATE_DECAY_STEP Sample.cfg <> 0 /\
   TRAIN_DISPLAY Sample.cfg <> 0 /\
   1 <= TRAIN_MAX_EPOCH Sample.cfg /\
   can_save Sample.cfg = true /\
   has_batches (List.length (Py.range 0 (iters_per_epoch Sample.su0)))
               (py_iter (dataloader Sample.su0)) = true) /\
  exists evs sc',
    train_group Sample.args Sample.cfg "out" Sample.group_cls 0 Sample.start
    = (evs, inr (tt, sc')).
Proof.
  assert (H2 : TRAIN_LEARNING_RATE_DECAY_STEP Sample.cfg <> 0) by (simpl; lia).
  assert (H3 : TRAIN_DISPLAY Sample.cfg <> 0) by (simpl; lia).
  assert (H4 : 1 <= TRAIN_MAX_EPOCH Sample.cfg) by (simpl; lia).
  assert (H5 : has_batches (List.length (Py.range 0 (iters_per_epoch Sample.su0)))
                           (py_iter (dataloader Sample.su0)) = true)
    by (vm_compute; reflexivity).
  split; [repeat split; auto; vm_compute; reflexivity |].
  destruct (@X8_loader_runs_out Sample.torch Sample.args Sample.cfg "out"
              Sample.group_cls 0 Sample.start Sample.ev0 Sample.su0 Sample.loc0
              sample_setup0 H2 H3 H4 eq_refl) as ([_ Hrun] & _).
  exact (Hrun H5).
Defined.

(** Group 0 of the sample run completes. *)
Lemma sample_group0 :
  train_group Sample.args Sample.cfg "out" Sample.group_cls 0 Sample.start
  = (Sample.events0, inr (tt, Sample.after0)).
Proof. vm_compute. reflexivity. Defined.

Lemma X9_witness :
  train_group Sample.args Sample.cfg "out" Sample.group_cls 0 Sample.start
  = (Sample.events0, inr (tt, Sample.after0)) /\
  exists t ls,
    Sample.after0 = {| globals := glob t; prev := Some (vars t) |} /\
    map snd ls = display_steps Sample.cfg 0 (tot_step (vars t)) /\
    Forall (line_of Sample.args 0) ls.
Proof.
  split; [exact sample_group0 |].
  destruct (@X9_trace_of_a_group Sample.torch Sample.args Sample.cfg "out"
              Sample.group_cls 0 Sample.start Sample.events0 Sample.after0 sample_group0)
    as (su & t & ls & ck & Hsc & _ & _ & Hsteps & Hlines & _).
  exists t, ls. split; [exact Hsc |]. split; [exact Hsteps | exact Hlines].
Defined.

Lemma X10_witness :
  (train_group Sample.args Sample.cfg "out" Sample.group_cls 0 Sample.start
   = (Sample.events0, inr (tt, Sample.after0)) /\
   0 < TRAIN_DISPLAY Sample.cfg) /\
  exists loc',
    prev Sample.after0 = Some loc' /\
    Z.of_nat (count_displays Sample.events0) = tot_step loc' / TRAIN_DISPLAY Sample.cfg.
Proof.
  assert (Hd : 0 < TRAIN_DISPLAY Sample.cfg) by (simpl; lia).
  split; [split; [exact sample_group0 | exact Hd] |].
  apply (@X10_number_of_display_lines Sample.torch Sample.args Sample.cfg "out"
           Sample.group_cls 0 Sample.start Sample.events0 Sample.after0 sample_group0 Hd).
Defined.

Lemma X11_witness :
  use_tfboard Sample.args = false /\
  Forall no_tfboard (fst (main Sample.args Sample.cfg)).
Proof.
  split; [reflexivity |].
  apply (@X11_no_tensorboard_without_flag Sample.torch Sample.args Sample.cfg eq_refl).
Defined.



(** The setup of group 1 from the same globals. *)
Lemma sample_setup1 :
  group_setup Sample.args Sample.cfg Sample.group_cls 1 (globals Sample.start)
  = (Sample.ev1, inr ((Sample.su1, Sample.loc1), globals Sample.start)).
Proof. vm_compute. reflexivity. Defined.

Lemma X14_witness :
  (group_setup Sample.args Sample.cfg Sample.group_cls 0 (globals Sample.start)
   = (Sample.ev0, inr ((Sample.su0, Sample.loc0), globals Sample.start)) /\
   group_setup Sample.args Sample.cfg Sample.group_cls 1 (globals Sample.start)
   = (Sample.ev1, inr ((Sample.su1, Sample.loc1), globals Sample.start)) /\
   0 <= now_cls_high Sample.su0 <= now_cls_high Sample.su1) /\
  exists classes rest,
    classes = Py.slice_to (CLASSES Sample.cfg) (now_cls_high Sample.su0) /\
    Py.slice_to (CLASSES Sample.cfg) (now_cls_high Sample.su1) = (classes ++ rest)%list.
Proof.
  assert (Hle : 0 <= now_cls_high Sample.su0 <= now_cls_high Sample.su1) by (simpl; lia).
  split; [split; [exact sample_setup0 | split; [exact sample_setup1 | exact Hle]] |].
  destruct (@X14_class_lists_nest Sample.torch Sample.args Sample.cfg Sample.group_cls 0 1
              (globals Sample.start) Sample.ev0 Sample.su0 Sample.loc0 (globals Sample.start)
              Sample.ev1 Sample.su1 Sample.loc1 (globals Sample.start)
              sample_setup0 sample_setup1 Hle)
    as (classes & rest & _ & _ & _ & _ & _ & _ & _ & _ & Hc & _).
  exists classes, [(List.nth 3 (CLASSES Sample.cfg) ""); (List.nth 4 (CLASSES Sample.cfg) "")].
  split; [exact Hc |]. subst classes. reflexivity.
Defined.
